(** * Persistence layer of the KIS fitness tracker

    A shallow embedding of the storage code of the repository
    (src/infrastructure/storage and the export repository) and the
    properties of its specification.

    Layout: the JavaScript values the code manipulates ([Js]), the date
    text format of [Date.prototype.toISOString] ([IsoDate]), the runtime
    state and the effect monad, the two storage engines ([IndexedDB],
    [LocalStorage]), the repositories built on an engine, the export
    repository, the storage factory; then the lemmas and the theorems. *)

From stdpp Require Import gmap strings list fin_maps sorting.
From Stdlib Require Import ZArith String Ascii Lia DecimalString.
From Stdlib Require OrderedTypeEx.

Set Warnings "-register-all".
Open Scope Z_scope.

(** ** JavaScript values *)

Module Js.

(** Numbers are carried as integers (the storage layer never computes on
    numeric payloads); a [Date] holds its time value in milliseconds since
    the epoch, [None] being the invalid date. Objects are finite maps from
    the names of their own properties to values: the enumeration order of
    properties is not represented. [VFunc] stands for the built-in methods
    every object inherits. *)
Inductive value : Type :=
| VUndef
| VNull
| VBool (b : bool)
| VNum (n : Z)
| VStr (s : string)
| VDate (t : option Z)
| VArr (l : list value)
| VObj (m : gmap string value)
| VFunc (name : string).

Inductive error : Type :=
| TypeError
| RangeError
| ReferenceError
| DOMException (name : string)
| Error (message : string).

(** A pure evaluation that may throw. *)
Inductive outcome (A : Type) : Type :=
| Ok (a : A)
| Raise (e : error).
Arguments Ok {A} a.
Arguments Raise {A} e.

Definition obind {A B} (o : outcome A) (k : A -> outcome B) : outcome B :=
  match o with Ok a => k a | Raise e => Raise e end.

Fixpoint omapM {A B} (f : A -> outcome B) (l : list A) : outcome (list B) :=
  match l with
  | [] => Ok []
  | x :: l' => obind (f x) (fun y => obind (omapM f l') (fun ys => Ok (y :: ys)))
  end.

(** [!v] is [negb (truthy v)]. *)
Definition truthy (v : value) : bool :=
  match v with
  | VUndef | VNull => false
  | VBool b => b
  | VNum n => negb (n =? 0)
  | VStr s => negb (String.eqb s "")
  | VDate _ | VArr _ | VObj _ | VFunc _ => true
  end.

(** The properties of [Object.prototype]. *)
Definition objectPrototype : list string :=
  ["constructor"; "__proto__"; "hasOwnProperty"; "isPrototypeOf";
   "propertyIsEnumerable"; "toLocaleString"; "toString"; "valueOf";
   "__defineGetter__"; "__defineSetter__"; "__lookupGetter__"; "__lookupSetter__"].

(** What [o[k]] finds when [o] has no own property [k]: a built-in method,
    the prototype object itself under [__proto__], or [undefined]. *)
Definition inheritedValue (k : string) : value :=
  if bool_decide (k ∈ objectPrototype) then
    if String.eqb k "__proto__" then VObj ∅ else VFunc k
  else VUndef.

(** [o[k]] on a plain object with own properties [m]. *)
Definition lookupProp (m : gmap string value) (k : string) : value :=
  match m !! k with
  | Some v => v
  | None => inheritedValue k
  end.

(** [o[k] = v] on a plain object: assigning to an inherited [__proto__]
    changes the prototype and creates no own property. *)
Definition assignProp (m : gmap string value) (k : string) (v : value)
    : gmap string value :=
  match m !! k with
  | Some _ => <[k := v]> m
  | None => if String.eqb k "__proto__" then m else <[k := v]> m
  end.

(** [v[k]] and [v.k]: reading a property of [undefined] or [null] throws;
    the properties of arrays, strings and functions (indices, length,
    methods) are not represented. *)
Definition get_prop (v : value) (k : string) : outcome value :=
  match v with
  | VUndef | VNull => Raise TypeError
  | VObj m => Ok (lookupProp m k)
  | _ => Ok VUndef
  end.

(** The own enumerable properties copied by [{...v}]. *)
Definition spread (v : value) : gmap string value :=
  match v with
  | VObj m => m
  | _ => ∅
  end.

(** [{...a, ...b}]: later properties win. *)
Definition merge (a b : gmap string value) : gmap string value := b ∪ a.

Definition isArray (v : value) : bool :=
  match v with VArr _ => true | _ => false end.

(** [a === b]; two distinct objects (arrays, dates) are never identical. *)
Definition strict_eq (a b : value) : bool :=
  match a, b with
  | VUndef, VUndef | VNull, VNull => true
  | VBool x, VBool y => Bool.eqb x y
  | VNum x, VNum y => x =? y
  | VStr x, VStr y => String.eqb x y
  | _, _ => false
  end.

Definition Z_to_string (n : Z) : string := NilZero.string_of_int (Z.to_int n).

End Js.
Export Js.

(** ** ISO-8601 date text

    [Date.prototype.toISOString] and [Date.parse] on the text it emits,
    following the day and year arithmetic of the ECMAScript specification
    (Day, TimeWithinDay, DayFromYear, YearFromTime, MonthFromTime,
    DateFromTime, MakeDay, MakeTime, TimeClip). Years 0 to 9999 are
    printed with four digits, all others with a sign and six digits. *)

Module IsoDate.

Definition msPerDay : Z := 86400000.
Definition maxTime : Z := 8640000000000000.

Definition Day (t : Z) : Z := t / msPerDay.
Definition TimeWithinDay (t : Z) : Z := t mod msPerDay.

Definition DayFromYear (y : Z) : Z :=
  365 * (y - 1970) + (y - 1969) / 4 - (y - 1901) / 100 + (y - 1601) / 400.

Definition InLeapYear (y : Z) : bool :=
  (y mod 4 =? 0) && (negb (y mod 100 =? 0) || (y mod 400 =? 0)).

Definition DaysInYear (y : Z) : Z := if InLeapYear y then 366 else 365.

Definition YearFromDay (d : Z) : Z :=
  let y0 := 1970 + (400 * d) / 146097 in
  if d <? DayFromYear y0 then y0 - 1
  else if DayFromYear (y0 + 1) <=? d then y0 + 1
  else y0.

Definition leapDays (leap : bool) : Z := if leap then 1 else 0.

(* first day-in-year of month m (0 = January); 12 gives the year's length *)
Definition monthStart (leap : bool) (m : Z) : Z :=
  let l := leapDays leap in
  if m <=? 0 then 0 else if m =? 1 then 31 else if m =? 2 then 59 + l
  else if m =? 3 then 90 + l else if m =? 4 then 120 + l
  else if m =? 5 then 151 + l else if m =? 6 then 181 + l
  else if m =? 7 then 212 + l else if m =? 8 then 243 + l
  else if m =? 9 then 273 + l else if m =? 10 then 304 + l
  else if m =? 11 then 334 + l else 365 + l.

Definition MonthFromDayInYear (leap : bool) (d : Z) : Z :=
  let l := leapDays leap in
  if d <? 31 then 0 else if d <? 59 + l then 1 else if d <? 90 + l then 2
  else if d <? 120 + l then 3 else if d <? 151 + l then 4
  else if d <? 181 + l then 5 else if d <? 212 + l then 6
  else if d <? 243 + l then 7 else if d <? 273 + l then 8
  else if d <? 304 + l then 9 else if d <? 334 + l then 10 else 11.

Record fields := {
  f_year : Z; f_month : Z; f_date : Z;
  f_hour : Z; f_min : Z; f_sec : Z; f_ms : Z }.

Definition fieldsOfTime (t : Z) : fields :=
  let d := Day t in
  let w := TimeWithinDay t in
  let y := YearFromDay d in
  let leap := InLeapYear y in
  let diy := d - DayFromYear y in
  let m := MonthFromDayInYear leap diy in
  {| f_year := y; f_month := m + 1; f_date := diy - monthStart leap m + 1;
     f_hour := w / 3600000; f_min := (w / 60000) mod 60;
     f_sec := (w / 1000) mod 60; f_ms := w mod 1000 |}.

Definition MakeDay (y m d : Z) : Z :=
  DayFromYear y + monthStart (InLeapYear y) (m - 1) + d - 1.

Definition MakeTime (h mi s ms : Z) : Z :=
  h * 3600000 + mi * 60000 + s * 1000 + ms.

Definition timeOfFields (f : fields) : Z :=
  MakeDay (f_year f) (f_month f) (f_date f) * msPerDay
  + MakeTime (f_hour f) (f_min f) (f_sec f) (f_ms f).

Definition TimeClip (t : Z) : option Z :=
  if (- maxTime <=? t) && (t <=? maxTime) then Some t else None.

Definition digit (n : Z) : ascii := ascii_of_N (48 + Z.to_N n).
Definition undigit (c : ascii) : option Z :=
  let n := Z.of_N (N_of_ascii c) in
  if (48 <=? n) && (n <=? 57) then Some (n - 48) else None.

(* fixed-width decimal, most significant digit first *)
Fixpoint digits (w : nat) (n : Z) : string :=
  match w with
  | O => EmptyString
  | S w' => String (digit (n / 10 ^ Z.of_nat w')) (digits w' (n mod 10 ^ Z.of_nat w'))
  end.

Definition yearString (y : Z) : string :=
  if (0 <=? y) && (y <=? 9999) then digits 4 y
  else if y <? 0 then String "-" (digits 6 (- y))
  else String "+" (digits 6 y).

Definition toISOString (t : Z) : string :=
  let f := fieldsOfTime t in
  yearString (f_year f) +:+ "-" +:+ digits 2 (f_month f) +:+ "-" +:+ digits 2 (f_date f)
  +:+ "T" +:+ digits 2 (f_hour f) +:+ ":" +:+ digits 2 (f_min f) +:+ ":"
  +:+ digits 2 (f_sec f) +:+ "." +:+ digits 3 (f_ms f) +:+ "Z".

(* reading *)
Fixpoint takeDigits (w : nat) (acc : Z) (s : string) : option (Z * string) :=
  match w with
  | O => Some (acc, s)
  | S w' =>
      match s with
      | EmptyString => None
      | String c s' =>
          match undigit c with
          | Some d => takeDigits w' (10 * acc + d) s'
          | None => None
          end
      end
  end.

Definition expect (c : ascii) (s : string) : option string :=
  match s with
  | String c' s' => if Ascii.eqb c c' then Some s' else None
  | EmptyString => None
  end.

Definition takeYear (s : string) : option (Z * string) :=
  match s with
  | String c s' =>
      if Ascii.eqb c "+" then takeDigits 6 0 s'
      else if Ascii.eqb c "-" then
        match takeDigits 6 0 s' with
        | Some (y, r) => if y =? 0 then None else Some (- y, r)
        | None => None
        end
      else takeDigits 4 0 s
  | EmptyString => None
  end.

Definition fieldsValid (f : fields) : bool :=
  (1 <=? f_month f) && (f_month f <=? 12) && (1 <=? f_date f) && (f_date f <=? 31)
  && (f_hour f <=? 23) && (f_min f <=? 59) && (f_sec f <=? 59).

Definition parseFields (s : string) : option fields :=
  '(y, s) ← takeYear s; s ← expect "-" s;
  '(mo, s) ← takeDigits 2 0 s; s ← expect "-" s;
  '(d, s) ← takeDigits 2 0 s; s ← expect "T" s;
  '(h, s) ← takeDigits 2 0 s; s ← expect ":" s;
  '(mi, s) ← takeDigits 2 0 s; s ← expect ":" s;
  '(se, s) ← takeDigits 2 0 s; s ← expect "." s;
  '(ms, s) ← takeDigits 3 0 s; s ← expect "Z" s;
  match s with
  | EmptyString =>
      Some {| f_year := y; f_month := mo; f_date := d; f_hour := h;
              f_min := mi; f_sec := se; f_ms := ms |}
  | _ => None
  end.

Definition parse (s : string) : option Z :=
  f ← parseFields s;
  if fieldsValid f then TimeClip (timeOfFields f) else None.

(** Field-wise comparison, most significant field first. *)
Definition fields_compare (a b : fields) : comparison :=
  match f_year a ?= f_year b with Eq =>
  match f_month a ?= f_month b with Eq =>
  match f_date a ?= f_date b with Eq =>
  match f_hour a ?= f_hour b with Eq =>
  match f_min a ?= f_min b with Eq =>
  match f_sec a ?= f_sec b with Eq => f_ms a ?= f_ms b
  | c => c end | c => c end | c => c end | c => c end | c => c end | c => c end.

(** The time values whose year is printed with four digits: from
    0000-01-01T00:00:00.000Z to 9999-12-31T23:59:59.999Z. *)
Definition yearZeroStart : Z := -62167219200000.
Definition year9999End : Z := 253402300799999.

Definition fourDigitYear (t : Z) : Prop := yearZeroStart <= t <= year9999End.

(** The time values a [Date] can hold. *)
Definition inRange (t : Z) : Prop := - maxTime <= t <= maxTime.

End IsoDate.

(** ** Conversions and operators on values *)

Module JsOps.

(** [String(v)] and the conversion of a value to a property key. For a
    valid [Date] the platform prints a locale dependent text; its ISO text
    stands in for it here. *)
Fixpoint ToString (v : value) : string :=
  match v with
  | VUndef => "undefined"
  | VNull => "null"
  | VBool true => "true"
  | VBool false => "false"
  | VNum n => Z_to_string n
  | VStr s => s
  | VDate (Some t) => IsoDate.toISOString t
  | VDate None => "Invalid Date"
  | VArr l =>
      String.concat ","
        (List.map (fun x => match x with VUndef | VNull => ""%string | _ => ToString x end) l)
  | VObj _ => "[object Object]"
  | VFunc name => "function " +:+ name +:+ "() { [native code] }"
  end.

(** Numeric text: an optional sign and decimal digits; the empty text is 0.
    Other numeric literals (fractions, exponents, hexadecimal, surrounding
    blanks) are not represented and read as NaN ([None]). *)
Fixpoint digitsValue (acc : Z) (s : string) : option Z :=
  match s with
  | EmptyString => Some acc
  | String c s' =>
      match IsoDate.undigit c with
      | Some d => digitsValue (10 * acc + d) s'
      | None => None
      end
  end.

Definition StringToNumber (s : string) : option Z :=
  match s with
  | EmptyString => Some 0
  | String c s' =>
      if Ascii.eqb c "-" then
        match s' with EmptyString => None | _ => Z.opp <$> digitsValue 0 s' end
      else if Ascii.eqb c "+" then
        match s' with EmptyString => None | _ => digitsValue 0 s' end
      else digitsValue 0 s
  end.

(** ToPrimitive with hint number: a date gives its time value. *)
Definition ToPrimitive (v : value) : value :=
  match v with
  | VDate (Some t) => VNum t
  | VDate None => VUndef
  | VArr _ | VObj _ | VFunc _ => VStr (ToString v)
  | _ => v
  end.

Definition ToNumber (v : value) : option Z :=
  match v with
  | VNull => Some 0
  | VBool b => Some (if b then 1 else 0)
  | VNum n => Some n
  | VStr s => StringToNumber s
  | _ => None
  end.

(** [a < b]; [None] is the undefined result of a comparison with NaN. Two
    strings compare by code units, anything else numerically. *)
Definition js_lt (a b : value) : option bool :=
  match ToPrimitive a, ToPrimitive b with
  | VStr x, VStr y => Some (String.ltb x y)
  | pa, pb =>
      match ToNumber pa, ToNumber pb with
      | Some x, Some y => Some (x <? y)
      | _, _ => None
      end
  end.

(** [a >= b] and [a <= b]. *)
Definition js_ge (a b : value) : bool :=
  match js_lt a b with Some r => negb r | None => false end.
Definition js_le (a b : value) : bool :=
  match js_lt b a with Some r => negb r | None => false end.

(** [new Date(v)] for one argument: a date is copied, a string is parsed,
    anything else is converted to a number of milliseconds. Of the date
    texts only the format that [toISOString] writes, which is the one the
    layer stores, is read; what a runtime makes of other texts (shorter ISO
    forms, formats of its own) is not represented, and such a text gives
    the invalid date here. *)
Definition new_Date (v : value) : value :=
  match v with
  | VDate t => VDate t
  | VStr s => VDate (IsoDate.parse s)
  | VArr _ | VObj _ | VFunc _ => VDate (IsoDate.parse (ToString v))
  | _ => VDate (ToNumber v ≫= IsoDate.TimeClip)
  end.

(** [v.toISOString()]. *)
Definition call_toISOString (v : value) : outcome value :=
  match v with
  | VDate (Some t) => Ok (VStr (IsoDate.toISOString t))
  | VDate None => Raise RangeError
  | _ => Raise TypeError
  end.

(** [JSON.parse(JSON.stringify(v))]: properties holding [undefined] or a
    function are dropped (in an array they become [null]) and a date is
    written as its ISO text ([null] when invalid). *)
Fixpoint json_clone (v : value) : value :=
  match v with
  | VDate (Some t) => VStr (IsoDate.toISOString t)
  | VDate None => VNull
  | VUndef | VFunc _ => VNull
  | VArr l => VArr (List.map json_clone l)
  | VObj m =>
      VObj (omap (fun x => match x with
                           | VUndef | VFunc _ => None
                           | _ => Some (json_clone x)
                           end) m)
  | _ => v
  end.

Definition json_clone_object (m : gmap string value) : gmap string value :=
  omap (fun x => match x with
                 | VUndef | VFunc _ => None
                 | _ => Some (json_clone x)
                 end) m.

End JsOps.
Export JsOps.

(** ** Runtime state and effects *)

(** Keys of the durable engine: numbers sort before dates, dates before
    strings. Array and binary keys are not represented (the layer's keys
    are identifier strings and ISO date texts). *)
Inductive key : Type :=
| KNum (n : Z)
| KDate (t : Z)
| KStr (s : string).

Global Instance key_eq_dec : EqDecision key.
Proof. solve_decision. Defined.

Global Instance key_countable : Countable key.
Proof.
  refine (inj_countable'
    (fun k => match k with KNum n => inl n | KDate t => inr (inl t) | KStr s => inr (inr s) end)
    (fun x => match x with inl n => KNum n | inr (inl t) => KDate t | inr (inr s) => KStr s end)
    _).
  intros []; reflexivity.
Defined.

Global Instance KStr_inj : Inj eq eq KStr.
Proof. intros x y H. by inversion H. Qed.

Definition to_key (v : value) : option key :=
  match v with
  | VNum n => Some (KNum n)
  | VDate (Some t) => Some (KDate t)
  | VStr s => Some (KStr s)
  | _ => None
  end.

Definition key_compare (a b : key) : comparison :=
  match a, b with
  | KNum x, KNum y => x ?= y
  | KNum _, _ => Lt
  | KDate _, KNum _ => Gt
  | KDate x, KDate y => x ?= y
  | KDate _, KStr _ => Lt
  | KStr x, KStr y => String.compare x y
  | KStr _, _ => Gt
  end.

Definition key_leb (a b : key) : bool :=
  match key_compare a b with Gt => false | _ => true end.

(** An object store of the durable engine: the names of its indexes (each
    index has the property of the same name as its key path) and its
    records under their primary key. *)
Record objectStore : Type := {
  os_indexes : list string;
  os_records : gmap key value }.

(** The text held under one [localStorage] key: either a text that
    [JSON.parse] reads as the object [o], or a text that is not JSON. *)
Inductive text : Type :=
| JsonText (o : gmap string value)
| RawText (s : string).

Inductive StorageType : Type := indexeddb | localstorage | none.

(** The module a repository's [db] import is resolved to. *)
Inductive storageModule : Type := IndexedDBModule | LocalStorageModule.

(** A repository object: its identity and the module bound to [db]. *)
Record instance : Type := {
  ref : nat;
  binding : storageModule }.

Record DataExportInstance : Type := {
  de_self : instance;
  exerciseRepo : instance;
  foodRepo : instance;
  settingsRepo : instance }.

Record RepositoryContainer : Type := {
  exerciseRepository : instance;
  foodRepository : instance;
  userSettingsRepository : instance;
  dataExportRepository : DataExportInstance;
  storageType : StorageType }.

Record world : Type := {
  w_window : bool;                              (* typeof window !== 'undefined' *)
  w_indexedDB : bool;                           (* 'indexedDB' in window *)
  w_database : option (gmap string objectStore);(* FitnessTrackerDB, once created *)
  w_localStorage : gmap string text;
  w_now : Z;                                    (* the time new Date() reads *)
  w_loadTime : Z;                               (* when the modules were loaded *)
  w_console : list string;
  w_nextRef : nat;
  w_repositoryContainer : option RepositoryContainer }.

Definition set_database (d : option (gmap string objectStore)) (w : world) : world :=
  {| w_window := w_window w; w_indexedDB := w_indexedDB w; w_database := d;
     w_localStorage := w_localStorage w; w_now := w_now w; w_loadTime := w_loadTime w;
     w_console := w_console w; w_nextRef := w_nextRef w;
     w_repositoryContainer := w_repositoryContainer w |}.

Definition set_localStorage (l : gmap string text) (w : world) : world :=
  {| w_window := w_window w; w_indexedDB := w_indexedDB w; w_database := w_database w;
     w_localStorage := l; w_now := w_now w; w_loadTime := w_loadTime w;
     w_console := w_console w; w_nextRef := w_nextRef w;
     w_repositoryContainer := w_repositoryContainer w |}.

Definition set_now (t : Z) (w : world) : world :=
  {| w_window := w_window w; w_indexedDB := w_indexedDB w; w_database := w_database w;
     w_localStorage := w_localStorage w; w_now := t; w_loadTime := w_loadTime w;
     w_console := w_console w; w_nextRef := w_nextRef w;
     w_repositoryContainer := w_repositoryContainer w |}.

Definition set_console (c : list string) (w : world) : world :=
  {| w_window := w_window w; w_indexedDB := w_indexedDB w; w_database := w_database w;
     w_localStorage := w_localStorage w; w_now := w_now w; w_loadTime := w_loadTime w;
     w_console := c; w_nextRef := w_nextRef w;
     w_repositoryContainer := w_repositoryContainer w |}.

Definition set_factory (n : nat) (c : option RepositoryContainer) (w : world) : world :=
  {| w_window := w_window w; w_indexedDB := w_indexedDB w; w_database := w_database w;
     w_localStorage := w_localStorage w; w_now := w_now w; w_loadTime := w_loadTime w;
     w_console := w_console w; w_nextRef := n;
     w_repositoryContainer := c |}.

(** The result of running an asynchronous operation to completion: it
    resolves, it rejects, or the fuel given to the run is used up. *)
Inductive result (A : Type) : Type :=
| Ret (a : A) (w : world)
| Throw (e : error) (w : world)
| OutOfFuel.
Arguments Ret {A} a w.
Arguments Throw {A} e w.
Arguments OutOfFuel {A}.

Definition M (A : Type) : Type := world -> result A.

Definition ret {A} (a : A) : M A := fun w => Ret a w.
Definition throw {A} (e : error) : M A := fun w => Throw e w.
Definition bind {A B} (m : M A) (k : A -> M B) : M B :=
  fun w =>
    match m w with
    | Ret a w' => k a w'
    | Throw e w' => Throw e w'
    | OutOfFuel => OutOfFuel
    end.
Definition lift {A} (o : outcome A) : M A :=
  match o with Ok a => ret a | Raise e => throw e end.
Definition read {A} (f : world -> A) : M A := fun w => Ret (f w) w.
Definition modify (f : world -> world) : M unit := fun w => Ret tt (f w).

Declare Scope async_scope.
Delimit Scope async_scope with async.
Notation "'await' x := m 'in' k" := (bind m (fun x => k))
  (at level 10, x name, m at level 100, k at level 200) : async_scope.
Notation "'exec' m 'in' k" := (bind m (fun _ => k))
  (at level 10, m at level 100, k at level 200) : async_scope.
Notation "'eval' x := o 'in' k" := (obind o (fun x => k))
  (at level 10, x name, o at level 100, k at level 200) : async_scope.
Open Scope async_scope.

(** A [for ... of] loop with an awaited body. *)
Fixpoint forOf {A} (l : list A) (body : A -> M unit) : M unit :=
  match l with
  | [] => ret tt
  | x :: l' => exec body x in forOf l' body
  end.

(** An operation run to its end as one of several started together: its
    rejection is kept as its outcome and does not stop the others. *)
Definition settle {A} (m : M A) : M (outcome A) :=
  fun w =>
    match m w with
    | Ret a w' => Ret (Ok a) w'
    | Throw e w' => Ret (Raise e) w'
    | OutOfFuel => OutOfFuel
    end.

(** [await Promise.all(ms)], the values not being used: every operation is
    started and runs to its end, also after another has rejected; the whole
    rejects with the first rejection, in the order of the array. *)
Fixpoint Promise_all (ms : list (M unit)) : M unit :=
  match ms with
  | [] => ret tt
  | m :: ms' =>
      await first := settle m in
      await rest := settle (Promise_all ms') in
      lift (eval _ := first in rest)
  end.

(** [items.map(f)] where [f] may throw. *)
Definition mapOutcome {A B} (f : A -> outcome B) (l : list A) : M (list B) :=
  lift (omapM f l).

Definition or_null (v : value) : value := if truthy v then v else VNull.

(** [items.filter(p)] where evaluating [p] may throw. *)
Fixpoint filterOutcome {A} (p : A -> outcome bool) (l : list A) : outcome (list A) :=
  match l with
  | [] => Ok []
  | x :: l' =>
      eval b := p x in
      eval r := filterOutcome p l' in
      Ok (if b then x :: r else r)
  end.

(** The surface shared by the two storage modules. *)
Record Backend : Type := {
  db_getById : string -> string -> M value;
  db_getAll : string -> M (list value);
  db_add : string -> value -> M value;
  db_update : string -> value -> M value;
  db_deleteById : string -> string -> M unit;
  db_getByIndex : string -> string -> value -> M (list value);
  db_getByIndexRange : string -> string -> value -> value -> M (list value);
  db_clearStore : string -> M unit }.

Module STORES.
Definition EXERCISES : string := "exercises".
Definition FOODS : string := "foods".
Definition SETTINGS : string := "settings".
End STORES.

(** ** The durable engine (indexedDB.ts) *)

Module IndexedDB.

(** The stores and indexes created by [onupgradeneeded]. *)
Definition schema : gmap string objectStore :=
  <[STORES.EXERCISES := {| os_indexes := ["name"; "date"]; os_records := ∅ |}]>
  (<[STORES.FOODS := {| os_indexes := ["date"; "mealType"; "name"]; os_records := ∅ |}]>
  (<[STORES.SETTINGS := {| os_indexes := []; os_records := ∅ |}]> ∅)).

Definition openDatabase : M (gmap string objectStore) :=
  fun w =>
    if negb (w_window w) then
      Throw (Error "IndexedDB is not available in this environment") w
    else if negb (w_indexedDB w) then Throw ReferenceError w
    else
      match w_database w with
      | Some db => Ret db w
      | None => Ret schema (set_database (Some schema) w)
      end.

(** [db.transaction(storeName, mode).objectStore(storeName)]. *)
Definition objectStoreOf (db : gmap string objectStore) (storeName : string) : M objectStore :=
  match db !! storeName with
  | Some s => ret s
  | None => throw (DOMException "NotFoundError")
  end.

Definition commit (db : gmap string objectStore) (storeName : string)
    (store : objectStore) (records : gmap key value) : M unit :=
  modify (set_database
    (Some (<[storeName := {| os_indexes := os_indexes store; os_records := records |}]> db))).

(** The primary key of a record, read through the key path [id]. *)
Definition keyOf (item : value) : option key :=
  match item with
  | VObj m => m !! "id" ≫= to_key
  | _ => None
  end.

Definition key_le (a b : key) : Prop := key_leb a b = true.

Global Instance key_le_dec a b : Decision (key_le a b).
Proof. unfold key_le. apply _. Defined.

Definition entry_le (a b : key * value) : Prop := key_le a.1 b.1.

Global Instance entry_le_dec a b : Decision (entry_le a b).
Proof. unfold entry_le, key_le. apply _. Defined.

(** Records in ascending key order. *)
Definition ordered (l : list (key * value)) : list value := (merge_sort entry_le l).*2.

(** The entries of an index: the records whose indexed property is a key,
    under that key. Records under equal index keys are listed in
    primary-key order. *)
Definition indexEntries (store : objectStore) (indexName : string) : list (key * value) :=
  omap (fun e : key * value =>
          match e.2 with
          | VObj m => (fun ik => (ik, e.2)) <$> (m !! indexName ≫= to_key)
          | _ => None
          end)
       (merge_sort entry_le (map_to_list (os_records store))).

Definition indexOf (store : objectStore) (indexName : string) : M (list (key * value)) :=
  if bool_decide (indexName ∈ os_indexes store) then ret (indexEntries store indexName)
  else throw (DOMException "NotFoundError").

Definition getById (storeName : string) (id : string) : M value :=
  await db := openDatabase in
  await store := objectStoreOf db storeName in
  ret (or_null (default VUndef (os_records store !! KStr id))).

Definition getAll (storeName : string) : M (list value) :=
  await db := openDatabase in
  await store := objectStoreOf db storeName in
  ret (ordered (map_to_list (os_records store))).

Definition add (storeName : string) (item : value) : M value :=
  await db := openDatabase in
  await store := objectStoreOf db storeName in
  match keyOf item with
  | None => throw (DOMException "DataError")
  | Some k =>
      match os_records store !! k with
      | Some _ => throw (Error ("Failed to add item to " +:+ storeName))
      | None =>
          exec commit db storeName store (<[k := item]> (os_records store)) in
          ret item
      end
  end.

Definition update (storeName : string) (item : value) : M value :=
  await db := openDatabase in
  await store := objectStoreOf db storeName in
  match keyOf item with
  | None => throw (DOMException "DataError")
  | Some k =>
      exec commit db storeName store (<[k := item]> (os_records store)) in
      ret item
  end.

Definition deleteById (storeName : string) (id : string) : M unit :=
  await db := openDatabase in
  await store := objectStoreOf db storeName in
  commit db storeName store (delete (KStr id) (os_records store)).

Definition getByIndex (storeName indexName : string) (v : value) : M (list value) :=
  await db := openDatabase in
  await store := objectStoreOf db storeName in
  await index := indexOf store indexName in
  match v with
  | VUndef | VNull => ret (ordered index)
  | _ =>
      match to_key v with
      | Some k => ret (ordered (filter (fun e => e.1 = k) index))
      | None => throw (DOMException "DataError")
      end
  end.

Definition getByIndexRange (storeName indexName : string) (lowerBound upperBound : value)
    : M (list value) :=
  await db := openDatabase in
  await store := objectStoreOf db storeName in
  await index := indexOf store indexName in
  match to_key lowerBound, to_key upperBound with
  | Some lo, Some hi =>
      if key_leb lo hi then
        ret (ordered (filter (fun e => key_le lo e.1 ∧ key_le e.1 hi) index))
      else throw (DOMException "DataError")
  | _, _ => throw (DOMException "DataError")
  end.

Definition clearStore (storeName : string) : M unit :=
  await db := openDatabase in
  await store := objectStoreOf db storeName in
  commit db storeName store ∅.

Definition isIndexedDBAvailable (w : world) : bool :=
  if negb (w_window w) then false else w_indexedDB w.

Definition module : Backend :=
  {| db_getById := getById; db_getAll := getAll; db_add := add; db_update := update;
     db_deleteById := deleteById; db_getByIndex := getByIndex;
     db_getByIndexRange := getByIndexRange; db_clearStore := clearStore |}.

End IndexedDB.

(** ** The degraded engine (localStorage.ts) *)

Module LocalStorage.

Definition STORAGE_PREFIX : string := "fitness-tracker:".

Definition getStoreKey (storeName : string) : string := STORAGE_PREFIX +:+ storeName.

(** All items of a store: an absent or empty text, and a text that
    [JSON.parse] rejects, are read as the empty object. *)
Definition getStoreData (storeName : string) : M (gmap string value) :=
  fun w =>
    if negb (w_window w) then Ret ∅ w
    else
      match w_localStorage w !! getStoreKey storeName with
      | None => Ret ∅ w
      | Some (RawText _) => Ret ∅ w
      | Some (JsonText o) => Ret o w
      end.

Definition setStoreData (storeName : string) (data : gmap string value) : M unit :=
  fun w =>
    if negb (w_window w) then Ret tt w
    else
      Ret tt (set_localStorage
                (<[getStoreKey storeName := JsonText (json_clone_object data)]>
                   (w_localStorage w)) w).

(** [Object.values(data)]. *)
Definition values (data : gmap string value) : list value := (map_to_list data).*2.

Definition getById (storeName : string) (id : string) : M value :=
  await data := getStoreData storeName in
  ret (or_null (lookupProp data id)).

Definition getAll (storeName : string) : M (list value) :=
  await data := getStoreData storeName in
  ret (values data).

Definition add (storeName : string) (item : value) : M value :=
  await data := getStoreData storeName in
  await id := lift (get_prop item "id") in
  if truthy (lookupProp data (ToString id)) then
    throw (Error ("Item with id " +:+ ToString id +:+ " already exists"))
  else
    exec setStoreData storeName (assignProp data (ToString id) item) in
    ret item.

Definition update (storeName : string) (item : value) : M value :=
  await data := getStoreData storeName in
  await id := lift (get_prop item "id") in
  exec setStoreData storeName (assignProp data (ToString id) item) in
  ret item.

Definition deleteById (storeName : string) (id : string) : M unit :=
  await data := getStoreData storeName in
  setStoreData storeName (delete id data).

Definition getByIndex (storeName indexName : string) (v : value) : M (list value) :=
  await items := getAll storeName in
  lift (filterOutcome
          (fun item => eval x := get_prop item indexName in Ok (strict_eq x v))
          items).

Definition getByIndexRange (storeName indexName : string) (lowerBound upperBound : value)
    : M (list value) :=
  await items := getAll storeName in
  lift (filterOutcome
          (fun item =>
             eval x := get_prop item indexName in
             if js_ge x lowerBound then
               eval y := get_prop item indexName in Ok (js_le y upperBound)
             else Ok false)
          items).

Definition clearStore (storeName : string) : M unit :=
  fun w =>
    if w_window w then
      Ret tt (set_localStorage (delete (getStoreKey storeName) (w_localStorage w)) w)
    else Ret tt w.

Definition isLocalStorageAvailable (w : world) : bool := w_window w.

Definition module : Backend :=
  {| db_getById := getById; db_getAll := getAll; db_add := add; db_update := update;
     db_deleteById := deleteById; db_getByIndex := getByIndex;
     db_getByIndexRange := getByIndexRange; db_clearStore := clearStore |}.

End LocalStorage.

Definition resolve (m : storageModule) : Backend :=
  match m with
  | IndexedDBModule => IndexedDB.module
  | LocalStorageModule => LocalStorage.module
  end.

(** ** Sets and sorted arrays of values *)

Module JsCollections.

(** A [Set], as the list of its elements in insertion order. [add]
    compares with SameValueZero, which is [===] on the values represented
    here (numbers are integers, so there is no NaN). *)
Definition Set_has (s : list value) (v : value) : bool := existsb (strict_eq v) s.

Definition Set_add (s : list value) (v : value) : list value :=
  if Set_has s v then s else s ++ [v].

(** [new Set(l)]. *)
Definition new_Set (l : list value) : list value := fold_left Set_add l [].

(** [Array.prototype.sort]. The sort is stable; [le x y] tells whether the
    comparator gives a result that is not positive on [x] and [y], and
    evaluating it may throw. Which pairs are compared is left to the
    engine: here [x] is inserted into the sorted rest of the array, so that
    the empty and the one-element array are sorted without a comparison. *)
Fixpoint insertSorted (le : value -> value -> outcome bool) (x : value) (l : list value)
    : outcome (list value) :=
  match l with
  | [] => Ok [x]
  | y :: l' =>
      eval b := le x y in
      if b then Ok (x :: l)
      else eval r := insertSorted le x l' in Ok (y :: r)
  end.

Fixpoint Array_sort (le : value -> value -> outcome bool) (l : list value)
    : outcome (list value) :=
  match l with
  | [] => Ok []
  | x :: l' => eval s := Array_sort le l' in insertSorted le x s
  end.

(** The order of [sort()] without a comparator: [undefined] goes last,
    other values compare by the code units of their string conversions. *)
Definition defaultCompare (x y : value) : outcome bool :=
  match x, y with
  | _, VUndef => Ok true
  | VUndef, _ => Ok false
  | _, _ => Ok (negb (String.ltb (ToString y) (ToString x)))
  end.

(** [d.getTime()]: the time value, [None] for NaN. *)
Definition call_getTime (d : value) : outcome (option Z) :=
  match d with
  | VDate t => Ok t
  | _ => Raise TypeError
  end.

End JsCollections.
Export JsCollections.

(** ** Calendar days in the local time zone (date-fns)

    [startOfDay] and [endOfDay] on time values. They depend on the time
    zone of the runtime; the layer relies only on the day of [t] spanning
    [t]. *)
Class LocalDay : Type := {
  startOfDay : Z -> Z;
  endOfDay : Z -> Z;
  startOfDay_le : forall t, startOfDay t <= t;
  endOfDay_ge : forall t, t <= endOfDay t }.

(** A time zone at a fixed offset (in milliseconds) from UTC. *)
Program Definition fixedOffsetDay (offset : Z) : LocalDay :=
  {| startOfDay := fun t => (t + offset) / IsoDate.msPerDay * IsoDate.msPerDay - offset;
     endOfDay := fun t =>
       (t + offset) / IsoDate.msPerDay * IsoDate.msPerDay - offset + IsoDate.msPerDay - 1 |}.
Next Obligation. intros offset t. unfold IsoDate.msPerDay. Z.div_mod_to_equations. lia. Qed.
Next Obligation. intros offset t. unfold IsoDate.msPerDay. Z.div_mod_to_equations. lia. Qed.

(** [toDate] of date-fns on the arguments the layer passes (dates; a
    number is a time value), then the day boundary. *)
Definition toDate (v : value) : value :=
  match v with
  | VDate t => VDate t
  | VNum n => VDate (IsoDate.TimeClip n)
  | _ => VDate None
  end.

Definition dayBoundary (f : Z -> Z) (v : value) : value :=
  match toDate v with
  | VDate (Some t) => VDate (IsoDate.TimeClip (f t))
  | d => d
  end.

(** ** Entity repositories

    ExerciseRepository.ts and FoodRepository.ts are the same code over two
    stores; it is written once here, over the module bound to [db], and
    instantiated below under the names of the source. *)

Module Entity.
Section Repository.
Context {L : LocalDay}.
Variable db : Backend.
Variable storeName : string.
Variable entityName : string.

Definition withIsoDates (e : value) : outcome value :=
  eval d := get_prop e "date" in
  eval date := call_toISOString d in
  eval c := get_prop e "createdAt" in
  eval createdAt := call_toISOString c in
  eval u := get_prop e "updatedAt" in
  eval updatedAt := call_toISOString u in
  Ok (VObj (<["updatedAt" := updatedAt]> (<["createdAt" := createdAt]>
           (<["date" := date]> (spread e))))).

Definition withDates (data : value) : outcome value :=
  eval d := get_prop data "date" in
  eval c := get_prop data "createdAt" in
  eval u := get_prop data "updatedAt" in
  Ok (VObj (<["updatedAt" := new_Date u]> (<["createdAt" := new_Date c]>
           (<["date" := new_Date d]> (spread data))))).

Definition serialize (e : value) : outcome value := withIsoDates e.

Definition deserialize (data : value) : outcome value := withDates data.

Definition getAll : M (list value) :=
  await items := db_getAll db storeName in
  mapOutcome deserialize items.

Definition getByDateRange (startDate endDate : value) : M (list value) :=
  await start := lift (call_toISOString (dayBoundary startOfDay startDate)) in
  await end_ := lift (call_toISOString (dayBoundary endOfDay endDate)) in
  await items := db_getByIndexRange db storeName "date" start end_ in
  mapOutcome deserialize items.

Definition getByDate (date : value) : M (list value) := getByDateRange date date.

Definition getByIndexValue (indexName : string) (v : value) : M (list value) :=
  await items := db_getByIndex db storeName indexName v in
  mapOutcome deserialize items.

Definition getById (id : string) : M value :=
  await item := db_getById db storeName id in
  if truthy item then lift (deserialize item) else ret VNull.

Definition create (e : value) : M value :=
  await serialized := lift (serialize e) in
  exec db_add db storeName serialized in
  ret e.

Definition update (id : string) (updates : value) : M value :=
  await existing := getById id in
  if negb (truthy existing) then
    throw (Error (entityName +:+ " with id " +:+ id +:+ " not found"))
  else
    await now := read w_now in
    let updated :=
      VObj (<["updatedAt" := VDate (Some now)]> (<["id" := VStr id]>
             (merge (spread existing) (spread updates)))) in
    await serialized := lift (serialize updated) in
    exec db_update db storeName serialized in
    ret updated.

Definition delete (id : string) : M unit := db_deleteById db storeName id.

End Repository.
End Entity.

Module ExerciseRepository.
Section Bound.
Context {L : LocalDay}.
Variable db : Backend.
Definition storeName : string := STORES.EXERCISES.
Definition serialize : value -> outcome value := Entity.serialize.
Definition deserialize : value -> outcome value := Entity.deserialize.
Definition getAll : M (list value) := Entity.getAll db storeName.
Definition getByDateRange : value -> value -> M (list value) :=
  Entity.getByDateRange db storeName.
Definition getByName (name : string) : M (list value) :=
  Entity.getByIndexValue db storeName "name" (VStr name).
Definition getById : string -> M value := Entity.getById db storeName.
Definition create : value -> M value := Entity.create db storeName.
Definition update : string -> value -> M value := Entity.update db storeName "Exercise".
Definition delete : string -> M unit := Entity.delete db storeName.

Definition getUniqueNames : M (list value) :=
  await exercises := getAll in
  await names := mapOutcome (fun e => get_prop e "name") exercises in
  lift (Array_sort defaultCompare (new_Set names)).
End Bound.
End ExerciseRepository.

Module FoodRepository.
Section Bound.
Context {L : LocalDay}.
Variable db : Backend.
Definition storeName : string := STORES.FOODS.
Definition serialize : value -> outcome value := Entity.serialize.
Definition deserialize : value -> outcome value := Entity.deserialize.
Definition getAll : M (list value) := Entity.getAll db storeName.
Definition getByDate : value -> M (list value) := Entity.getByDate db storeName.
Definition getByDateRange : value -> value -> M (list value) :=
  Entity.getByDateRange db storeName.
Definition getByMealType (mealType : string) : M (list value) :=
  Entity.getByIndexValue db storeName "mealType" (VStr mealType).
Definition getById : string -> M value := Entity.getById db storeName.
Definition create : value -> M value := Entity.create db storeName.
Definition update : string -> value -> M value := Entity.update db storeName "Food entry".
Definition delete : string -> M unit := Entity.delete db storeName.

(** The comparator [(a, b) => b.createdAt.getTime() - a.createdAt.getTime()]:
    whether its result is not positive. A difference with NaN is NaN, which
    [sort] reads as 0. *)
Definition byCreatedAtDescending (a b : value) : outcome bool :=
  eval cb := get_prop b "createdAt" in
  eval tb := call_getTime cb in
  eval ca := get_prop a "createdAt" in
  eval ta := call_getTime ca in
  Ok (match tb, ta with
      | Some y, Some x => y <=? x
      | _, _ => true
      end).

(** The loop over the sorted entries, left as soon as [limit] names are
    collected. *)
Fixpoint collectNames (limit : Z) (uniqueNames : list value) (sorted : list value)
    : outcome (list value) :=
  match sorted with
  | [] => Ok uniqueNames
  | food :: rest =>
      eval name := get_prop food "name" in
      let uniqueNames' := Set_add uniqueNames name in
      if limit <=? Z.of_nat (List.length uniqueNames') then Ok uniqueNames'
      else collectNames limit uniqueNames' rest
  end.

(** [limit] is [None] when the argument is left out. *)
Definition getRecentFoodNames (limit : option Z) : M (list value) :=
  await allFoods := getAll in
  await sorted := lift (Array_sort byCreatedAtDescending allFoods) in
  lift (collectNames (default 10 limit) [] sorted).
End Bound.
End FoodRepository.

(** ** Settings repository (UserSettingsRepository.ts) *)

(** The default record of core/domain/UserSettings.ts; its [updatedAt] is
    the time the module was loaded. *)
Definition DEFAULT_USER_SETTINGS (w : world) : value :=
  VObj (<["dailyCalorieGoal" := VNum 2000]> (<["weightUnit" := VStr "lbs"]>
       (<["theme" := VStr "system"]> (<["updatedAt" := VDate (Some (w_loadTime w))]> ∅)))).

Module UserSettingsRepository.
Section Bound.
Variable db : Backend.

Definition SETTINGS_ID : string := "user-settings".
Definition storeName : string := STORES.SETTINGS.

Definition serialize (settings : value) : outcome value :=
  eval u := get_prop settings "updatedAt" in
  eval updatedAt := call_toISOString u in
  Ok (VObj (<["updatedAt" := updatedAt]>
           (merge (<["id" := VStr SETTINGS_ID]> ∅) (spread settings)))).

Definition deserialize (data : value) : outcome value :=
  eval dailyCalorieGoal := get_prop data "dailyCalorieGoal" in
  eval weightUnit := get_prop data "weightUnit" in
  eval theme := get_prop data "theme" in
  eval u := get_prop data "updatedAt" in
  Ok (VObj (<["dailyCalorieGoal" := dailyCalorieGoal]> (<["weightUnit" := weightUnit]>
           (<["theme" := theme]> (<["updatedAt" := new_Date u]> ∅))))).

(** [get] and [update] call each other; a run is given [fuel] calls. *)
Fixpoint get (fuel : nat) : M value :=
  match fuel with
  | O => fun _ => OutOfFuel
  | S n =>
      await item := db_getById db storeName SETTINGS_ID in
      if negb (truthy item) then
        await defaults := read DEFAULT_USER_SETTINGS in
        exec update n defaults in
        ret defaults
      else lift (deserialize item)
  end
with update (fuel : nat) (settings : value) : M value :=
  match fuel with
  | O => fun _ => OutOfFuel
  | S n =>
      await existing := get n in
      await now := read w_now in
      let updated :=
        VObj (<["updatedAt" := VDate (Some now)]>
               (merge (spread existing) (spread settings))) in
      await serialized := lift (serialize updated) in
      exec db_update db storeName serialized in
      ret updated
  end.

Definition reset : M value :=
  await defaults := read DEFAULT_USER_SETTINGS in
  await now := read w_now in
  let defaultSettings := VObj (<["updatedAt" := VDate (Some now)]> (spread defaults)) in
  await serialized := lift (serialize defaultSettings) in
  exec db_update db storeName serialized in
  ret defaultSettings.

End Bound.
End UserSettingsRepository.

(** ** Export repository (DataExportRepository.ts) *)

Module DataExportRepository.
Section Bound.
Context {L : LocalDay}.
Variable db : Backend.

Definition EXPORT_VERSION : string := "1.0.0".

Definition exportSettings (settings : value) : outcome value :=
  eval u := get_prop settings "updatedAt" in
  eval updatedAt := call_toISOString u in
  Ok (VObj (<["updatedAt" := updatedAt]> (spread settings))).

Definition exportData (fuel : nat) : M value :=
  await exercises := ExerciseRepository.getAll db in
  await foods := FoodRepository.getAll db in
  await settings := UserSettingsRepository.get db fuel in
  await exercises' := mapOutcome Entity.withIsoDates exercises in
  await foods' := mapOutcome Entity.withIsoDates foods in
  await settings' := lift (exportSettings settings) in
  await now := read w_now in
  ret (VObj (<["exercises" := VArr exercises']> (<["foods" := VArr foods']>
            (<["settings" := settings']>
            (<["exportedAt" := VStr (IsoDate.toISOString now)]>
            (<["version" := VStr EXPORT_VERSION]> ∅)))))).

Definition clearAllData : M unit :=
  Promise_all [db_clearStore db STORES.EXERCISES;
               db_clearStore db STORES.FOODS;
               db_clearStore db STORES.SETTINGS].

Definition checkVersion (data : value) : M unit :=
  await version := lift (get_prop data "version") in
  if negb (strict_eq version (VStr EXPORT_VERSION)) then
    modify (fun w => set_console
      (w_console w ++ ["Import data version (" +:+ ToString version
         +:+ ") differs from current version (" +:+ EXPORT_VERSION +:+ ")"]) w)
  else ret tt.

Definition importRecords (create : value -> M value) (section : value) : M unit :=
  match section with
  | VArr records =>
      forOf records (fun r =>
        await data := lift (Entity.withDates r) in
        exec create data in
        ret tt)
  | _ => ret tt
  end.

Definition importExercises (data : value) : M unit :=
  await exercises := lift (get_prop data "exercises") in
  importRecords (ExerciseRepository.create db) exercises.

Definition importFoods (data : value) : M unit :=
  await foods := lift (get_prop data "foods") in
  importRecords (FoodRepository.create db) foods.

Definition importSettings (fuel : nat) (data : value) : M unit :=
  await settings := lift (get_prop data "settings") in
  if truthy settings then
    await u := lift (get_prop settings "updatedAt") in
    let settingsData := VObj (<["updatedAt" := new_Date u]> (spread settings)) in
    exec UserSettingsRepository.update db fuel settingsData in
    ret tt
  else ret tt.

Definition importData (fuel : nat) (data : value) : M unit :=
  exec checkVersion data in
  exec clearAllData in
  exec importExercises data in
  exec importFoods data in
  importSettings fuel data.

End Bound.
End DataExportRepository.

(** ** Storage factory (storageFactory.ts) *)

Module StorageFactory.

Definition detectStorageType (w : world) : StorageType :=
  if negb (w_window w) then none
  else if IndexedDB.isIndexedDBAvailable w then indexeddb
  else localstorage.

(** [new C()] for a repository class: a fresh object whose [db] is the
    module its file imports, [./indexedDB]. *)
Definition newRepository : M instance :=
  fun w =>
    Ret {| ref := w_nextRef w; binding := IndexedDBModule |}
        (set_factory (S (w_nextRef w)) (w_repositoryContainer w) w).

Definition createExerciseRepository : M instance := newRepository.
Definition createFoodRepository : M instance := newRepository.
Definition createUserSettingsRepository : M instance := newRepository.

Definition createDataExportRepository : M DataExportInstance :=
  await self := newRepository in
  await e := newRepository in
  await f := newRepository in
  await s := newRepository in
  ret {| de_self := self; exerciseRepo := e; foodRepo := f; settingsRepo := s |}.

Definition createRepositories : M RepositoryContainer :=
  await existing := read w_repositoryContainer in
  match existing with
  | Some container => ret container
  | None =>
      await e := createExerciseRepository in
      await f := createFoodRepository in
      await s := createUserSettingsRepository in
      await d := createDataExportRepository in
      await t := read detectStorageType in
      let container :=
        {| exerciseRepository := e; foodRepository := f; userSettingsRepository := s;
           dataExportRepository := d; storageType := t |} in
      exec modify (fun w => set_factory (w_nextRef w) (Some container) w) in
      ret container
  end.

Definition getRepositories : M RepositoryContainer := createRepositories.

End StorageFactory.

(** ** Domain factories (core/domain)

    [uuid] is the identifier that [crypto.randomUUID()] returns to the
    call. *)

Module Domain.

Definition createUserSettings (partial : value) : M value :=
  await defaults := read DEFAULT_USER_SETTINGS in
  await now := read w_now in
  ret (VObj (<["updatedAt" := VDate (Some now)]>
            (merge (spread defaults) (spread partial)))).

Definition createExercise (uuid : string) (data : value) : M value :=
  await now := read w_now in
  ret (VObj (<["updatedAt" := VDate (Some now)]> (<["createdAt" := VDate (Some now)]>
            (<["id" := VStr uuid]> (spread data))))).

Definition createFoodEntry (uuid : string) (data : value) : M value :=
  await now := read w_now in
  ret (VObj (<["updatedAt" := VDate (Some now)]> (<["createdAt" := VDate (Some now)]>
            (<["id" := VStr uuid]> (spread data))))).

End Domain.

(** ** Vocabulary of the properties *)

(** A record holds, under [k], a date with time value [t]. *)
Definition holdsDate (m : gmap string value) (k : string) (t : Z) : Prop :=
  m !! k = Some (VDate (Some t)) ∧ IsoDate.inRange t.

(** A stored record holds, under [k], the ISO text of [t]. *)
Definition holdsIso (m : gmap string value) (k : string) (t : Z) : Prop :=
  m !! k = Some (VStr (IsoDate.toISOString t)) ∧ IsoDate.inRange t.

(** The settings entity: exactly the four properties of [UserSettings]. *)
Definition settingsRecord (goal unit_ theme : value) (u : Z) : gmap string value :=
  <["dailyCalorieGoal" := goal]> (<["weightUnit" := unit_]>
  (<["theme" := theme]> (<["updatedAt" := VDate (Some u)]> ∅))).

(** The records of a store of the durable engine (none before the database
    is created or when the store does not exist). *)
Definition storeRecords (w : world) (storeName : string) : gmap key value :=
  match w_database w with
  | Some db =>
      match db !! storeName with
      | Some s => os_records s
      | None => ∅
      end
  | None => ∅
  end.

(** The durable engine can be reached. *)
Definition durable (w : world) : Prop := w_window w = true ∧ w_indexedDB w = true.

(** The state after [openDatabase] has run once. *)
Definition opened (w : world) : world :=
  match w_database w with
  | Some _ => w
  | None => set_database (Some IndexedDB.schema) w
  end.

(** The object parsed from the text of a store of the degraded engine. *)
Definition storeData (w : world) (storeName : string) : gmap string value :=
  match w_localStorage w !! LocalStorage.getStoreKey storeName with
  | Some (JsonText o) => o
  | _ => ∅
  end.

(** The database, once created, has the stores and indexes of the schema. *)
Definition schemaPresent (w : world) : Prop :=
  match w_database w with
  | Some db =>
      forall n s0, IndexedDB.schema !! n = Some s0 ->
        exists s, db !! n = Some s ∧ os_indexes s = os_indexes s0
  | None => True
  end.

Definition ready (w : world) : Prop := durable w ∧ schemaPresent w.

Definition isStore (n : string) : Prop := is_Some (IndexedDB.schema !! n).

(** The state in which store [n] of the durable engine holds the records
    [r], everything else being as in [w]. *)
Definition putStore (n : string) (r : gmap key value) (w : world) : world :=
  match w_database (opened w) with
  | Some db =>
      match db !! n with
      | Some s =>
          set_database
            (Some (<[n := {| os_indexes := os_indexes s; os_records := r |}]> db)) (opened w)
      | None => opened w
      end
  | None => opened w
  end.

(** The settings store of the durable engine holds no settings record. *)
Definition settingsAbsent (w : world) : Prop :=
  storeRecords w STORES.SETTINGS !! KStr UserSettingsRepository.SETTINGS_ID = None.


(** [w'] is a ready state that differs from [w] at most in store [n]. *)
Definition frame (n : string) (w w' : world) : Prop :=
  ready w' ∧ (forall n', n' ≠ n -> storeRecords w' n' = storeRecords w n')
  ∧ w_now w' = w_now w ∧ w_loadTime w' = w_loadTime w.


(** The state in which store [n] of the degraded engine holds the text
    written for [data]. *)
Definition lsPut (n : string) (data : gmap string value) (w : world) : world :=
  set_localStorage
    (<[LocalStorage.getStoreKey n := JsonText (json_clone_object data)]>
       (w_localStorage w)) w.

(** The time value a partial update leaves under the date property [k]:
    the one it carries, or the stored one [t] when it has no such
    property. *)
Definition dateAfter (p : gmap string value) (k : string) (t : Z) : option Z :=
  match p !! k with
  | None => Some t
  | Some (VDate (Some t')) => Some t'
  | Some _ => None
  end.

(** The time value of the [date] text of a stored record. *)
Definition recordTime (v : value) : option Z :=
  match v with
  | VObj m =>
      match m !! "date" with
      | Some (VStr s) => IsoDate.parse s
      | _ => None
      end
  | _ => None
  end.

Definition betweenb (lo hi : Z) (v : value) : bool :=
  match recordTime v with
  | Some t => (lo <=? t) && (t <=? hi)
  | None => false
  end.

(** In the words of the specification: the records whose date lies in the
    inclusive interval from [lo] to [hi]. *)
Definition recordsBetween (lo hi : Z) (l : list value) : list value :=
  filter (fun v => betweenb lo hi v = true) l.

(** A stored record whose [date] is the ISO text of a time with a
    four-digit year. *)
Definition isoDated (v : value) : Prop :=
  exists (m : gmap string value) t,
    v = VObj m ∧ m !! "date" = Some (VStr (IsoDate.toISOString t))
    ∧ IsoDate.fourDigitYear t.

(** The result of [deserialize] on a stored record. *)
Definition deserialized (v : value) : value :=
  match Entity.deserialize v with
  | Ok e => e
  | Raise _ => VUndef
  end.

(** A record as the entity repositories store it: under the key of its
    identifier, with ISO texts for its three dates. *)
Definition storedEntity (k : key) (v : value) : Prop :=
  exists (m : gmap string value) id d c u,
    v = VObj m ∧ k = KStr id ∧ m !! "id" = Some (VStr id)
    ∧ holdsIso m "date" d ∧ holdsIso m "createdAt" c ∧ holdsIso m "updatedAt" u.

Definition storeOk (w : world) (n : string) : Prop :=
  forall k v, storeRecords w n !! k = Some v -> storedEntity k v.

(** The part of [importData] before the settings are written. *)
Definition importRecordsPhase (db : Backend) (data : value) : M unit :=
  exec DataExportRepository.checkVersion data in
  exec DataExportRepository.clearAllData db in
  exec DataExportRepository.importExercises db data in
  DataExportRepository.importFoods db data.

(** What a section of a snapshot leaves in its cleared store when it
    imports: nothing when the section is not an array, and the records of
    the section when it is an array of records in stored form under
    distinct identifiers. *)
Inductive sectionImports : value -> gmap key value -> Prop :=
| section_skipped (v : value) :
    isArray v = false -> sectionImports v ∅
| section_records (l : list (key * value)) :
    (forall e, e ∈ l -> storedEntity e.1 e.2) -> NoDup l.*1 ->
    sectionImports (VArr l.*2) (list_to_map l).


(** The settings entity read from a stored settings record. *)
Definition settingsOf (s : gmap string value) : gmap string value :=
  <["dailyCalorieGoal" := default VUndef (s !! "dailyCalorieGoal")]>
  (<["weightUnit" := default VUndef (s !! "weightUnit")]>
  (<["theme" := default VUndef (s !! "theme")]>
  (<["updatedAt" := new_Date (default VUndef (s !! "updatedAt"))]> ∅))).

(** ** Operation sequences on a storage module *)

Inductive op : Type :=
| GetById (storeName id : string)
| GetAll (storeName : string)
| GetByIndex (storeName indexName : string) (v : value)
| GetByIndexRange (storeName indexName : string) (lowerBound upperBound : value)
| Add (storeName : string) (item : value)
| Update (storeName : string) (item : value)
| DeleteById (storeName id : string)
| ClearStore (storeName : string).

(** What a caller observes of one operation: the values it resolves to,
    or that it rejects. *)
Inductive observation : Type :=
| Resolved (vs : list value)
| Rejected.

Definition observe {A} (shape : A -> list value) (r : result A) (w : world)
    : observation * world :=
  match r with
  | Ret a w' => (Resolved (shape a), w')
  | Throw _ w' => (Rejected, w')
  | OutOfFuel => (Rejected, w)
  end.

Definition perform (db : Backend) (o : op) (w : world) : observation * world :=
  match o with
  | GetById n id => observe (fun v => [v]) (db_getById db n id w) w
  | GetAll n => observe (fun l => l) (db_getAll db n w) w
  | GetByIndex n i v => observe (fun l => l) (db_getByIndex db n i v w) w
  | GetByIndexRange n i lo hi => observe (fun l => l) (db_getByIndexRange db n i lo hi w) w
  | Add n item => observe (fun v => [v]) (db_add db n item w) w
  | Update n item => observe (fun v => [v]) (db_update db n item w) w
  | DeleteById n id => observe (fun _ => []) (db_deleteById db n id w) w
  | ClearStore n => observe (fun _ => []) (db_clearStore db n w) w
  end.

Fixpoint run (db : Backend) (ops : list op) (w : world) : list observation :=
  match ops with
  | [] => []
  | o :: rest => (perform db o w).1 :: run db rest (perform db o w).2
  end.

(** Equal observations: the same records, in any order, or both rejected. *)
Definition sameObservation (a b : observation) : Prop :=
  match a, b with
  | Resolved x, Resolved y => x ≡ₚ y
  | Rejected, Rejected => True
  | _, _ => False
  end.

(** The indexes the schema declares for a store. *)
Definition indexesOf (n : string) : list string :=
  match IndexedDB.schema !! n with
  | Some s => os_indexes s
  | None => []
  end.

(** A record both engines store alike: an object that JSON writes and
    reads back unchanged, with a string identifier that is not the name of
    an inherited property, whose indexed properties, where present, are
    strings. *)
Definition plainRecord (n : string) (v : value) : Prop :=
  exists (m : gmap string value) id,
    v = VObj m ∧ m !! "id" = Some (VStr id) ∧ inheritedValue id = VUndef
    ∧ json_clone v = v
    ∧ forall i, i ∈ indexesOf n -> m !! i = None ∨ exists s, m !! i = Some (VStr s).

(** Operations within the schema: a declared store, plain records and
    identifiers, a declared index queried with strings, range bounds in
    order. *)
Definition plainOp (o : op) : Prop :=
  match o with
  | GetById n id => isStore n ∧ inheritedValue id = VUndef
  | GetAll n | DeleteById n _ | ClearStore n => isStore n
  | GetByIndex n i v => isStore n ∧ i ∈ indexesOf n ∧ exists s, v = VStr s
  | GetByIndexRange n i lo hi =>
      isStore n ∧ i ∈ indexesOf n
      ∧ exists a b, lo = VStr a ∧ hi = VStr b ∧ String.compare a b ≠ Gt
  | Add n item | Update n item => isStore n ∧ plainRecord n item
  end.

(** The two engines hold the same records. *)
Definition sameData (wd wl : world) : Prop :=
  ready wd ∧ w_window wl = true
  ∧ forall n, isStore n ->
      storeRecords wd n = kmap KStr (storeData wl n)
      ∧ forall id v, storeData wl n !! id = Some v -> plainRecord n v.

(** The tests of the degraded engine's index lookups on one record. *)
Definition matchesValue (i x : string) (v : value) : bool :=
  match v with
  | VObj m => strict_eq (lookupProp m i) (VStr x)
  | _ => false
  end.

Definition matchesRange (i a b : string) (v : value) : bool :=
  match v with
  | VObj m =>
      js_ge (lookupProp m i) (VStr a) && js_le (lookupProp m i) (VStr b)
  | _ => false
  end.

(** ** Sample states and records *)

Module Examples.

(** A browser with IndexedDB, before the database is created. *)
Definition browser : world :=
  {| w_window := true; w_indexedDB := true; w_database := None; w_localStorage := ∅;
     w_now := 1704067200000; w_loadTime := 1704067100000; w_console := [];
     w_nextRef := 0; w_repositoryContainer := None |}.

(** A browser without IndexedDB. *)
Definition legacyBrowser : world :=
  {| w_window := true; w_indexedDB := false; w_database := None; w_localStorage := ∅;
     w_now := 1704067200000; w_loadTime := 1704067100000; w_console := [];
     w_nextRef := 0; w_repositoryContainer := None |}.

Definition benchPress : gmap string value :=
  <["id" := VStr "ex-1"]> (<["name" := VStr "Bench Press"]>
  (<["date" := VDate (Some 1704067200000)]>
  (<["sets" := VArr [VObj (<["id" := VStr "set-1"]> (<["reps" := VNum 10]>
                          (<["weight" := VNum 135]> ∅)))]]>
  (<["createdAt" := VDate (Some 1704070000000)]>
  (<["updatedAt" := VDate (Some 1704070000000)]> ∅))))).

(** A browser whose exercises text under [localStorage] is not JSON. *)
Definition corruptStore : world :=
  {| w_window := true; w_indexedDB := false; w_database := None;
     w_localStorage := <["fitness-tracker:exercises" := RawText "{not json"]> ∅;
     w_now := 1704067200000; w_loadTime := 1704067100000; w_console := [];
     w_nextRef := 0; w_repositoryContainer := None |}.

(** The browser after [benchPress] has been created. *)
Definition stocked : world :=
  match ExerciseRepository.create IndexedDB.module (VObj benchPress) browser with
  | Ret _ w => w
  | _ => browser
  end.

(** The record stored for [benchPress]. *)
Definition benchPressStored : gmap string value :=
  <["date" := VStr "2024-01-01T00:00:00.000Z"]>
  (<["createdAt" := VStr "2024-01-01T00:46:40.000Z"]>
  (<["updatedAt" := VStr "2024-01-01T00:46:40.000Z"]> benchPress)).

(** A partial update that carries a creation time. *)
Definition backdate : gmap string value := <["createdAt" := VDate (Some 0)]> ∅.

(** The stocked browser after the settings were reset at time [w_now]. *)
Definition settled : world :=
  match UserSettingsRepository.reset IndexedDB.module stocked with
  | Ret _ w => set_now 1704153600000 w
  | _ => stocked
  end.

(** The settings record stored by that reset. *)
Definition settingsStored : gmap string value :=
  <["id" := VStr "user-settings"]> (<["dailyCalorieGoal" := VNum 2000]>
  (<["weightUnit" := VStr "lbs"]> (<["theme" := VStr "system"]>
  (<["updatedAt" := VStr "2024-01-01T00:00:00.000Z"]> ∅)))).


(** The same record in the degraded engine of a browser without IndexedDB. *)
Definition stockedDegraded : world :=
  match ExerciseRepository.create LocalStorage.module (VObj benchPress) legacyBrowser with
  | Ret _ w => w
  | _ => legacyBrowser
  end.

Definition benchPressRecords : gmap string value :=
  <["ex-1" := VObj benchPressStored]> ∅.

(** Days in UTC. *)
Definition utc : LocalDay := fixedOffsetDay 0.

(** Noon of 9999-12-31 (UTC), and an exercise performed then. *)
Definition lastNoon : Z := 253402257600000.

Definition lateExercise : gmap string value :=
  <["id" := VStr "ex-late"]> (<["date" := VDate (Some lastNoon)]> benchPress).

Definition lateDurable : world :=
  match ExerciseRepository.create IndexedDB.module (VObj lateExercise) browser with
  | Ret _ w => w
  | _ => browser
  end.

Definition lateDegraded : world :=
  match ExerciseRepository.create LocalStorage.module (VObj lateExercise) legacyBrowser with
  | Ret _ w => w
  | _ => legacyBrowser
  end.

(** A query on an index the settings store does not have. *)
Definition queryUndeclaredIndex : list op :=
  [GetByIndex STORES.SETTINGS "name" (VStr "x")].

(** A sequence within the schema. *)
Definition sampleOps : list op :=
  [Add STORES.EXERCISES (VObj benchPressStored);
   Add STORES.EXERCISES (VObj benchPressStored);
   GetByIndex STORES.EXERCISES "name" (VStr "Bench Press");
   GetById STORES.EXERCISES "ex-1";
   DeleteById STORES.EXERCISES "ex-1";
   GetAll STORES.EXERCISES].

(** A record whose identifier names a property that every object inherits,
    and the lookup of such an identifier. *)
Definition addInheritedIdentifier : list op :=
  [Add STORES.EXERCISES (VObj (<["id" := VStr "constructor"]> benchPressStored))].

Definition getInheritedIdentifier : list op := [GetById STORES.EXERCISES "toString"].

(** A stored food record. *)
Definition oatmealStored : gmap string value :=
  <["id" := VStr "food-1"]> (<["name" := VStr "Oatmeal"]>
  (<["mealType" := VStr "breakfast"]>
  (<["date" := VStr "2024-01-01T00:00:00.000Z"]>
  (<["createdAt" := VStr "2024-01-01T00:46:40.000Z"]>
  (<["updatedAt" := VStr "2024-01-01T00:46:40.000Z"]> ∅))))).

(** A snapshot without exercises and without settings. *)
Definition foodsOnlySnapshot : gmap string value :=
  <["version" := VStr "1.0.0"]> (<["exercises" := VStr "none"]>
  (<["foods" := VArr [VObj oatmealStored]]> ∅)).

(** A snapshot without exercises whose settings are present. *)
Definition snapshotWithSettings : gmap string value :=
  <["version" := VStr "1.0.0"]> (<["exercises" := VStr "none"]>
  (<["foods" := VArr []]>
  (<["settings" := VObj (<["theme" := VStr "dark"]> ∅)]> ∅))).

(** A snapshot without exercises and settings whose food record has no
    dates. *)
Definition snapshotWithUndatedFood : gmap string value :=
  <["version" := VStr "1.0.0"]> (<["exercises" := VStr "none"]>
  (<["foods" := VArr [VObj (<["id" := VStr "food-2"]> (<["name" := VStr "Rice"]> ∅))]]> ∅)).

End Examples.

(** ** Vocabulary of the further properties *)

(** Strings and keys in strictly ascending order. *)
Definition string_lt (a b : string) : Prop := String.compare a b = Lt.

Definition key_lt (a b : key) : Prop := key_compare a b = Lt.

(** The [name] of an entity, and the time value of its [createdAt]. *)
Definition nameOf (e : value) : value :=
  match e with
  | VObj m => lookupProp m "name"
  | _ => VUndef
  end.

Definition createdTime (e : value) : option Z :=
  match e with
  | VObj m =>
      match m !! "createdAt" with
      | Some (VDate t) => t
      | _ => None
      end
  | _ => None
  end.

Definition namedByString (e : value) : bool :=
  match nameOf e with
  | VStr _ => true
  | _ => false
  end.

(** A value without a function inside: what the structured clone of the
    durable engine copies as it is. *)
Fixpoint isData (v : value) : bool :=
  match v with
  | VFunc _ => false
  | VArr l => forallb isData l
  | VObj m =>
      match map_to_list (omap (fun x => if isData x then None else Some x) m) with
      | [] => true
      | _ => false
      end
  | _ => true
  end.

(** A value of which [new Date] makes an invalid date in every runtime:
    [undefined], an invalid date, or a number beyond the range of time
    values. *)
Definition noDate (v : value) : bool :=
  match v with
  | VUndef | VDate None => true
  | VNum n => negb ((- IsoDate.maxTime <=? n) && (n <=? IsoDate.maxTime))
  | _ => false
  end.

(** The record has the own property [i] with the string [x] as value. *)
Definition hasOwnString (i x : string) (v : value) : bool :=
  match v with
  | VObj m =>
      match m !! i with
      | Some (VStr y) => String.eqb y x
      | _ => false
      end
  | _ => false
  end.

(** The store an operation addresses, and whether it is a read. *)
Definition opStore (o : op) : string :=
  match o with
  | GetById n _ | GetAll n | GetByIndex n _ _ | GetByIndexRange n _ _ _
  | Add n _ | Update n _ | DeleteById n _ | ClearStore n => n
  end.

Definition isRead (o : op) : bool :=
  match o with
  | GetById _ _ | GetAll _ | GetByIndex _ _ _ | GetByIndexRange _ _ _ _ => true
  | _ => false
  end.

(** The rejection of [openDatabase] outside a browser. *)
Definition unavailable {A} (w : world) : result A :=
  Throw (Error "IndexedDB is not available in this environment") w.

(** The durable engine: an operation on store [n] ends in the state it
    found, in that state with the database created, or in the latter with
    the records of [n] replaced. *)
Definition idbOutcome (n : string) (w w' : world) : Prop :=
  w' = w ∨ w' = opened w
  ∨ exists db s r,
      w_database (opened w) = Some db ∧ db !! n = Some s
      ∧ w' = set_database
               (Some (<[n := {| os_indexes := os_indexes s; os_records := r |}]> db))
               (opened w).

(** The degraded engine: an operation on store [n] ends in the state it
    found or in one that differs from it in the text of [n]. *)
Definition lsOutcome (n : string) (w w' : world) : Prop :=
  w' = w
  ∨ exists l, w' = set_localStorage l w
      ∧ forall k, k ≠ LocalStorage.getStoreKey n -> l !! k = w_localStorage w !! k.

(** The state an operation leaves, whether it resolves or rejects. *)
Definition stateAfter {A} (m : M A) (w : world) : world :=
  match m w with
  | Ret _ w' | Throw _ w' => w'
  | OutOfFuel => w
  end.

(** ** Further sample states and records *)

Module Cases.

(** Three exercises, two of them under the same name. *)
Definition squat : gmap string value :=
  <["id" := VStr "ex-2"]> (<["name" := VStr "Squat"]> Examples.benchPress).

Definition benchPressAgain : gmap string value :=
  <["id" := VStr "ex-3"]> Examples.benchPress.

Definition gym : world :=
  stateAfter (ExerciseRepository.create IndexedDB.module (VObj benchPressAgain))
    (stateAfter (ExerciseRepository.create IndexedDB.module (VObj squat)) Examples.stocked).

Definition gymExercises : list value :=
  [VObj Examples.benchPress; VObj squat; VObj benchPressAgain].

(** Three food entries, created one after the other. *)
Definition oats : gmap string value :=
  <["id" := VStr "f-1"]> (<["name" := VStr "Oats"]> (<["mealType" := VStr "breakfast"]>
  (<["date" := VDate (Some 1704067200000)]>
  (<["servingSize" := VStr "1 cup"]> (<["servingMultiplier" := VNum 1]>
  (<["nutrition" := VObj (<["calories" := VNum 150]> (<["protein" := VNum 5]>
                         (<["carbs" := VNum 27]> (<["fats" := VNum 3]> ∅))))]>
  (<["createdAt" := VDate (Some 1704070000000)]>
  (<["updatedAt" := VDate (Some 1704070000000)]> ∅)))))))).

Definition rice : gmap string value :=
  <["id" := VStr "f-2"]> (<["name" := VStr "Rice"]> (<["mealType" := VStr "lunch"]>
  (<["createdAt" := VDate (Some 1704080000000)]> oats))).

Definition oatsAgain : gmap string value :=
  <["id" := VStr "f-3"]> (<["createdAt" := VDate (Some 1704090000000)]> oats).

Definition pantry : world :=
  stateAfter (FoodRepository.create IndexedDB.module (VObj oatsAgain))
    (stateAfter (FoodRepository.create IndexedDB.module (VObj rice))
       (stateAfter (FoodRepository.create IndexedDB.module (VObj oats)) Examples.browser)).

Definition pantryFoods : list value := [VObj oats; VObj rice; VObj oatsAgain].

(** A browser whose exercise store holds a record without a [date]. *)
Definition undatedRecord : gmap string value :=
  delete "date" Examples.benchPressStored.

Definition undated : world :=
  putStore STORES.EXERCISES (<[KStr "ex-1" := VObj undatedRecord]> ∅) Examples.browser.

(** A browser whose food store holds the records of [benchPressRecords]. *)
Definition larderRecords : gmap string value := Examples.benchPressRecords.

Definition larder : world :=
  putStore STORES.FOODS (kmap KStr larderRecords) Examples.browser.

(** Partial settings: a theme, and a theme together with an [id]. *)
Definition darkTheme : gmap string value := <["theme" := VStr "dark"]> ∅.

Definition renamedSettings : gmap string value :=
  <["id" := VStr "mine"]> darkTheme.

(** A snapshot that lists one exercise twice. *)
Definition doubledSnapshot : gmap string value :=
  <["version" := VStr "1.0.0"]>
  (<["exercises" := VArr [VObj Examples.benchPressStored; VObj Examples.benchPressStored]]>
  (<["foods" := VArr []]> ∅)).

(** A runtime without [window], as when a page is rendered on a server. *)
Definition server : world :=
  {| w_window := false; w_indexedDB := false; w_database := None; w_localStorage := ∅;
     w_now := 1704067200000; w_loadTime := 1704067100000; w_console := [];
     w_nextRef := 0; w_repositoryContainer := None |}.

End Cases.

(** * Properties *)

(** ** The ISO date text: order and round trip *)

Module IsoDateFacts.
Import IsoDate.

Lemma DayFromYear_succ y : DayFromYear (y + 1) = DayFromYear y + DaysInYear y.
Proof.
  unfold DayFromYear, DaysInYear, InLeapYear.
  destruct (y mod 4 =? 0) eqn:E4; destruct (y mod 100 =? 0) eqn:E100;
  destruct (y mod 400 =? 0) eqn:E400; simpl; 
  rewrite ?Z.eqb_eq, ?Z.eqb_neq in *; Z.div_mod_to_equations; lia.
Qed.

Lemma DayFromYear_mono a b : a <= b -> DayFromYear a <= DayFromYear b.
Proof. unfold DayFromYear. intros. Z.div_mod_to_equations. lia. Qed.

Lemma YearFromDay_spec d :
  DayFromYear (YearFromDay d) <= d < DayFromYear (YearFromDay d + 1).
Proof.
  unfold YearFromDay.
  set (y0 := 1970 + 400 * d / 146097).
  destruct (d <? DayFromYear y0) eqn:E1; [apply Z.ltb_lt in E1|apply Z.ltb_ge in E1].
  - replace (y0 - 1 + 1) with y0 by lia. split; [|lia].
    unfold DayFromYear in *. subst y0. Z.div_mod_to_equations. lia.
  - destruct (DayFromYear (y0 + 1) <=? d) eqn:E2; [apply Z.leb_le in E2|apply Z.leb_gt in E2].
    + split; [lia|]. unfold DayFromYear in *. subst y0. Z.div_mod_to_equations. lia.
    + lia.
Qed.

Lemma DaysInYear_cases y : DaysInYear y = 365 + leapDays (InLeapYear y).
Proof. unfold DaysInYear, leapDays. destruct (InLeapYear y); reflexivity. Qed.

Lemma dayInYear_range d :
  0 <= d - DayFromYear (YearFromDay d) < 365 + leapDays (InLeapYear (YearFromDay d)).
Proof.
  pose proof (YearFromDay_spec d) as H.
  rewrite DayFromYear_succ, DaysInYear_cases in H. lia.
Qed.

Lemma YearFromDay_mono a b : a <= b -> YearFromDay a <= YearFromDay b.
Proof.
  intros Hab. destruct (Z_le_gt_dec (YearFromDay a) (YearFromDay b)) as [|Hgt]; [assumption|].
  pose proof (YearFromDay_spec a) as Ha. pose proof (YearFromDay_spec b) as Hb.
  pose proof (DayFromYear_mono (YearFromDay b + 1) (YearFromDay a)). lia.
Qed.

Lemma month_range leap d :
  0 <= d < 365 + leapDays leap ->
  0 <= MonthFromDayInYear leap d <= 11 /\
  monthStart leap (MonthFromDayInYear leap d) <= d
    < monthStart leap (MonthFromDayInYear leap d + 1) /\
  1 <= d - monthStart leap (MonthFromDayInYear leap d) + 1 <= 31.
Proof.
  intros H. unfold MonthFromDayInYear, leapDays in *.
  destruct leap;
  repeat match goal with
  | |- context [if ?a <? ?b then _ else _] =>
      destruct (Z.ltb_spec a b)
  end; vm_compute monthStart; lia.
Qed.

Lemma month_mono leap a b :
  0 <= a <= b -> b < 365 + leapDays leap ->
  MonthFromDayInYear leap a <= MonthFromDayInYear leap b.
Proof.
  intros H1 H2.
  destruct (Z_le_gt_dec (MonthFromDayInYear leap a) (MonthFromDayInYear leap b)) as [|Hgt];
    [assumption|exfalso].
  destruct (month_range leap a) as (Ra & Sa & _); [lia|].
  destruct (month_range leap b) as (Rb & Sb & _); [lia|].
  assert (Hm : monthStart leap (MonthFromDayInYear leap b + 1)
               <= monthStart leap (MonthFromDayInYear leap a)).
  { generalize dependent (MonthFromDayInYear leap a).
    generalize dependent (MonthFromDayInYear leap b).
    intros mb _ _ ma Hgt _ _.
    intros. unfold monthStart, leapDays. destruct leap;
    repeat match goal with
    | |- context [if ?a <=? ?b then _ else _] => destruct (Z.leb_spec a b)
    | |- context [if ?a =? ?b then _ else _] => destruct (Z.eqb_spec a b)
    end; lia. }
  lia.
Qed.

Lemma fields_compare_antisym a b : fields_compare b a = CompOpp (fields_compare a b).
Proof.
  unfold fields_compare.
  rewrite (Z.compare_antisym (f_year a)), (Z.compare_antisym (f_month a)),
    (Z.compare_antisym (f_date a)), (Z.compare_antisym (f_hour a)),
    (Z.compare_antisym (f_min a)), (Z.compare_antisym (f_sec a)),
    (Z.compare_antisym (f_ms a)).
  destruct (f_year a ?= f_year b), (f_month a ?= f_month b), (f_date a ?= f_date b),
    (f_hour a ?= f_hour b), (f_min a ?= f_min b), (f_sec a ?= f_sec b); reflexivity.
Qed.

Lemma fields_compare_refl a : fields_compare a a = Eq.
Proof. unfold fields_compare. rewrite !Z.compare_refl. reflexivity. Qed.

Ltac cmp_step :=
  match goal with
  | |- context [?a ?= ?b] =>
      let H := fresh in destruct (Z.compare_spec a b) as [H|H|H]; try reflexivity; try lia
  end.

Lemma timeOfDay_lt w1 w2 :
  0 <= w1 < w2 -> w2 < msPerDay ->
  match w1 / 3600000 ?= w2 / 3600000 with Eq =>
  match (w1 / 60000) mod 60 ?= (w2 / 60000) mod 60 with Eq =>
  match (w1 / 1000) mod 60 ?= (w2 / 1000) mod 60 with Eq => w1 mod 1000 ?= w2 mod 1000
  | c => c end | c => c end | c => c end = Lt.
Proof.
  unfold msPerDay. intros H1 H2.
  cmp_step; [|exfalso; Z.div_mod_to_equations; lia].
  cmp_step; [|exfalso; Z.div_mod_to_equations; lia].
  cmp_step; [|exfalso; Z.div_mod_to_equations; lia].
  cmp_step; exfalso; Z.div_mod_to_equations; lia.
Qed.

Lemma fields_lt t1 t2 : t1 < t2 -> fields_compare (fieldsOfTime t1) (fieldsOfTime t2) = Lt.
Proof.
  intros Hlt. unfold fields_compare, fieldsOfTime; cbn [f_year f_month f_date f_hour f_min f_sec f_ms].
  assert (Hd : Day t1 <= Day t2) by (unfold Day, msPerDay; Z.div_mod_to_equations; lia).
  pose proof (YearFromDay_mono _ _ Hd) as Hy.
  pose proof (dayInYear_range (Day t1)) as R1.
  pose proof (dayInYear_range (Day t2)) as R2.
  destruct (Z.compare_spec (YearFromDay (Day t1)) (YearFromDay (Day t2))) as [Ey|Ey|Ey];
    [|reflexivity|lia].
  rewrite Ey in *.
  set (y := YearFromDay (Day t2)) in *.
  set (leap := InLeapYear y) in *.
  pose proof (month_mono leap (Day t1 - DayFromYear y) (Day t2 - DayFromYear y)) as Hm.
  destruct (Z.compare_spec (MonthFromDayInYear leap (Day t1 - DayFromYear y) + 1)
              (MonthFromDayInYear leap (Day t2 - DayFromYear y) + 1)) as [Em|Em|Em];
    [|reflexivity|lia].
  assert (Em' : MonthFromDayInYear leap (Day t1 - DayFromYear y)
                = MonthFromDayInYear leap (Day t2 - DayFromYear y)) by lia.
  rewrite Em'.
  destruct (Z.compare_spec
              (Day t1 - DayFromYear y
               - monthStart leap (MonthFromDayInYear leap (Day t2 - DayFromYear y)) + 1)
              (Day t2 - DayFromYear y
               - monthStart leap (MonthFromDayInYear leap (Day t2 - DayFromYear y)) + 1))
    as [Ed|Ed|Ed]; [|reflexivity|lia].
  assert (Ed' : Day t1 = Day t2) by lia.
  apply timeOfDay_lt.
  - unfold TimeWithinDay, Day, msPerDay in *. Z.div_mod_to_equations. lia.
  - unfold TimeWithinDay, msPerDay. Z.div_mod_to_equations. lia.
Qed.

Lemma fields_compare_time t1 t2 :
  fields_compare (fieldsOfTime t1) (fieldsOfTime t2) = (t1 ?= t2).
Proof.
  destruct (Z.compare_spec t1 t2) as [E|E|E].
  - subst. apply fields_compare_refl.
  - apply fields_lt; assumption.
  - rewrite fields_compare_antisym, (fields_lt t2 t1) by assumption. reflexivity.
Qed.

Lemma timeOfFields_fieldsOfTime t : timeOfFields (fieldsOfTime t) = t.
Proof.
  unfold timeOfFields, fieldsOfTime, MakeDay, MakeTime;
    cbn [f_year f_month f_date f_hour f_min f_sec f_ms].
  replace (MonthFromDayInYear (InLeapYear (YearFromDay (Day t)))
             (Day t - DayFromYear (YearFromDay (Day t))) + 1 - 1)
    with (MonthFromDayInYear (InLeapYear (YearFromDay (Day t)))
             (Day t - DayFromYear (YearFromDay (Day t)))) by lia.
  generalize (monthStart (InLeapYear (YearFromDay (Day t)))
       (MonthFromDayInYear (InLeapYear (YearFromDay (Day t)))
          (Day t - DayFromYear (YearFromDay (Day t))))).
  generalize (DayFromYear (YearFromDay (Day t))).
  intros a b. unfold Day, TimeWithinDay, msPerDay. Z.div_mod_to_equations. lia.
Qed.

Lemma digit_cases k : 0 <= k <= 9 ->
  k = 0 \/ k = 1 \/ k = 2 \/ k = 3 \/ k = 4 \/ k = 5 \/ k = 6 \/ k = 7 \/ k = 8 \/ k = 9.
Proof. lia. Qed.

Lemma N_of_digit k : 0 <= k <= 9 -> Z.of_N (N_of_ascii (digit k)) = 48 + k.
Proof.
  intros H. destruct (digit_cases k H) as [->|[->|[->|[->|[->|[->|[->|[->|[->| ->]]]]]]]]];
    reflexivity.
Qed.

Lemma undigit_digit k : 0 <= k <= 9 -> undigit (digit k) = Some k.
Proof.
  intros H. unfold undigit. rewrite (N_of_digit k H).
  destruct (Z.leb_spec 48 (48 + k)); [|lia].
  destruct (Z.leb_spec (48 + k) 57); [|lia]. simpl. f_equal. lia.
Qed.

Lemma compare_digit a b : 0 <= a <= 9 -> 0 <= b <= 9 ->
  Ascii.compare (digit a) (digit b) = (a ?= b).
Proof.
  intros Ha Hb. unfold Ascii.compare.
  rewrite <- N2Z.inj_compare, !N_of_digit by assumption.
  apply Z.add_compare_mono_l.
Qed.

Lemma pow10_pos w : 0 < 10 ^ Z.of_nat w.
Proof. apply Z.pow_pos_nonneg; lia. Qed.

Lemma pow10_S w : 10 ^ Z.of_nat (S w) = 10 * 10 ^ Z.of_nat w.
Proof. rewrite Nat2Z.inj_succ, Z.pow_succ_r by lia. reflexivity. Qed.

Lemma split_digit w n : 0 <= n < 10 ^ Z.of_nat (S w) ->
  0 <= n / 10 ^ Z.of_nat w <= 9 /\ 0 <= n mod 10 ^ Z.of_nat w < 10 ^ Z.of_nat w /\
  n = 10 ^ Z.of_nat w * (n / 10 ^ Z.of_nat w) + n mod 10 ^ Z.of_nat w.
Proof.
  rewrite pow10_S. pose proof (pow10_pos w) as Hp. intros H.
  pose proof (Z.div_mod n (10 ^ Z.of_nat w) ltac:(lia)) as E.
  pose proof (Z.mod_pos_bound n (10 ^ Z.of_nat w) Hp) as B.
  split; [|split; [exact B|exact E]].
  split.
  - apply Z.div_pos; lia.
  - assert (n / 10 ^ Z.of_nat w < 10); [|lia].
    apply Z.div_lt_upper_bound; lia.
Qed.

Lemma append_String c s r : (String c s +:+ r) = String c (s +:+ r).
Proof. reflexivity. Qed.

Lemma compare_digits w : forall a b r1 r2,
  0 <= a < 10 ^ Z.of_nat w -> 0 <= b < 10 ^ Z.of_nat w ->
  String.compare (digits w a +:+ r1) (digits w b +:+ r2) =
  match a ?= b with Eq => String.compare r1 r2 | c => c end.
Proof.
  induction w as [|w IH]; intros a b r1 r2 Ha Hb.
  - simpl in *. replace a with 0 by lia. replace b with 0 by lia. reflexivity.
  - destruct (split_digit w a Ha) as (Qa & Ra & Ea).
    destruct (split_digit w b Hb) as (Qb & Rb & Eb).
    cbn [digits]. rewrite !append_String. cbn [String.compare].
    rewrite compare_digit by assumption.
    pose proof (pow10_pos w) as Hp.
    set (P := 10 ^ Z.of_nat w) in *.
    destruct (Z.compare_spec (a / P) (b / P)) as [E|E|E].
    + rewrite IH by assumption.
      destruct (Z.compare_spec (a mod P) (b mod P)) as [E'|E'|E'].
      * replace (a ?= b) with Eq; [reflexivity|]. symmetry. apply Z.compare_eq_iff. lia.
      * replace (a ?= b) with Lt; [reflexivity|]. symmetry. apply Z.compare_lt_iff. lia.
      * replace (a ?= b) with Gt; [reflexivity|]. symmetry. apply Z.compare_gt_iff. lia.
    + replace (a ?= b) with Lt; [reflexivity|]. symmetry. apply Z.compare_lt_iff. nia.
    + replace (a ?= b) with Gt; [reflexivity|]. symmetry. apply Z.compare_gt_iff. nia.
Qed.

Lemma takeDigits_digits w : forall acc n r,
  0 <= n < 10 ^ Z.of_nat w ->
  takeDigits w acc (digits w n +:+ r) = Some (acc * 10 ^ Z.of_nat w + n, r).
Proof.
  induction w as [|w IH]; intros acc n r Hn.
  - simpl in *. f_equal. f_equal. lia.
  - destruct (split_digit w n Hn) as (Q & R & E).
    cbn [digits]. rewrite append_String. cbn [takeDigits].
    rewrite undigit_digit by assumption. rewrite IH by assumption.
    f_equal. f_equal. rewrite pow10_S. set (P := 10 ^ Z.of_nat w) in *. lia.
Qed.


Lemma Day_mono a b : a <= b -> Day a <= Day b.
Proof. unfold Day, msPerDay. intros. Z.div_mod_to_equations. lia. Qed.

Lemma year_fourDigit t : yearZeroStart <= t <= year9999End ->
  0 <= f_year (fieldsOfTime t) <= 9999.
Proof.
  intros [H1 H2]. cbn [fieldsOfTime f_year].
  pose proof (YearFromDay_mono _ _ (Day_mono _ _ H1)) as A.
  pose proof (YearFromDay_mono _ _ (Day_mono _ _ H2)) as B.
  vm_compute (YearFromDay (Day yearZeroStart)) in A.
  vm_compute (YearFromDay (Day year9999End)) in B. lia.
Qed.

Lemma year_clipped t : - maxTime <= t <= maxTime ->
  -271821 <= f_year (fieldsOfTime t) <= 275760.
Proof.
  intros [H1 H2]. cbn [fieldsOfTime f_year].
  pose proof (YearFromDay_mono _ _ (Day_mono _ _ H1)) as A.
  pose proof (YearFromDay_mono _ _ (Day_mono _ _ H2)) as B.
  vm_compute (YearFromDay (Day (- maxTime))) in A.
  vm_compute (YearFromDay (Day maxTime)) in B. lia.
Qed.

Lemma fields_range t :
  let f := fieldsOfTime t in
  1 <= f_month f <= 12 /\ 1 <= f_date f <= 31 /\ 0 <= f_hour f <= 23 /\
  0 <= f_min f <= 59 /\ 0 <= f_sec f <= 59 /\ 0 <= f_ms f <= 999.
Proof.
  cbn [fieldsOfTime f_month f_date f_hour f_min f_sec f_ms].
  pose proof (dayInYear_range (Day t)) as R.
  destruct (month_range _ _ R) as (M & _ & D).
  split; [lia|]. split; [lia|].
  unfold TimeWithinDay, msPerDay. repeat split; Z.div_mod_to_equations; lia.
Qed.

Lemma pow10_2 : 10 ^ Z.of_nat 2 = 100. Proof. reflexivity. Qed.
Lemma pow10_3 : 10 ^ Z.of_nat 3 = 1000. Proof. reflexivity. Qed.
Lemma pow10_4 : 10 ^ Z.of_nat 4 = 10000. Proof. reflexivity. Qed.
Lemma pow10_6 : 10 ^ Z.of_nat 6 = 1000000. Proof. reflexivity. Qed.

Lemma sep_compare c r1 r2 :
  String.compare (String c "" +:+ r1) (String c "" +:+ r2) = String.compare r1 r2.
Proof.
  change (String c "" +:+ r1) with (String c r1).
  change (String c "" +:+ r2) with (String c r2).
  cbn [String.compare]. replace (Ascii.compare c c) with Eq; [reflexivity|].
  symmetry. unfold Ascii.compare. apply N.compare_refl.
Qed.

Lemma toISOString_compare t1 t2 :
  yearZeroStart <= t1 <= year9999End -> yearZeroStart <= t2 <= year9999End ->
  String.compare (toISOString t1) (toISOString t2) = (t1 ?= t2).
Proof.
  intros H1 H2. rewrite <- fields_compare_time.
  pose proof (year_fourDigit t1 H1) as Y1. pose proof (year_fourDigit t2 H2) as Y2.
  pose proof (fields_range t1) as R1. pose proof (fields_range t2) as R2.
  cbv zeta in R1, R2. unfold toISOString, yearString, fields_compare.
  destruct (fieldsOfTime t1) as [y1 mo1 d1 h1 mi1 s1 ms1].
  destruct (fieldsOfTime t2) as [y2 mo2 d2 h2 mi2 s2 ms2].
  cbn [f_year f_month f_date f_hour f_min f_sec f_ms] in *.
  destruct (Z.leb_spec 0 y1); [|lia]. destruct (Z.leb_spec y1 9999); [|lia].
  destruct (Z.leb_spec 0 y2); [|lia]. destruct (Z.leb_spec y2 9999); [|lia].
  cbn [andb].
  rewrite compare_digits by (rewrite pow10_4; lia).
  destruct (y1 ?= y2); try reflexivity.
  rewrite sep_compare.
  rewrite compare_digits by (rewrite pow10_2; lia).
  destruct (mo1 ?= mo2); try reflexivity.
  rewrite sep_compare.
  rewrite compare_digits by (rewrite pow10_2; lia).
  destruct (d1 ?= d2); try reflexivity.
  rewrite sep_compare.
  rewrite compare_digits by (rewrite pow10_2; lia).
  destruct (h1 ?= h2); try reflexivity.
  rewrite sep_compare.
  rewrite compare_digits by (rewrite pow10_2; lia).
  destruct (mi1 ?= mi2); try reflexivity.
  rewrite sep_compare.
  rewrite compare_digits by (rewrite pow10_2; lia).
  destruct (s1 ?= s2); try reflexivity.
  rewrite sep_compare.
  rewrite compare_digits by (rewrite pow10_3; lia).
  destruct (ms1 ?= ms2); reflexivity.
Qed.

Lemma digit_not_sign k : 0 <= k <= 9 ->
  Ascii.eqb (digit k) "+" = false /\ Ascii.eqb (digit k) "-" = false.
Proof.
  intros H. destruct (digit_cases k H) as [->|[->|[->|[->|[->|[->|[->|[->|[->| ->]]]]]]]]];
    split; reflexivity.
Qed.

Lemma takeYear_yearString y r : -999999 <= y <= 999999 ->
  takeYear (yearString y +:+ r) = Some (y, r).
Proof.
  intros Hy. unfold yearString.
  destruct (Z.leb_spec 0 y) as [H0|H0]; [destruct (Z.leb_spec y 9999) as [H1|H1]|]; cbn [andb].
  - assert (Hr : 0 <= y < 10 ^ Z.of_nat 4) by (rewrite pow10_4; lia).
    pose proof (takeDigits_digits 4 0 y r Hr) as T.
    destruct (split_digit 3 y Hr) as (Q & _ & _).
    destruct (digit_not_sign _ Q) as [N1 N2].
    change (digits 4 y) with
      (String (digit (y / 10 ^ Z.of_nat 3)) (digits 3 (y mod 10 ^ Z.of_nat 3))) in *.
    rewrite append_String in *. unfold takeYear. rewrite N1, N2, T.
    apply f_equal, (f_equal2 pair); [lia|reflexivity].
  - destruct (Z.ltb_spec y 0); [lia|].
    rewrite append_String. unfold takeYear.
    change (Ascii.eqb "+" "+") with true. cbv iota.
    rewrite takeDigits_digits by (rewrite pow10_6; lia). apply f_equal, (f_equal2 pair); [lia|reflexivity].
  - destruct (Z.ltb_spec y 0); [|lia].
    rewrite append_String. unfold takeYear.
    change (Ascii.eqb "-" "+") with false. change (Ascii.eqb "-" "-") with true. cbv iota.
    rewrite takeDigits_digits by (rewrite pow10_6; lia).
    destruct (Z.eqb_spec (0 * 10 ^ Z.of_nat 6 + - y) 0); [lia|].
    apply f_equal, (f_equal2 pair); [lia|reflexivity].
Qed.

Lemma expect_sep c r : expect c (String c "" +:+ r) = Some r.
Proof.
  change (String c "" +:+ r) with (String c r). unfold expect.
  rewrite Ascii.eqb_refl. reflexivity.
Qed.

Lemma parseFields_toISOString t : - maxTime <= t <= maxTime ->
  parseFields (toISOString t) = Some (fieldsOfTime t).
Proof.
  intros Ht. pose proof (year_clipped t Ht) as Y. pose proof (fields_range t) as R.
  cbv zeta in R. unfold toISOString, parseFields.
  destruct (fieldsOfTime t) as [y mo d h mi s ms].
  cbn [f_year f_month f_date f_hour f_min f_sec f_ms] in *.
  rewrite takeYear_yearString by lia. cbn [mbind option_bind].
  rewrite expect_sep. cbn [mbind option_bind].
  rewrite takeDigits_digits by (rewrite pow10_2; lia). cbn [mbind option_bind].
  rewrite expect_sep. cbn [mbind option_bind].
  rewrite takeDigits_digits by (rewrite pow10_2; lia). cbn [mbind option_bind].
  rewrite expect_sep. cbn [mbind option_bind].
  rewrite takeDigits_digits by (rewrite pow10_2; lia). cbn [mbind option_bind].
  rewrite expect_sep. cbn [mbind option_bind].
  rewrite takeDigits_digits by (rewrite pow10_2; lia). cbn [mbind option_bind].
  rewrite expect_sep. cbn [mbind option_bind].
  rewrite takeDigits_digits by (rewrite pow10_2; lia). cbn [mbind option_bind].
  rewrite expect_sep. cbn [mbind option_bind].
  replace ("Z"%string) with ("Z" +:+ "")%string by reflexivity.
  rewrite takeDigits_digits by (rewrite pow10_3; lia). cbn [mbind option_bind].
  rewrite expect_sep. cbn [mbind option_bind].
  rewrite !Z.mul_0_l, !Z.add_0_l. reflexivity.
Qed.

Lemma parse_toISOString t : - maxTime <= t <= maxTime -> parse (toISOString t) = Some t.
Proof.
  intros Ht. unfold parse. rewrite parseFields_toISOString by assumption.
  cbn [mbind option_bind].
  pose proof (fields_range t) as R. cbv zeta in R.
  replace (fieldsValid (fieldsOfTime t)) with true.
  - rewrite timeOfFields_fieldsOfTime. unfold TimeClip.
    destruct (Z.leb_spec (- maxTime) t); [|lia]. destruct (Z.leb_spec t maxTime); [|lia].
    reflexivity.
  - symmetry. unfold fieldsValid. rewrite !andb_true_iff, !Z.leb_le. lia.
Qed.

End IsoDateFacts.

(** ** Serialization *)

Section Serialization.
Import IsoDateFacts.

Lemma lookupProp_own (m : gmap string value) k : inheritedValue k = VUndef ->
  lookupProp m k = default VUndef (m !! k).
Proof. intros H. unfold lookupProp. destruct (m !! k); [reflexivity|exact H]. Qed.

Lemma lookupProp_Some (m : gmap string value) k v : m !! k = Some v ->
  lookupProp m k = v.
Proof. intros H. unfold lookupProp. by rewrite H. Qed.

Lemma inheritedValue_proto : inheritedValue "__proto__" = VObj ∅.
Proof. reflexivity. Qed.

Lemma assignProp_own (m : gmap string value) k v : inheritedValue k = VUndef ->
  assignProp m k v = <[k := v]> m.
Proof.
  intros H. unfold assignProp. destruct (m !! k); [reflexivity|].
  destruct (String.eqb_spec k "__proto__") as [->|]; [discriminate|reflexivity].
Qed.

Lemma assignProp_falsy (m : gmap string value) k v :
  truthy (lookupProp m k) = false -> assignProp m k v = <[k := v]> m.
Proof.
  unfold assignProp, lookupProp. destruct (m !! k); [reflexivity|].
  destruct (String.eqb_spec k "__proto__") as [->|]; [discriminate|reflexivity].
Qed.

Lemma get_prop_obj (m : gmap string value) k : inheritedValue k = VUndef ->
  get_prop (VObj m) k = Ok (default VUndef (m !! k)).
Proof. intros H. cbn [get_prop]. by rewrite lookupProp_own. Qed.

Lemma new_Date_iso t : IsoDate.inRange t ->
  new_Date (VStr (IsoDate.toISOString t)) = VDate (Some t).
Proof. intros H. cbn [new_Date]. rewrite parse_toISOString; [reflexivity | exact H]. Qed.

Lemma withIsoDates_ok (e : gmap string value) d c u :
  holdsDate e "date" d -> holdsDate e "createdAt" c -> holdsDate e "updatedAt" u ->
  Entity.withIsoDates (VObj e) =
    Ok (VObj (<["updatedAt" := VStr (IsoDate.toISOString u)]>
             (<["createdAt" := VStr (IsoDate.toISOString c)]>
             (<["date" := VStr (IsoDate.toISOString d)]> e)))).
Proof.
  intros [Hd _] [Hc _] [Hu _]. unfold Entity.withIsoDates.
  rewrite !get_prop_obj by reflexivity. rewrite Hd, Hc, Hu. reflexivity.
Qed.

Lemma withDates_ok (s : gmap string value) d c u :
  holdsIso s "date" d -> holdsIso s "createdAt" c -> holdsIso s "updatedAt" u ->
  Entity.withDates (VObj s) =
    Ok (VObj (<["updatedAt" := VDate (Some u)]> (<["createdAt" := VDate (Some c)]>
             (<["date" := VDate (Some d)]> s)))).
Proof.
  intros [Hd Rd] [Hc Rc] [Hu Ru]. unfold Entity.withDates.
  rewrite !get_prop_obj by reflexivity. rewrite Hd, Hc, Hu. cbn [from_option id obind spread].
  rewrite !new_Date_iso by assumption. reflexivity.
Qed.

Lemma dates_over_iso (e : gmap string value) d c u (x y z : value) :
  holdsDate e "date" d -> holdsDate e "createdAt" c -> holdsDate e "updatedAt" u ->
  <["updatedAt" := VDate (Some u)]> (<["createdAt" := VDate (Some c)]>
    (<["date" := VDate (Some d)]>
      (<["updatedAt" := x]> (<["createdAt" := y]> (<["date" := z]> e))))) = e.
Proof.
  intros [Hd _] [Hc _] [Hu _]. apply map_eq. intros k.
  destruct (decide (k = "updatedAt")) as [->|N1]; [by rewrite lookup_insert_eq|].
  rewrite lookup_insert_ne by done.
  destruct (decide (k = "createdAt")) as [->|N2]; [by rewrite lookup_insert_eq|].
  rewrite lookup_insert_ne by done.
  destruct (decide (k = "date")) as [->|N3]; [by rewrite lookup_insert_eq|].
  by rewrite !lookup_insert_ne.
Qed.

Lemma iso_over_dates (s : gmap string value) d c u (x y z : value) :
  holdsIso s "date" d -> holdsIso s "createdAt" c -> holdsIso s "updatedAt" u ->
  <["updatedAt" := VStr (IsoDate.toISOString u)]>
    (<["createdAt" := VStr (IsoDate.toISOString c)]>
    (<["date" := VStr (IsoDate.toISOString d)]>
      (<["updatedAt" := x]> (<["createdAt" := y]> (<["date" := z]> s))))) = s.
Proof.
  intros [Hd _] [Hc _] [Hu _]. apply map_eq. intros k.
  destruct (decide (k = "updatedAt")) as [->|N1]; [by rewrite lookup_insert_eq|].
  rewrite lookup_insert_ne by done.
  destruct (decide (k = "createdAt")) as [->|N2]; [by rewrite lookup_insert_eq|].
  rewrite lookup_insert_ne by done.
  destruct (decide (k = "date")) as [->|N3]; [by rewrite lookup_insert_eq|].
  by rewrite !lookup_insert_ne.
Qed.

Lemma holdsIso_serialized (e : gmap string value) d c u :
  IsoDate.inRange d -> IsoDate.inRange c -> IsoDate.inRange u ->
  let s := <["updatedAt" := VStr (IsoDate.toISOString u)]>
             (<["createdAt" := VStr (IsoDate.toISOString c)]>
             (<["date" := VStr (IsoDate.toISOString d)]> e)) in
  holdsIso s "date" d ∧ holdsIso s "createdAt" c ∧ holdsIso s "updatedAt" u.
Proof.
  intros Rd Rc Ru s. subst s. unfold holdsIso.
  rewrite lookup_insert_eq.
  rewrite (lookup_insert_ne _ "updatedAt" "createdAt") by done.
  rewrite lookup_insert_eq.
  rewrite (lookup_insert_ne _ "updatedAt" "date") by done.
  rewrite (lookup_insert_ne _ "createdAt" "date") by done.
  rewrite lookup_insert_eq. auto.
Qed.

Lemma entity_roundtrip (e : gmap string value) d c u :
  holdsDate e "date" d -> holdsDate e "createdAt" c -> holdsDate e "updatedAt" u ->
  exists s : gmap string value,
    Entity.serialize (VObj e) = Ok (VObj s)
    ∧ holdsIso s "date" d ∧ holdsIso s "createdAt" c ∧ holdsIso s "updatedAt" u
    ∧ (forall k, k ≠ "date" -> k ≠ "createdAt" -> k ≠ "updatedAt" -> s !! k = e !! k)
    ∧ Entity.deserialize (VObj s) = Ok (VObj e).
Proof.
  intros Hd Hc Hu. eexists. unfold Entity.serialize, Entity.deserialize.
  split; [apply (withIsoDates_ok e d c u Hd Hc Hu)|].
  destruct (holdsIso_serialized e d c u (proj2 Hd) (proj2 Hc) (proj2 Hu)) as (Sd & Sc & Su).
  split; [exact Sd|]. split; [exact Sc|]. split; [exact Su|]. split.
  - intros k N1 N2 N3. by rewrite !lookup_insert_ne.
  - rewrite (withDates_ok _ d c u Sd Sc Su). do 2 f_equal.
    apply dates_over_iso; assumption.
Qed.

Lemma settings_roundtrip goal unit_ theme u : IsoDate.inRange u ->
  exists r : gmap string value,
    UserSettingsRepository.serialize (VObj (settingsRecord goal unit_ theme u)) = Ok (VObj r)
    ∧ holdsIso r "updatedAt" u
    ∧ UserSettingsRepository.deserialize (VObj r)
      = Ok (VObj (settingsRecord goal unit_ theme u)).
Proof.
  intros Ru. eexists. split; [reflexivity|]. split.
  - split; [|exact Ru]. by rewrite lookup_insert_eq.
  - unfold UserSettingsRepository.deserialize. rewrite !get_prop_obj by reflexivity.
    rewrite lookup_insert_eq. cbn [from_option id obind].
    rewrite new_Date_iso by exact Ru. reflexivity.
Qed.

End Serialization.

(** ** The monad *)

Lemma bind_Ret {A B} (m : M A) (k : A -> M B) w a w' :
  m w = Ret a w' -> bind m k w = k a w'.
Proof. intros H. unfold bind. rewrite H. reflexivity. Qed.

Lemma bind_Throw {A B} (m : M A) (k : A -> M B) w e w' :
  m w = Throw e w' -> bind m k w = Throw e w'.
Proof. intros H. unfold bind. rewrite H. reflexivity. Qed.

Lemma bind_OutOfFuel {A B} (m : M A) (k : A -> M B) w :
  m w = OutOfFuel -> bind m k w = OutOfFuel.
Proof. intros H. unfold bind. rewrite H. reflexivity. Qed.

Lemma Promise_all_cons_Ret (m : M unit) (ms : list (M unit)) w w' :
  m w = Ret tt w' -> Promise_all (m :: ms) w = Promise_all ms w'.
Proof.
  intros H. cbn [Promise_all]. unfold bind, settle. rewrite H.
  by destruct (Promise_all ms w') as [[] w2|e w2|].
Qed.

(** ** The durable engine *)

Lemma opened_idem w : opened (opened w) = opened w.
Proof. unfold opened. destruct (w_database w) eqn:E; [rewrite E|]; reflexivity. Qed.

Lemma storeRecords_opened w n : storeRecords (opened w) n = storeRecords w n.
Proof.
  unfold opened, storeRecords. destruct (w_database w) eqn:E; [rewrite E; reflexivity|].
  cbn [set_database w_database].
  destruct (IndexedDB.schema !! n) as [s|] eqn:Es; [|reflexivity].
  unfold IndexedDB.schema in Es.
  repeat (rewrite lookup_insert in Es; case_decide; [by simplify_eq|]).
  by rewrite lookup_empty in Es.
Qed.

Lemma openDatabase_durable w : durable w ->
  exists db, IndexedDB.openDatabase w = Ret db (opened w) ∧ w_database (opened w) = Some db.
Proof.
  intros [Hw Hi]. unfold IndexedDB.openDatabase, opened. rewrite Hw, Hi. cbn [negb].
  destruct (w_database w) eqn:E; eauto.
Qed.

Lemma openDatabase_cases w :
  (exists db, IndexedDB.openDatabase w = Ret db (opened w) ∧ w_database (opened w) = Some db)
  ∨ (exists e, IndexedDB.openDatabase w = Throw e w).
Proof.
  unfold IndexedDB.openDatabase, opened.
  destruct (w_window w); cbn [negb]; [|eauto].
  destruct (w_indexedDB w); cbn [negb]; [|eauto].
  left. destruct (w_database w) eqn:E; eauto.
Qed.

(** Reading an absent record resolves to [null], or rejects when the
    engine or the store cannot be reached; the record stays absent. *)
Lemma idb_getById_absent w storeName id :
  storeRecords w storeName !! KStr id = None ->
  (IndexedDB.getById storeName id w = Ret VNull (opened w))
  ∨ (exists e w', IndexedDB.getById storeName id w = Throw e w'
                  ∧ storeRecords w' storeName = storeRecords w storeName).
Proof.
  intros Habs. unfold IndexedDB.getById.
  destruct (openDatabase_cases w) as [(db & Ho & Hdb)|(e & Ho)].
  - rewrite (bind_Ret _ _ _ _ _ Ho).
    pose proof (storeRecords_opened w storeName) as Hr.
    unfold storeRecords in Hr at 1. rewrite Hdb in Hr.
    unfold IndexedDB.objectStoreOf.
    destruct (db !! storeName) as [s|] eqn:Es.
    + left. cbn. rewrite Hr, Habs. reflexivity.
    + right. exists (DOMException "NotFoundError"), (opened w). cbn.
      split; [reflexivity|apply storeRecords_opened].
  - right. exists e, w. rewrite (bind_Throw _ _ _ _ _ Ho). auto.
Qed.

Lemma schemaPresent_opened w : schemaPresent w -> schemaPresent (opened w).
Proof.
  unfold schemaPresent, opened. destruct (w_database w) eqn:E.
  - rewrite E. auto.
  - intros _. cbn [set_database w_database]. intros n s0 H. eauto.
Qed.

Lemma ready_opened w : ready w -> ready (opened w).
Proof.
  intros [[Hw Hi] Hs]. split; [|by apply schemaPresent_opened].
  unfold opened. destruct (w_database w); split; assumption.
Qed.

(** What [openDatabase] and [objectStoreOf] find in a ready state. *)
Lemma ready_store w n : ready w -> isStore n ->
  exists db s,
    IndexedDB.openDatabase w = Ret db (opened w)
    ∧ w_database (opened w) = Some db
    ∧ db !! n = Some s
    ∧ os_records s = storeRecords w n
    ∧ (forall s0, IndexedDB.schema !! n = Some s0 -> os_indexes s = os_indexes s0).
Proof.
  intros [Hd Hs] [s0 Hn].
  destruct (openDatabase_durable w Hd) as (db & Ho & Hdb).
  pose proof (schemaPresent_opened w Hs) as Hs'.
  unfold schemaPresent in Hs'. rewrite Hdb in Hs'.
  destruct (Hs' n s0 Hn) as (s & Es & Ei).
  exists db, s. repeat split; try assumption.
  - rewrite <- (storeRecords_opened w n). unfold storeRecords. by rewrite Hdb, Es.
  - intros s1 H1. congruence.
Qed.

Lemma storeRecords_putStore_eq w n r : ready w -> isStore n ->
  storeRecords (putStore n r w) n = r.
Proof.
  intros Hr Hn. destruct (ready_store w n Hr Hn) as (db & s & _ & Hdb & Es & _).
  unfold putStore. rewrite Hdb, Es. unfold storeRecords.
  cbn [set_database w_database]. by rewrite lookup_insert_eq.
Qed.

Lemma storeRecords_putStore_ne w n n' r : n ≠ n' ->
  storeRecords (putStore n r w) n' = storeRecords w n'.
Proof.
  intros Hne. rewrite <- (storeRecords_opened w n'). unfold putStore.
  destruct (w_database (opened w)) as [db|] eqn:Hdb; [|reflexivity].
  destruct (db !! n) as [s|] eqn:Es; [|reflexivity].
  unfold storeRecords. rewrite Hdb. cbn [set_database w_database].
  by rewrite lookup_insert_ne.
Qed.

Lemma ready_putStore w n r : ready w -> isStore n -> ready (putStore n r w).
Proof.
  intros Hr Hn. destruct (ready_store w n Hr Hn) as (db & s & _ & Hdb & Es & Hi).
  destruct (ready_opened w Hr) as [Hd Hs].
  unfold putStore. rewrite Hdb, Es. split; [exact Hd|].
  unfold schemaPresent in *. rewrite Hdb in Hs. cbn [set_database w_database].
  intros m s0 Hm. destruct (decide (n = m)) as [->|Hne].
  - rewrite lookup_insert_eq. eexists; split; [reflexivity|]. cbn. by apply Hi.
  - rewrite lookup_insert_ne by done. by apply Hs.
Qed.

Lemma opened_putStore w n r : opened (putStore n r w) = putStore n r w.
Proof.
  unfold putStore. destruct (w_database (opened w)) as [db|] eqn:Hdb.
  - destruct (db !! n); [reflexivity|apply opened_idem].
  - apply opened_idem.
Qed.

Lemma putStore_opened w n r : putStore n r (opened w) = putStore n r w.
Proof. unfold putStore. by rewrite opened_idem. Qed.

Lemma opened_fields w :
  w_now (opened w) = w_now w ∧ w_loadTime (opened w) = w_loadTime w
  ∧ w_localStorage (opened w) = w_localStorage w ∧ w_console (opened w) = w_console w
  ∧ w_window (opened w) = w_window w ∧ w_indexedDB (opened w) = w_indexedDB w.
Proof. unfold opened. destruct (w_database w); repeat split. Qed.

Lemma putStore_fields w n r :
  w_now (putStore n r w) = w_now w ∧ w_loadTime (putStore n r w) = w_loadTime w
  ∧ w_localStorage (putStore n r w) = w_localStorage w
  ∧ w_console (putStore n r w) = w_console w.
Proof.
  destruct (opened_fields w) as (A & B & C & D & _). unfold putStore.
  destruct (w_database (opened w)) as [db|]; [destruct (db !! n)|]; repeat split;
    assumption.
Qed.

(** The engine's operations in a ready state, in terms of [storeRecords]
    and [putStore]. *)
Ltac open_store w n Hr Hn :=
  let db := fresh "db" in let s := fresh "s" in
  let Ho := fresh "Ho" in let Hdb := fresh "Hdb" in let Es := fresh "Es" in
  let Er := fresh "Er" in let Ei := fresh "Ei" in
  destruct (ready_store w n Hr Hn) as (db & s & Ho & Hdb & Es & Er & Ei);
  rewrite (bind_Ret _ _ _ _ _ Ho); unfold IndexedDB.objectStoreOf; rewrite Es;
  cbn [bind ret].

Lemma idb_getById_ready w n id : ready w -> isStore n ->
  IndexedDB.getById n id w
  = Ret (or_null (default VUndef (storeRecords w n !! KStr id))) (opened w).
Proof.
  intros Hr Hn. unfold IndexedDB.getById. open_store w n Hr Hn. by rewrite Er.
Qed.

Lemma idb_getAll_ready w n : ready w -> isStore n ->
  IndexedDB.getAll n w
  = Ret (IndexedDB.ordered (map_to_list (storeRecords w n))) (opened w).
Proof.
  intros Hr Hn. unfold IndexedDB.getAll. open_store w n Hr Hn. by rewrite Er.
Qed.

Lemma putStore_unfold w n r db s :
  w_database (opened w) = Some db -> db !! n = Some s ->
  set_database (Some (<[n := {| os_indexes := os_indexes s; os_records := r |}]> db))
    (opened w) = putStore n r w.
Proof. intros Hdb Es. unfold putStore. by rewrite Hdb, Es. Qed.

Lemma idb_add_new w n item k : ready w -> isStore n ->
  IndexedDB.keyOf item = Some k -> storeRecords w n !! k = None ->
  IndexedDB.add n item w = Ret item (putStore n (<[k := item]> (storeRecords w n)) w).
Proof.
  intros Hr Hn Hk Hfree. unfold IndexedDB.add. open_store w n Hr Hn.
  rewrite Hk, Er, Hfree. unfold IndexedDB.commit, modify. cbn [bind].
  by rewrite (putStore_unfold w n _ db s).
Qed.

Lemma idb_add_duplicate w n item k v : ready w -> isStore n ->
  IndexedDB.keyOf item = Some k -> storeRecords w n !! k = Some v ->
  IndexedDB.add n item w = Throw (Error ("Failed to add item to " +:+ n)) (opened w).
Proof.
  intros Hr Hn Hk Hdup. unfold IndexedDB.add. open_store w n Hr Hn.
  by rewrite Hk, Er, Hdup.
Qed.

Lemma idb_update_ready w n item k : ready w -> isStore n ->
  IndexedDB.keyOf item = Some k ->
  IndexedDB.update n item w = Ret item (putStore n (<[k := item]> (storeRecords w n)) w).
Proof.
  intros Hr Hn Hk. unfold IndexedDB.update. open_store w n Hr Hn.
  rewrite Hk, Er. unfold IndexedDB.commit, modify. cbn [bind].
  by rewrite (putStore_unfold w n _ db s).
Qed.

Lemma idb_deleteById_ready w n id : ready w -> isStore n ->
  IndexedDB.deleteById n id w
  = Ret tt (putStore n (delete (KStr id) (storeRecords w n)) w).
Proof.
  intros Hr Hn. unfold IndexedDB.deleteById. open_store w n Hr Hn.
  rewrite Er. unfold IndexedDB.commit, modify.
  by rewrite (putStore_unfold w n _ db s).
Qed.

Lemma idb_clearStore_ready w n : ready w -> isStore n ->
  IndexedDB.clearStore n w = Ret tt (putStore n ∅ w).
Proof.
  intros Hr Hn. unfold IndexedDB.clearStore. open_store w n Hr Hn.
  unfold IndexedDB.commit, modify. by rewrite (putStore_unfold w n _ db s).
Qed.

(** ** Settings: [get] on a store without the settings record *)

Section SettingsDivergence.
Variable db : Backend.
(** [Absent] describes states in which reading the settings record yields
    nothing and leaves such a state behind. *)
Variable Absent : world -> Prop.
Hypothesis getById_absent : forall w, Absent w ->
  (exists w', db_getById db STORES.SETTINGS UserSettingsRepository.SETTINGS_ID w = Ret VNull w'
              ∧ Absent w')
  ∨ (exists e w', db_getById db STORES.SETTINGS UserSettingsRepository.SETTINGS_ID w
                  = Throw e w').

Lemma get_update_never_return fuel :
  forall w, Absent w ->
    (forall v w', UserSettingsRepository.get db fuel w ≠ Ret v w')
    ∧ (forall s v w', UserSettingsRepository.update db fuel s w ≠ Ret v w').
Proof.
  induction fuel as [|n IH]; intros w Hw.
  - split; intros; discriminate.
  - split.
    + intros v w1. cbn [UserSettingsRepository.get].
      destruct (getById_absent w Hw) as [(w' & Hg & Hw')|(e & w' & Hg)].
      * unfold UserSettingsRepository.storeName. rewrite (bind_Ret _ _ _ _ _ Hg).
        cbn [truthy negb]. unfold bind at 1. cbn [read].
        destruct (IH w' Hw') as [_ Hu].
        specialize (Hu (DEFAULT_USER_SETTINGS w')).
        unfold bind.
        destruct (UserSettingsRepository.update db n (DEFAULT_USER_SETTINGS w') w')
          as [a w2|e w2|] eqn:E; [exfalso; eapply Hu; reflexivity|discriminate|discriminate].
      * unfold UserSettingsRepository.storeName. rewrite (bind_Throw _ _ _ _ _ Hg).
        discriminate.
    + intros s v w1. cbn [UserSettingsRepository.update].
      destruct (IH w Hw) as [Hg _]. unfold bind at 1.
      destruct (UserSettingsRepository.get db n w) as [a w2|e w2|] eqn:E;
        [exfalso; eapply Hg; reflexivity|discriminate|discriminate].
Qed.

End SettingsDivergence.

Section SettingsLoop.
Variable db : Backend.
Variable Absent : world -> Prop.
Hypothesis getById_null : forall w, Absent w ->
  exists w', db_getById db STORES.SETTINGS UserSettingsRepository.SETTINGS_ID w = Ret VNull w'
             ∧ Absent w'.

Lemma get_update_out_of_fuel fuel :
  forall w, Absent w ->
    UserSettingsRepository.get db fuel w = OutOfFuel
    ∧ (forall s, UserSettingsRepository.update db fuel s w = OutOfFuel).
Proof.
  induction fuel as [|n IH]; intros w Hw; [split; reflexivity|].
  split.
  - cbn [UserSettingsRepository.get].
    destruct (getById_null w Hw) as (w' & Hg & Hw').
    unfold UserSettingsRepository.storeName. rewrite (bind_Ret _ _ _ _ _ Hg).
    cbn [truthy negb]. unfold bind at 1. cbn [read].
    apply bind_OutOfFuel. apply (IH w' Hw').
  - intros s. cbn [UserSettingsRepository.update].
    apply bind_OutOfFuel. apply (IH w Hw).
Qed.

End SettingsLoop.

Lemma isStore_settings : isStore STORES.SETTINGS.
Proof. eexists. reflexivity. Qed.
Lemma isStore_exercises : isStore STORES.EXERCISES.
Proof. eexists. reflexivity. Qed.
Lemma isStore_foods : isStore STORES.FOODS.
Proof. eexists. reflexivity. Qed.

Lemma idb_settings_never_return fuel w : settingsAbsent w ->
  (forall v w', UserSettingsRepository.get IndexedDB.module fuel w ≠ Ret v w')
  ∧ (forall s v w', UserSettingsRepository.update IndexedDB.module fuel s w ≠ Ret v w').
Proof.
  apply (get_update_never_return IndexedDB.module settingsAbsent).
  clear. intros w Hw. cbn [db_getById IndexedDB.module].
  destruct (idb_getById_absent w _ _ Hw) as [H|(e & w' & H & _)].
  - left. exists (opened w). split; [exact H|].
    unfold settingsAbsent. by rewrite storeRecords_opened.
  - right. eauto.
Qed.

Lemma idb_settings_out_of_fuel fuel w : ready w -> settingsAbsent w ->
  UserSettingsRepository.get IndexedDB.module fuel w = OutOfFuel
  ∧ (forall s, UserSettingsRepository.update IndexedDB.module fuel s w = OutOfFuel).
Proof.
  intros Hr Ha.
  apply (get_update_out_of_fuel IndexedDB.module (fun w => ready w ∧ settingsAbsent w));
    [|by split].
  clear. intros w [Hr Ha]. exists (opened w). cbn [db_getById IndexedDB.module].
  rewrite (idb_getById_ready w _ _ Hr isStore_settings).
  unfold settingsAbsent in Ha. rewrite Ha. split; [reflexivity|].
  split; [by apply ready_opened|]. unfold settingsAbsent. by rewrite storeRecords_opened.
Qed.

(** ** The storage factory *)

Lemma createRepositories_first w : w_repositoryContainer w = None ->
  exists c,
    StorageFactory.createRepositories w
      = Ret c (set_factory (w_nextRef w + 7)%nat (Some c) w)
    ∧ storageType c = StorageFactory.detectStorageType w
    ∧ binding (exerciseRepository c) = IndexedDBModule
    ∧ binding (foodRepository c) = IndexedDBModule
    ∧ binding (userSettingsRepository c) = IndexedDBModule
    ∧ binding (de_self (dataExportRepository c)) = IndexedDBModule.
Proof.
  intros H. destruct w as [win idb dbs ls now load con n rc]. cbn in H. subst rc.
  set (w := {| w_window := win; w_indexedDB := idb; w_database := dbs;
               w_localStorage := ls; w_now := now; w_loadTime := load; w_console := con;
               w_nextRef := n; w_repositoryContainer := None |}).
  exists {| exerciseRepository := {| ref := n; binding := IndexedDBModule |};
            foodRepository := {| ref := S n; binding := IndexedDBModule |};
            userSettingsRepository := {| ref := S (S n); binding := IndexedDBModule |};
            dataExportRepository :=
              {| de_self := {| ref := S (S (S n)); binding := IndexedDBModule |};
                 exerciseRepo := {| ref := S (S (S (S n))); binding := IndexedDBModule |};
                 foodRepo := {| ref := S (S (S (S (S n)))); binding := IndexedDBModule |};
                 settingsRepo :=
                   {| ref := S (S (S (S (S (S n))))); binding := IndexedDBModule |} |};
            storageType := StorageFactory.detectStorageType w |}.
  split; [|repeat split].
  replace (w_nextRef w + 7)%nat with (S (S (S (S (S (S (S n))))))) by (subst w; cbn; lia).
  reflexivity.
Qed.

Lemma createRepositories_memoized w c : w_repositoryContainer w = Some c ->
  StorageFactory.createRepositories w = Ret c w.
Proof.
  intros H. unfold StorageFactory.createRepositories, bind. cbn [read]. by rewrite H.
Qed.

(** [getRepositories] builds the container once and afterwards returns
    the same objects without touching the state. *)
Lemma getRepositories_once w c w1 :
  StorageFactory.getRepositories w = Ret c w1 ->
  StorageFactory.getRepositories w1 = Ret c w1.
Proof.
  unfold StorageFactory.getRepositories. intros H.
  destruct (w_repositoryContainer w) as [c0|] eqn:E.
  - rewrite (createRepositories_memoized w c0 E) in H. inversion H; subst.
    by apply createRepositories_memoized.
  - destruct (createRepositories_first w E) as (c1 & H1 & _). rewrite H1 in H.
    inversion H; subst. by apply createRepositories_memoized.
Qed.

(** Without IndexedDB every operation of the durable engine rejects. *)
Lemma idb_unreachable w : w_window w = true -> w_indexedDB w = false ->
  forall A (k : gmap string objectStore -> M A),
    bind IndexedDB.openDatabase k w = Throw ReferenceError w.
Proof.
  intros Hw Hi A k. unfold bind, IndexedDB.openDatabase. by rewrite Hw, Hi.
Qed.

(** ** The degraded engine *)

Lemma ls_getStoreData_raw w n s : 
  w_localStorage w !! LocalStorage.getStoreKey n = Some (RawText s) ->
  LocalStorage.getStoreData n w = Ret ∅ w.
Proof.
  intros H. unfold LocalStorage.getStoreData. rewrite H.
  by destruct (negb (w_window w)).
Qed.

Lemma ls_getStoreData_window w n : w_window w = true ->
  LocalStorage.getStoreData n w = Ret (storeData w n) w.
Proof.
  intros H. unfold LocalStorage.getStoreData, storeData. rewrite H. cbn [negb].
  by destruct (w_localStorage w !! LocalStorage.getStoreKey n) as [[o|s]|].
Qed.

Lemma ls_reads_raw w n s :
  w_localStorage w !! LocalStorage.getStoreKey n = Some (RawText s) ->
  (forall id, LocalStorage.getById n id w = Ret (or_null (inheritedValue id)) w)
  ∧ LocalStorage.getAll n w = Ret [] w
  ∧ (forall i v, LocalStorage.getByIndex n i v w = Ret [] w)
  ∧ (forall i lo hi, LocalStorage.getByIndexRange n i lo hi w = Ret [] w).
Proof.
  intros H. pose proof (ls_getStoreData_raw w n s H) as Hg.
  assert (Ha : LocalStorage.getAll n w = Ret [] w).
  { unfold LocalStorage.getAll. by rewrite (bind_Ret _ _ _ _ _ Hg). }
  split; [|split; [exact Ha|split]].
  - intros id. unfold LocalStorage.getById. by rewrite (bind_Ret _ _ _ _ _ Hg).
  - intros i v. unfold LocalStorage.getByIndex. by rewrite (bind_Ret _ _ _ _ _ Ha).
  - intros i lo hi. unfold LocalStorage.getByIndexRange. by rewrite (bind_Ret _ _ _ _ _ Ha).
Qed.

(** ** Writes of the durable engine leave the other stores alone *)

Lemma frame_refl n w : ready w -> frame n w w.
Proof. intros H. repeat split; auto; apply H. Qed.

Lemma frame_trans n w1 w2 w3 : frame n w1 w2 -> frame n w2 w3 -> frame n w1 w3.
Proof.
  intros (_ & H1 & N1 & L1) (R & H2 & N2 & L2). split; [exact R|]. split; [|split; congruence].
  intros n' Hne. rewrite H2, H1 by done. reflexivity.
Qed.

Lemma frame_opened n w : ready w -> frame n w (opened w).
Proof.
  intros H. destruct (opened_fields w) as (A & B & _).
  split; [by apply ready_opened|]. split; [|split; assumption].
  intros n' _. apply storeRecords_opened.
Qed.

Lemma frame_putStore n r w : ready w -> isStore n -> frame n w (putStore n r w).
Proof.
  intros H Hn. destruct (putStore_fields w n r) as (A & B & _).
  split; [by apply ready_putStore|]. split; [|split; assumption].
  intros n' Hne. by apply storeRecords_putStore_ne.
Qed.

Lemma idb_add_outcome w n item : ready w -> isStore n ->
  (exists k, IndexedDB.keyOf item = Some k ∧ storeRecords w n !! k = None
     ∧ IndexedDB.add n item w
       = Ret item (putStore n (<[k := item]> (storeRecords w n)) w))
  ∨ (exists e, IndexedDB.add n item w = Throw e (opened w)).
Proof.
  intros Hr Hn. destruct (IndexedDB.keyOf item) as [k|] eqn:Hk.
  - destruct (storeRecords w n !! k) as [v|] eqn:Hv.
    + right. eexists. by apply (idb_add_duplicate w n item k v).
    + left. exists k. repeat split; try assumption. by apply idb_add_new.
  - right. exists (DOMException "DataError"). unfold IndexedDB.add.
    open_store w n Hr Hn. by rewrite Hk.
Qed.

Lemma lift_bind {A B} (o : outcome A) (k : A -> M B) w :
  bind (lift o) k w = match o with Ok a => k a w | Raise e => Throw e w end.
Proof. by destruct o. Qed.

Lemma entity_create_outcome w n e : ready w -> isStore n ->
  (exists s k, Entity.serialize e = Ok s ∧ IndexedDB.keyOf s = Some k
     ∧ storeRecords w n !! k = None
     ∧ Entity.create IndexedDB.module n e w
       = Ret e (putStore n (<[k := s]> (storeRecords w n)) w))
  ∨ (exists err w', Entity.create IndexedDB.module n e w = Throw err w' ∧ frame n w w'
       ∧ storeRecords w' n = storeRecords w n).
Proof.
  intros Hr Hn. unfold Entity.create. rewrite lift_bind.
  destruct (Entity.serialize e) as [s|err] eqn:Hs.
  - cbn [db_add IndexedDB.module].
    destruct (idb_add_outcome w n s Hr Hn) as [(k & Hk & Hfree & Ha)|(err & Ha)].
    + left. exists s, k. repeat split; try assumption.
      by rewrite (bind_Ret _ _ _ _ _ Ha).
    + right. exists err, (opened w). rewrite (bind_Throw _ _ _ _ _ Ha).
      split; [reflexivity|]. split; [by apply frame_opened|apply storeRecords_opened].
  - right. exists err, w. split; [reflexivity|]. split; [by apply frame_refl|reflexivity].
Qed.

(** Importing a section only touches its own store, and always ends. *)
Lemma importRecords_frame n section w : ready w -> isStore n ->
  match DataExportRepository.importRecords (Entity.create IndexedDB.module n) section w with
  | Ret _ w' | Throw _ w' => frame n w w'
  | OutOfFuel => False
  end.
Proof.
  intros Hr Hn. unfold DataExportRepository.importRecords.
  destruct section as [| | | | | |records| |]; try (by apply frame_refl).
  revert w Hr. induction records as [|r records IH]; intros w Hr; [by apply frame_refl|].
  cbn [forOf]. unfold bind at 1. rewrite lift_bind.
  destruct (Entity.withDates r) as [data|err]; [|by apply frame_refl].
  destruct (entity_create_outcome w n data Hr Hn)
    as [(s & k & _ & _ & _ & Hc)|(err & w' & Hc & Hf & _)].
  - rewrite (bind_Ret _ _ _ _ _ Hc). cbn [ret].
    pose proof (frame_putStore n (<[k := s]> (storeRecords w n)) w Hr Hn) as Hf.
    specialize (IH _ (proj1 Hf)).
    destruct (forOf records _ _) as [a w2|e w2|]; [| |done]; by eapply frame_trans.
  - by rewrite (bind_Throw _ _ _ _ _ Hc).
Qed.

Lemma idb_clearAllData_ready w : ready w ->
  DataExportRepository.clearAllData IndexedDB.module w
  = Ret tt (putStore STORES.SETTINGS ∅ (putStore STORES.FOODS ∅
             (putStore STORES.EXERCISES ∅ w))).
Proof.
  intros Hr. unfold DataExportRepository.clearAllData. cbn [db_clearStore IndexedDB.module].
  rewrite (Promise_all_cons_Ret _ _ _ _ (idb_clearStore_ready w _ Hr isStore_exercises)).
  pose proof (ready_putStore w _ ∅ Hr isStore_exercises) as Hr1.
  rewrite (Promise_all_cons_Ret _ _ _ _ (idb_clearStore_ready _ _ Hr1 isStore_foods)).
  pose proof (ready_putStore _ _ ∅ Hr1 isStore_foods) as Hr2.
  by rewrite (Promise_all_cons_Ret _ _ _ _ (idb_clearStore_ready _ _ Hr2 isStore_settings)).
Qed.

(** The state after [clearAllData]: ready, every store empty. *)
Lemma cleared_state w : ready w ->
  let w' := putStore STORES.SETTINGS ∅ (putStore STORES.FOODS ∅
              (putStore STORES.EXERCISES ∅ w)) in
  ready w' ∧ storeRecords w' STORES.EXERCISES = ∅ ∧ storeRecords w' STORES.FOODS = ∅
  ∧ storeRecords w' STORES.SETTINGS = ∅ ∧ w_now w' = w_now w.
Proof.
  intros Hr w'. subst w'.
  pose proof (ready_putStore w _ ∅ Hr isStore_exercises) as Hr1.
  pose proof (ready_putStore _ _ ∅ Hr1 isStore_foods) as Hr2.
  split; [by apply ready_putStore; [|apply isStore_settings]|].
  split; [|split; [|split]].
  - rewrite !storeRecords_putStore_ne by done.
    by apply storeRecords_putStore_eq; [|apply isStore_exercises].
  - rewrite storeRecords_putStore_ne by done.
    by apply storeRecords_putStore_eq; [|apply isStore_foods].
  - by apply storeRecords_putStore_eq; [|apply isStore_settings].
  - by rewrite !(proj1 (putStore_fields _ _ _)).
Qed.

Lemma checkVersion_outcome (data : gmap string value) w :
  exists w', DataExportRepository.checkVersion (VObj data) w = Ret tt w'
    ∧ (ready w -> ready w') ∧ (forall n, storeRecords w' n = storeRecords w n)
    ∧ w_now w' = w_now w.
Proof.
  unfold DataExportRepository.checkVersion. rewrite lift_bind. cbn [get_prop].
  destruct (negb _).
  - eexists. split; [reflexivity|]. split; [|split; [intros n|]; reflexivity].
    intros [[Hw Hi] Hs]. split; [split|]; assumption.
  - exists w. split; [reflexivity|]. split; [tauto|]. split; reflexivity.
Qed.

(** ** Import of a snapshot, section by section *)

Section ImportSections.
Variable db : Backend.

Lemma importRecords_not_array create v w : isArray v = false ->
  DataExportRepository.importRecords create v w = Ret tt w.
Proof. intros H. by destruct v. Qed.

Lemma importExercises_not_array (data : gmap string value) w :
  isArray (default VUndef (data !! "exercises")) = false ->
  DataExportRepository.importExercises db (VObj data) w = Ret tt w.
Proof.
  intros H. unfold DataExportRepository.importExercises. rewrite lift_bind.
  rewrite get_prop_obj by reflexivity. by apply importRecords_not_array.
Qed.

Lemma importFoods_not_array (data : gmap string value) w :
  isArray (default VUndef (data !! "foods")) = false ->
  DataExportRepository.importFoods db (VObj data) w = Ret tt w.
Proof.
  intros H. unfold DataExportRepository.importFoods. rewrite lift_bind.
  rewrite get_prop_obj by reflexivity. by apply importRecords_not_array.
Qed.

End ImportSections.

Lemma importExercises_frame (data : gmap string value) w : ready w ->
  match DataExportRepository.importExercises IndexedDB.module (VObj data) w with
  | Ret _ w' | Throw _ w' => frame STORES.EXERCISES w w'
  | OutOfFuel => False
  end.
Proof.
  intros Hr. unfold DataExportRepository.importExercises. rewrite lift_bind.
  cbn [get_prop]. apply importRecords_frame; [exact Hr|apply isStore_exercises].
Qed.

Lemma importFoods_frame (data : gmap string value) w : ready w ->
  match DataExportRepository.importFoods IndexedDB.module (VObj data) w with
  | Ret _ w' | Throw _ w' => frame STORES.FOODS w w'
  | OutOfFuel => False
  end.
Proof.
  intros Hr. unfold DataExportRepository.importFoods. rewrite lift_bind.
  cbn [get_prop]. apply importRecords_frame; [exact Hr|apply isStore_foods].
Qed.


(** ** Duplicate identifiers *)

Lemma withIsoDates_inv e s : Entity.withIsoDates e = Ok s ->
  exists m, s = VObj m ∧ m !! "id" = spread e !! "id".
Proof.
  unfold Entity.withIsoDates. intros H.
  destruct (get_prop e "date") as [d|]; [|discriminate]. cbn [obind] in H.
  destruct (call_toISOString d) as [d'|]; [|discriminate]. cbn [obind] in H.
  destruct (get_prop e "createdAt") as [c|]; [|discriminate]. cbn [obind] in H.
  destruct (call_toISOString c) as [c'|]; [|discriminate]. cbn [obind] in H.
  destruct (get_prop e "updatedAt") as [u|]; [|discriminate]. cbn [obind] in H.
  destruct (call_toISOString u) as [u'|]; [|discriminate]. cbn [obind] in H.
  inversion H; subst. eexists. split; [reflexivity|]. by rewrite !lookup_insert_ne.
Qed.

Lemma keyOf_id (m : gmap string value) id :
  m !! "id" = Some (VStr id) -> IndexedDB.keyOf (VObj m) = Some (KStr id).
Proof. intros H. unfold IndexedDB.keyOf. by rewrite H. Qed.

Lemma idb_create_twice n w w1 v (e1 e2 : gmap string value) id d c u :
  ready w -> isStore n ->
  e1 !! "id" = Some (VStr id) -> e2 !! "id" = Some (VStr id) ->
  holdsDate e2 "date" d -> holdsDate e2 "createdAt" c -> holdsDate e2 "updatedAt" u ->
  Entity.create IndexedDB.module n (VObj e1) w = Ret v w1 ->
  exists s1,
    Entity.serialize (VObj e1) = Ok s1
    ∧ storeRecords w1 n !! KStr id = Some s1
    ∧ Entity.create IndexedDB.module n (VObj e2) w1
      = Throw (Error ("Failed to add item to " +:+ n)) w1.
Proof.
  intros Hr Hn H1 H2 Hd Hc Hu Hfirst.
  destruct (entity_create_outcome w n (VObj e1) Hr Hn)
    as [(s & k & Hs & Hk & Hfree & Hc1)|(err & w' & Hc1 & _)];
    [|rewrite Hc1 in Hfirst; discriminate].
  rewrite Hc1 in Hfirst. inversion Hfirst; subst v w1. clear Hfirst.
  destruct (withIsoDates_inv _ _ Hs) as (m & -> & Hm). cbn [spread] in Hm.
  rewrite H1 in Hm. rewrite (keyOf_id m id Hm) in Hk. inversion Hk; subst k.
  exists (VObj m). split; [exact Hs|].
  assert (Hstored : storeRecords (putStore n (<[KStr id := VObj m]> (storeRecords w n)) w) n
                    !! KStr id = Some (VObj m)).
  { rewrite storeRecords_putStore_eq by assumption. apply lookup_insert_eq. }
  split; [exact Hstored|].
  unfold Entity.create, Entity.serialize. rewrite lift_bind.
  rewrite (withIsoDates_ok e2 d c u Hd Hc Hu). cbn [db_add IndexedDB.module].
  erewrite bind_Throw; [reflexivity|].
  erewrite idb_add_duplicate; [by rewrite opened_putStore| | | |exact Hstored].
  - by apply ready_putStore.
  - exact Hn.
  - apply keyOf_id. by rewrite !lookup_insert_ne.
Qed.

Lemma storeData_lsPut n data w : storeData (lsPut n data w) n = json_clone_object data.
Proof.
  unfold storeData, lsPut. cbn [set_localStorage w_localStorage].
  by rewrite lookup_insert_eq.
Qed.

Lemma ls_add_window w n item idv : w_window w = true ->
  get_prop item "id" = Ok idv ->
  LocalStorage.add n item w =
    if truthy (lookupProp (storeData w n) (ToString idv)) then
      Throw (Error ("Item with id " +:+ ToString idv +:+ " already exists")) w
    else Ret item (lsPut n (assignProp (storeData w n) (ToString idv) item) w).
Proof.
  intros Hw Hid. unfold LocalStorage.add.
  rewrite (bind_Ret _ _ _ _ _ (ls_getStoreData_window w n Hw)).
  rewrite lift_bind, Hid. destruct (truthy _); [reflexivity|].
  unfold bind, LocalStorage.setStoreData, lsPut. by rewrite Hw.
Qed.

Lemma json_clone_object_insert (data : gmap string value) k (m : gmap string value) :
  json_clone_object (<[k := VObj m]> data) !! k = Some (json_clone (VObj m)).
Proof.
  unfold json_clone_object. rewrite lookup_omap, lookup_insert_eq. reflexivity.
Qed.

Lemma ls_create_twice n w w1 v (e1 e2 : gmap string value) id d c u :
  w_window w = true ->
  e1 !! "id" = Some (VStr id) -> e2 !! "id" = Some (VStr id) ->
  holdsDate e2 "date" d -> holdsDate e2 "createdAt" c -> holdsDate e2 "updatedAt" u ->
  Entity.create LocalStorage.module n (VObj e1) w = Ret v w1 ->
  exists s1,
    Entity.serialize (VObj e1) = Ok s1
    ∧ storeData w1 n !! id = Some (json_clone s1)
    ∧ Entity.create LocalStorage.module n (VObj e2) w1
      = Throw (Error ("Item with id " +:+ id +:+ " already exists")) w1.
Proof.
  intros Hw H1 H2 Hd Hc Hu Hfirst.
  unfold Entity.create in Hfirst. rewrite lift_bind in Hfirst.
  destruct (Entity.serialize (VObj e1)) as [s|err] eqn:Hs; [|discriminate].
  destruct (withIsoDates_inv _ _ Hs) as (m & -> & Hm). cbn [spread] in Hm.
  rewrite H1 in Hm. cbn [db_add LocalStorage.module] in Hfirst.
  unfold bind in Hfirst.
  rewrite (ls_add_window w n (VObj m) (VStr id) Hw) in Hfirst
    by (rewrite get_prop_obj by reflexivity; by rewrite Hm).
  cbn [ToString] in Hfirst.
  destruct (truthy (lookupProp (storeData w n) id)) eqn:Hfree; [discriminate|].
  rewrite (assignProp_falsy _ _ _ Hfree) in Hfirst.
  cbn [ret] in Hfirst. inversion Hfirst; subst v w1. clear Hfirst.
  exists (VObj m). split; [reflexivity|].
  assert (Hstored : storeData (lsPut n (<[id := VObj m]> (storeData w n)) w) n !! id
                    = Some (json_clone (VObj m))).
  { rewrite storeData_lsPut. apply json_clone_object_insert. }
  split; [exact Hstored|].
  unfold Entity.create, Entity.serialize. rewrite lift_bind.
  rewrite (withIsoDates_ok e2 d c u Hd Hc Hu). cbn [db_add LocalStorage.module].
  erewrite bind_Throw; [reflexivity|].
  rewrite (ls_add_window _ n _ (VStr id)).
  - cbn [ToString]. by rewrite (lookupProp_Some _ _ _ Hstored).
  - exact Hw.
  - rewrite get_prop_obj by reflexivity. by rewrite !lookup_insert_ne, H2.
Qed.

(** ** Updates *)

Lemma withIsoDates_lookup (e : gmap string value) d c u :
  e !! "date" = Some (VDate (Some d)) -> e !! "createdAt" = Some (VDate (Some c)) ->
  e !! "updatedAt" = Some (VDate (Some u)) ->
  Entity.withIsoDates (VObj e) =
    Ok (VObj (<["updatedAt" := VStr (IsoDate.toISOString u)]>
             (<["createdAt" := VStr (IsoDate.toISOString c)]>
             (<["date" := VStr (IsoDate.toISOString d)]> e)))).
Proof.
  intros Hd Hc Hu. unfold Entity.withIsoDates.
  rewrite !get_prop_obj by reflexivity. rewrite Hd, Hc, Hu. reflexivity.
Qed.

Lemma merge_lookup_date (existing p : gmap string value) k t t' :
  existing !! k = Some (VDate (Some t)) -> dateAfter p k t = Some t' ->
  merge existing p !! k = Some (VDate (Some t')).
Proof.
  unfold dateAfter, merge. intros He Hp. rewrite lookup_union.
  destruct (p !! k) as [[| | | | |[t0|]| | |]|]; try discriminate.
  - inversion Hp; subst. by rewrite He.
  - inversion Hp; subst. by rewrite He.
Qed.

Lemma idb_entity_getById_stored w n id (r : gmap string value) d c u :
  ready w -> isStore n -> storeRecords w n !! KStr id = Some (VObj r) ->
  holdsIso r "date" d -> holdsIso r "createdAt" c -> holdsIso r "updatedAt" u ->
  Entity.getById IndexedDB.module n id w
  = Ret (VObj (<["updatedAt" := VDate (Some u)]> (<["createdAt" := VDate (Some c)]>
              (<["date" := VDate (Some d)]> r)))) (opened w).
Proof.
  intros Hr Hn Hs Hd Hc Hu. unfold Entity.getById. cbn [db_getById IndexedDB.module].
  rewrite (bind_Ret _ _ _ _ _ (idb_getById_ready w n id Hr Hn)). rewrite Hs.
  cbn [from_option Datatypes.id or_null truthy]. unfold Entity.deserialize.
  by rewrite (withDates_ok r d c u Hd Hc Hu).
Qed.

Lemma idb_entity_update n label w id (r p : gmap string value) d c u d' c' :
  ready w -> isStore n -> storeRecords w n !! KStr id = Some (VObj r) ->
  holdsIso r "date" d -> holdsIso r "createdAt" c -> holdsIso r "updatedAt" u ->
  dateAfter p "date" d = Some d' -> dateAfter p "createdAt" c = Some c' ->
  exists upd ser : gmap string value,
    Entity.update IndexedDB.module n label id (VObj p) w
      = Ret (VObj upd) (putStore n (<[KStr id := VObj ser]> (storeRecords w n)) w)
    ∧ upd !! "id" = Some (VStr id)
    ∧ upd !! "createdAt" = Some (VDate (Some c'))
    ∧ upd !! "updatedAt" = Some (VDate (Some (w_now w)))
    ∧ ser !! "id" = Some (VStr id)
    ∧ ser !! "createdAt" = Some (VStr (IsoDate.toISOString c'))
    ∧ ser !! "updatedAt" = Some (VStr (IsoDate.toISOString (w_now w))).
Proof.
  intros Hr Hn Hs Hd Hc Hu Hd' Hc'.
  set (existing := <["updatedAt" := VDate (Some u)]> (<["createdAt" := VDate (Some c)]>
                     (<["date" := VDate (Some d)]> r))).
  set (upd := <["updatedAt" := VDate (Some (w_now w))]> (<["id" := VStr id]>
                (merge existing p))).
  assert (Ud : upd !! "date" = Some (VDate (Some d'))).
  { subst upd. rewrite !lookup_insert_ne by done.
    apply (merge_lookup_date existing p "date" d d'); [|exact Hd'].
    subst existing. do 2 rewrite lookup_insert_ne by done. by rewrite lookup_insert_eq. }
  assert (Uc : upd !! "createdAt" = Some (VDate (Some c'))).
  { subst upd. rewrite !lookup_insert_ne by done.
    apply (merge_lookup_date existing p "createdAt" c c'); [|exact Hc'].
    subst existing. by rewrite lookup_insert_ne, lookup_insert_eq. }
  assert (Uu : upd !! "updatedAt" = Some (VDate (Some (w_now w)))).
  { subst upd. by rewrite lookup_insert_eq. }
  assert (Ui : upd !! "id" = Some (VStr id)).
  { subst upd. by rewrite lookup_insert_ne, lookup_insert_eq. }
  eexists upd, _. split; [|split; [exact Ui|split; [exact Uc|split; [exact Uu|]]]].
  - unfold Entity.update.
    rewrite (bind_Ret _ _ _ _ _ (idb_entity_getById_stored w n id r d c u Hr Hn Hs Hd Hc Hu)).
    cbn [truthy negb]. unfold bind at 1. cbn [read spread].
    rewrite (proj1 (opened_fields w)). fold existing. fold upd.
    unfold Entity.serialize. rewrite lift_bind.
    rewrite (withIsoDates_lookup upd d' c' (w_now w) Ud Uc Uu).
    cbn [db_update IndexedDB.module].
    erewrite bind_Ret; [cbn [ret]|].
    2:{ apply (idb_update_ready (opened w) n _ (KStr id)); [by apply ready_opened|exact Hn|].
        apply keyOf_id. by rewrite !lookup_insert_ne. }
    by rewrite putStore_opened, storeRecords_opened.
  - split; [by rewrite !lookup_insert_ne|].
    split; [by rewrite lookup_insert_ne, lookup_insert_eq|by rewrite lookup_insert_eq].
Qed.

(** ** Date ranges *)

Section DateRange.
Import IsoDateFacts.

Lemma fourDigitYear_inRange t : IsoDate.fourDigitYear t -> IsoDate.inRange t.
Proof.
  unfold IsoDate.fourDigitYear, IsoDate.inRange, IsoDate.yearZeroStart,
    IsoDate.year9999End, IsoDate.maxTime. lia.
Qed.

Lemma key_leb_iso a b : IsoDate.fourDigitYear a -> IsoDate.fourDigitYear b ->
  key_leb (KStr (IsoDate.toISOString a)) (KStr (IsoDate.toISOString b)) = (a <=? b).
Proof.
  intros Ha Hb. unfold key_leb, key_compare. rewrite (toISOString_compare a b Ha Hb).
  reflexivity.
Qed.

Lemma js_ge_iso t lo : IsoDate.fourDigitYear t -> IsoDate.fourDigitYear lo ->
  js_ge (VStr (IsoDate.toISOString t)) (VStr (IsoDate.toISOString lo)) = (lo <=? t).
Proof.
  intros Ht Hlo. unfold js_ge, js_lt. cbn [ToPrimitive]. unfold String.ltb.
  rewrite (toISOString_compare t lo Ht Hlo). unfold Z.leb.
  rewrite (Z.compare_antisym t lo). by destruct (t ?= lo).
Qed.

Lemma js_le_iso t hi : IsoDate.fourDigitYear t -> IsoDate.fourDigitYear hi ->
  js_le (VStr (IsoDate.toISOString t)) (VStr (IsoDate.toISOString hi)) = (t <=? hi).
Proof.
  intros Ht Hhi. unfold js_le, js_lt. cbn [ToPrimitive]. unfold String.ltb.
  rewrite (toISOString_compare hi t Hhi Ht). unfold Z.leb.
  rewrite (Z.compare_antisym hi t). by destruct (hi ?= t).
Qed.

Lemma recordTime_iso (m : gmap string value) t :
  m !! "date" = Some (VStr (IsoDate.toISOString t)) -> IsoDate.fourDigitYear t ->
  recordTime (VObj m) = Some t.
Proof.
  intros Hm Ht. unfold recordTime. rewrite Hm.
  apply parse_toISOString. by apply fourDigitYear_inRange.
Qed.

Variables lo hi : Z.
Hypothesis Hlo : IsoDate.fourDigitYear lo.
Hypothesis Hhi : IsoDate.fourDigitYear hi.

(** The test of the degraded engine on one record. *)
Lemma ls_range_test v : isoDated v ->
  (eval x := get_prop v "date" in
   if js_ge x (VStr (IsoDate.toISOString lo)) then
     eval y := get_prop v "date" in Ok (js_le y (VStr (IsoDate.toISOString hi)))
   else Ok false) = Ok (betweenb lo hi v).
Proof.
  intros (m & t & -> & Hm & Ht). unfold betweenb.
  rewrite (recordTime_iso m t Hm Ht). rewrite !get_prop_obj by reflexivity. rewrite Hm.
  cbn [from_option Datatypes.id obind]. rewrite (js_ge_iso t lo Ht Hlo).
  destruct (lo <=? t); [|reflexivity]. cbn [obind andb].
  by rewrite (js_le_iso t hi Ht Hhi).
Qed.

Lemma filterOutcome_ok {A} (p : A -> outcome bool) (q : A -> bool) (l : list A) :
  (forall x, x ∈ l -> p x = Ok (q x)) ->
  filterOutcome p l = Ok (filter (fun x => q x = true) l).
Proof.
  induction l as [|x l IH]; intros H; [reflexivity|].
  cbn [filterOutcome]. rewrite (H x) by left. cbn [obind].
  rewrite IH by (intros y Hy; apply H; by right). cbn [obind].
  destruct (q x) eqn:E.
  - by rewrite filter_cons_True.
  - by rewrite filter_cons_False by congruence.
Qed.

(** The entries of the [date] index of the durable engine within the
    bounds are the records the specification selects. *)
Lemma idb_range_entries (E : list (key * value)) :
  (forall e, e ∈ E -> isoDated e.2) ->
  (filter (fun e : key * value =>
             IndexedDB.key_le (KStr (IsoDate.toISOString lo)) e.1
             ∧ IndexedDB.key_le e.1 (KStr (IsoDate.toISOString hi)))
     (omap (fun e : key * value =>
              match e.2 with
              | VObj m => (fun ik => (ik, e.2)) <$> (m !! "date" ≫= to_key)
              | _ => None
              end) E)).*2
  = recordsBetween lo hi (E.*2).
Proof.
  unfold recordsBetween.
  induction E as [|[k v] E IH]; intros H; [reflexivity|].
  assert (Hv : isoDated v) by (apply (H (k, v)); left).
  specialize (IH (fun e He => H e (list_elem_of_further _ _ _ He))).
  destruct Hv as (m & t & -> & Hm & Ht).
  cbn [omap list_omap snd fmap list_fmap]. rewrite Hm. cbn [mbind option_bind to_key fmap option_fmap option_map].
  assert (Hb : betweenb lo hi (VObj m) = ((lo <=? t) && (t <=? hi))).
  { unfold betweenb. by rewrite (recordTime_iso m t Hm Ht). }
  destruct ((lo <=? t) && (t <=? hi)) eqn:Hin.
  - rewrite filter_cons_True.
    + rewrite (filter_cons_True (fun v => betweenb lo hi v = true)) by exact Hb. cbn [fmap list_fmap snd].
      f_equal. exact IH.
    + cbn [fst]. unfold IndexedDB.key_le. rewrite !key_leb_iso by assumption.
      apply andb_true_iff in Hin. tauto.
  - rewrite filter_cons_False.
    + rewrite (filter_cons_False (fun v => betweenb lo hi v = true)) by (rewrite Hb; discriminate). exact IH.
    + cbn [fst]. unfold IndexedDB.key_le. rewrite !key_leb_iso by assumption.
      intros [H1 H2]. rewrite H1, H2 in Hin. discriminate.
Qed.

End DateRange.

Lemma idb_getByIndexRange_ready w n i lov hiv klo khi :
  ready w -> isStore n ->
  (forall s0, IndexedDB.schema !! n = Some s0 -> i ∈ os_indexes s0) ->
  to_key lov = Some klo -> to_key hiv = Some khi -> key_leb klo khi = true ->
  IndexedDB.getByIndexRange n i lov hiv w
  = Ret (IndexedDB.ordered
           (filter (fun e : key * value => IndexedDB.key_le klo e.1 ∧ IndexedDB.key_le e.1 khi)
              (omap (fun e : key * value =>
                       match e.2 with
                       | VObj m => (fun ik => (ik, e.2)) <$> (m !! i ≫= to_key)
                       | _ => None
                       end)
                 (merge_sort IndexedDB.entry_le (map_to_list (storeRecords w n))))))
        (opened w).
Proof.
  intros Hr Hn Hi Hlo Hhi Hle. unfold IndexedDB.getByIndexRange.
  pose proof Hn as [s0 Hs0]. open_store w n Hr Hn.
  unfold IndexedDB.indexOf. rewrite (Ei s0 Hs0).
  rewrite bool_decide_eq_true_2 by (by apply Hi).
  cbn [bind ret]. rewrite Hlo, Hhi, Hle. unfold IndexedDB.indexEntries. by rewrite Er.
Qed.

Lemma ls_getAll_window w n : w_window w = true ->
  LocalStorage.getAll n w = Ret (LocalStorage.values (storeData w n)) w.
Proof.
  intros Hw. unfold LocalStorage.getAll.
  by rewrite (bind_Ret _ _ _ _ _ (ls_getStoreData_window w n Hw)).
Qed.

Lemma ls_getByIndexRange_window w n i lov hiv : w_window w = true ->
  LocalStorage.getByIndexRange n i lov hiv w
  = lift (filterOutcome
            (fun item =>
               eval x := get_prop item i in
               if js_ge x lov then eval y := get_prop item i in Ok (js_le y hiv)
               else Ok false)
            (LocalStorage.values (storeData w n))) w.
Proof.
  intros Hw. unfold LocalStorage.getByIndexRange.
  by rewrite (bind_Ret _ _ _ _ _ (ls_getAll_window w n Hw)).
Qed.

Lemma omapM_deserialize (l : list value) :
  (forall x, x ∈ l -> exists m, x = VObj m) ->
  omapM Entity.deserialize l = Ok (deserialized <$> l).
Proof.
  induction l as [|x l IH]; intros H; [reflexivity|].
  destruct (H x) as [m ->]; [left|].
  cbn [omapM]. rewrite IH by (intros y Hy; apply H; by right). reflexivity.
Qed.

Lemma isoDated_obj v : isoDated v -> exists m, v = VObj m.
Proof. intros (m & t & -> & _). eauto. Qed.

Lemma values_kmap (recs : gmap string value) :
  (map_to_list (kmap (M2 := gmap key) KStr recs)).*2 ≡ₚ LocalStorage.values recs.
Proof.
  unfold LocalStorage.values.
  pose proof (map_to_list_kmap (M2 := gmap key) KStr recs) as H. rewrite H.
  rewrite <- list_fmap_compose.
  erewrite list_fmap_ext; [reflexivity|]. by intros ? [] ?.
Qed.

Lemma dayBoundary_valid (f : Z -> Z) t : IsoDate.fourDigitYear (f t) ->
  call_toISOString (dayBoundary f (VDate (Some t))) = Ok (VStr (IsoDate.toISOString (f t))).
Proof.
  intros H. apply fourDigitYear_inRange in H. unfold IsoDate.inRange in H.
  unfold dayBoundary, IsoDate.TimeClip. cbn [toDate].
  destruct (Z.leb_spec (- IsoDate.maxTime) (f t)); [|lia].
  destruct (Z.leb_spec (f t) IsoDate.maxTime); [|lia]. reflexivity.
Qed.

Lemma values_lookup (recs : gmap string value) x :
  x ∈ LocalStorage.values recs -> exists id, recs !! id = Some x.
Proof.
  unfold LocalStorage.values. intros H. apply list_elem_of_fmap in H.
  destruct H as ([id v] & -> & H). exists id. by apply elem_of_map_to_list.
Qed.

Lemma bind_lift_Ok {A B} (a : A) (k : A -> M B) w : bind (lift (Ok a)) k w = k a w.
Proof. reflexivity. Qed.

Section RangeAgreement.
Context {L : LocalDay}.
Variable n : string.
Variable recs : gmap string value.
Variables t1 t2 : Z.
Hypothesis Hn : isStore n.
Hypothesis Hindex : forall s0, IndexedDB.schema !! n = Some s0 -> "date" ∈ os_indexes s0.
Hypothesis Hrecs : forall id r, recs !! id = Some r -> isoDated r.
Hypothesis Hlo : IsoDate.fourDigitYear (startOfDay t1).
Hypothesis Hhi : IsoDate.fourDigitYear (endOfDay t2).
Hypothesis Horder : t1 <= t2.

Lemma degraded_getByDateRange w : w_window w = true -> storeData w n = recs ->
  Entity.getByDateRange LocalStorage.module n (VDate (Some t1)) (VDate (Some t2)) w
  = Ret (deserialized <$> recordsBetween (startOfDay t1) (endOfDay t2)
                            (LocalStorage.values recs)) w.
Proof.
  intros Hw Hdata. unfold Entity.getByDateRange.
  rewrite !dayBoundary_valid by assumption. rewrite !bind_lift_Ok.
  cbn [db_getByIndexRange LocalStorage.module].
  erewrite bind_Ret.
  2:{ rewrite (ls_getByIndexRange_window w n _ _ _ Hw), Hdata.
      rewrite (filterOutcome_ok _ (betweenb (startOfDay t1) (endOfDay t2))); [reflexivity|].
      intros x Hx. destruct (values_lookup recs x Hx) as [id Hid].
      apply ls_range_test; try assumption. by apply (Hrecs id). }
  unfold mapOutcome. rewrite omapM_deserialize; [reflexivity|].
  intros x Hx. apply list_elem_of_filter in Hx as [_ Hx].
  destruct (values_lookup recs x Hx) as [id Hid].
  apply isoDated_obj. by apply (Hrecs id).
Qed.

Lemma durable_getByDateRange w : ready w -> storeRecords w n = kmap KStr recs ->
  exists l,
    Entity.getByDateRange IndexedDB.module n (VDate (Some t1)) (VDate (Some t2)) w
    = Ret (deserialized <$> l) (opened w)
    ∧ l ≡ₚ recordsBetween (startOfDay t1) (endOfDay t2) (LocalStorage.values recs).
Proof.
  intros Hr Hs. eexists. split.
  - unfold Entity.getByDateRange.
    rewrite !dayBoundary_valid by assumption. rewrite !bind_lift_Ok.
    cbn [db_getByIndexRange IndexedDB.module].
    erewrite bind_Ret.
    2:{ apply (idb_getByIndexRange_ready w n "date"
                 (VStr (IsoDate.toISOString (startOfDay t1)))
                 (VStr (IsoDate.toISOString (endOfDay t2))) _ _ Hr Hn Hindex eq_refl eq_refl).
        rewrite key_leb_iso by assumption. apply Z.leb_le.
        pose proof (startOfDay_le t1). pose proof (endOfDay_ge t2). lia. }
    unfold mapOutcome. rewrite omapM_deserialize; [reflexivity|].
    intros x Hx. unfold IndexedDB.ordered in Hx.
    apply list_elem_of_fmap in Hx as ([k v] & -> & Hx).
    rewrite merge_sort_Permutation in Hx.
    apply list_elem_of_filter in Hx as [_ Hx].
    apply list_elem_of_omap in Hx as ([k' v'] & Hx & Hf).
    rewrite merge_sort_Permutation, Hs in Hx.
    apply elem_of_map_to_list, lookup_kmap_Some in Hx as (id & _ & Hid); [|apply _].
    destruct (Hrecs id v' Hid) as (m & t & -> & _). cbn in Hf.
    destruct (m !! "date" ≫= to_key); [|discriminate]. inversion Hf; subst. eauto.
  - unfold IndexedDB.ordered. rewrite merge_sort_Permutation.
    rewrite idb_range_entries; try assumption.
    + unfold recordsBetween. rewrite merge_sort_Permutation, Hs, values_kmap. reflexivity.
    + intros [k v] Hx. rewrite merge_sort_Permutation, Hs in Hx.
      apply elem_of_map_to_list, lookup_kmap_Some in Hx as (id & _ & Hid); [|apply _].
      by apply (Hrecs id).
Qed.

End RangeAgreement.

(** ** Export and import *)

Lemma importData_phases db fuel data w :
  DataExportRepository.importData db fuel data w
  = bind (importRecordsPhase db data)
      (fun _ => DataExportRepository.importSettings db fuel data) w.
Proof.
  unfold DataExportRepository.importData, importRecordsPhase, bind.
  destruct (DataExportRepository.checkVersion data w) as [a1 w1|e w1|]; try reflexivity.
  destruct (DataExportRepository.clearAllData db w1) as [a2 w2|e w2|]; try reflexivity.
  destruct (DataExportRepository.importExercises db data w2) as [a3 w3|e w3|];
    reflexivity.
Qed.

Lemma storedEntity_codec k v : storedEntity k v ->
  exists e, Entity.deserialize v = Ok e ∧ Entity.withIsoDates e = Ok v
    ∧ IndexedDB.keyOf v = Some k.
Proof.
  intros (m & id & d & c & u & -> & -> & Hid & Hd & Hc & Hu).
  eexists. split; [apply (withDates_ok m d c u Hd Hc Hu)|]. split.
  - erewrite withIsoDates_lookup.
    + do 2 f_equal. apply (iso_over_dates m d c u); assumption.
    + do 2 rewrite lookup_insert_ne by done. by rewrite lookup_insert_eq.
    + by rewrite lookup_insert_ne, lookup_insert_eq.
    + by rewrite lookup_insert_eq.
  - by apply keyOf_id.
Qed.

(** Reading all records and writing their dates as ISO texts gives the
    stored records back. *)
Lemma export_records (l : list (key * value)) :
  (forall e, e ∈ l -> storedEntity e.1 e.2) ->
  exists es, omapM Entity.deserialize (l.*2) = Ok es
    ∧ omapM Entity.withIsoDates es = Ok (l.*2).
Proof.
  induction l as [|[k v] l IH]; intros H; [by exists []|].
  destruct IH as (es & H1 & H2); [intros e He; apply H; by right|].
  destruct (storedEntity_codec k v) as (e & Hd & Hs & _); [apply (H (k, v)); left|].
  exists (e :: es). cbn [fmap list_fmap snd omapM]. rewrite Hd. cbn [obind].
  fold (fmap (M := list) (@snd key value) l). rewrite H1. cbn [obind].
  split; [reflexivity|]. rewrite Hs. cbn [obind]. rewrite H2. reflexivity.
Qed.

Lemma sorted_entries (m : gmap key value) :
  merge_sort IndexedDB.entry_le (map_to_list m) ≡ₚ map_to_list m.
Proof. apply merge_sort_Permutation. Qed.

Lemma idb_export_store w n : ready w -> isStore n -> storeOk w n ->
  exists es,
    Entity.getAll IndexedDB.module n w = Ret es (opened w)
    ∧ omapM Entity.withIsoDates es
      = Ok (IndexedDB.ordered (map_to_list (storeRecords w n))).
Proof.
  intros Hr Hn Hok. unfold Entity.getAll. cbn [db_getAll IndexedDB.module].
  rewrite (bind_Ret _ _ _ _ _ (idb_getAll_ready w n Hr Hn)).
  unfold IndexedDB.ordered, mapOutcome.
  destruct (export_records (merge_sort IndexedDB.entry_le (map_to_list (storeRecords w n))))
    as (es & H1 & H2).
  - intros [k v] He. rewrite sorted_entries in He.
    apply elem_of_map_to_list in He. by apply Hok.
  - exists es. rewrite H1. auto.
Qed.

(** Re-creating the records of a list under fresh keys. *)
Lemma idb_import_list n (l : list (key * value)) :
  isStore n -> (forall e, e ∈ l -> storedEntity e.1 e.2) -> NoDup l.*1 ->
  forall w acc, ready w -> storeRecords w n = acc ->
    (forall e, e ∈ l -> acc !! e.1 = None) ->
    exists w',
      DataExportRepository.importRecords (Entity.create IndexedDB.module n) (VArr l.*2) w
        = Ret tt w'
      ∧ frame n w w' ∧ storeRecords w' n = list_to_map l ∪ acc.
Proof.
  intros Hn. unfold DataExportRepository.importRecords.
  induction l as [|[k v] l IH]; intros Hl Hnd w acc Hr Hacc Hfree.
  - exists w. split; [reflexivity|]. split; [by apply frame_refl|].
    cbn. by rewrite (left_id_L ∅ (∪)).
  - destruct (storedEntity_codec k v) as (e & Hd & Hs & Hk); [apply (Hl (k, v)); left|].
    cbn [fmap list_fmap snd fst] in *. apply NoDup_cons in Hnd as [Hk' Hnd].
    cbn [forOf]. unfold bind at 1. rewrite lift_bind.
    change (Entity.withDates v) with (Entity.deserialize v). rewrite Hd.
    assert (Hc : Entity.create IndexedDB.module n e w
                 = Ret e (putStore n (<[k := v]> acc) w)).
    { unfold Entity.create, Entity.serialize. rewrite lift_bind, Hs.
      cbn [db_add IndexedDB.module].
      erewrite bind_Ret; [reflexivity|]. rewrite <- Hacc.
      apply idb_add_new; try assumption. rewrite Hacc. apply (Hfree (k, v)). left. }
    rewrite (bind_Ret _ _ _ _ _ Hc). cbn [ret].
    destruct (IH (fun x Hx => Hl x (list_elem_of_further _ _ _ Hx)) Hnd
                (putStore n (<[k := v]> acc) w) (<[k := v]> acc))
      as (w' & Hrun & Hf & Hstore).
    + by apply ready_putStore.
    + by apply storeRecords_putStore_eq.
    + intros x Hx. rewrite lookup_insert_ne; [apply Hfree; by right|].
      intros ->. apply Hk'. apply list_elem_of_fmap. by exists x.
    + exists w'. split; [exact Hrun|]. split.
      * eapply frame_trans; [|exact Hf]. by apply frame_putStore.
      * rewrite Hstore. cbn [list_to_map foldr]. cbn [uncurry fst snd].
        rewrite <- insert_union_l. symmetry. apply insert_union_r.
        apply not_elem_of_list_to_map_1. exact Hk'.
Qed.


Lemma bind_Ret_inv {A B} (m : M A) (k : A -> M B) w b w' :
  bind m k w = Ret b w' -> exists a w1, m w = Ret a w1 ∧ k a w1 = Ret b w'.
Proof.
  unfold bind. destruct (m w) as [a w1|e w1|]; [eauto|discriminate|discriminate].
Qed.

Lemma lift_Ret_inv {A} (o : outcome A) w a w' :
  lift o w = Ret a w' -> o = Ok a ∧ w' = w.
Proof. destruct o; cbn; intros H; inversion H; auto. Qed.

Lemma idb_settings_get_present fuel w (s : gmap string value) :
  ready w ->
  storeRecords w STORES.SETTINGS !! KStr UserSettingsRepository.SETTINGS_ID = Some (VObj s) ->
  UserSettingsRepository.get IndexedDB.module (S fuel) w
  = Ret (VObj (settingsOf s)) (opened w).
Proof.
  intros Hr Hs. cbn [UserSettingsRepository.get db_getById IndexedDB.module].
  rewrite (bind_Ret _ _ _ _ _ (idb_getById_ready w _ _ Hr isStore_settings)).
  unfold UserSettingsRepository.storeName. rewrite Hs. reflexivity.
Qed.

Lemma settingsOf_updatedAt (s : gmap string value) u : holdsIso s "updatedAt" u ->
  settingsOf s !! "updatedAt" = Some (VDate (Some u)).
Proof.
  intros [Hu Ru]. unfold settingsOf. do 3 rewrite lookup_insert_ne by done.
  rewrite lookup_insert_eq, Hu. cbn [from_option Datatypes.id].
  by rewrite new_Date_iso.
Qed.

Lemma storeOk_opened w n : storeOk w n -> storeOk (opened w) n.
Proof. unfold storeOk. by rewrite storeRecords_opened. Qed.




Section ExportImport.
Variable w : world.
Variable s : gmap string value.
Variable u : Z.
Hypothesis Hready : ready w.
Hypothesis Hex : storeOk w STORES.EXERCISES.
Hypothesis Hfd : storeOk w STORES.FOODS.
Hypothesis Hset :
  storeRecords w STORES.SETTINGS !! KStr UserSettingsRepository.SETTINGS_ID = Some (VObj s).
Hypothesis Hu : holdsIso s "updatedAt" u.


End ExportImport.

Lemma ready_set_now t w : ready w -> ready (set_now t w).
Proof. intros [[Hw Hi] Hs]. split; [split|]; assumption. Qed.

(** ** Parity of the two engines *)

Lemma json_clone_object_plain (data : gmap string value) :
  (forall id v, data !! id = Some v -> json_clone v = v ∧ v ≠ VUndef) ->
  json_clone_object data = data.
Proof.
  intros H. apply map_eq. intros id. unfold json_clone_object. rewrite lookup_omap.
  destruct (data !! id) as [v|] eqn:E; [|reflexivity].
  destruct (H id v E) as [Hc Hv]. cbn. destruct v; try congruence; try discriminate Hc;
  by rewrite Hc.
Qed.

Lemma plainRecord_json n v : plainRecord n v -> json_clone v = v ∧ v ≠ VUndef.
Proof. intros (m & id & -> & _ & _ & Hc & _). split; [exact Hc|discriminate]. Qed.

Lemma indexesOf_own n i : i ∈ indexesOf n -> inheritedValue i = VUndef.
Proof.
  unfold indexesOf, IndexedDB.schema.
  destruct (decide (n = STORES.EXERCISES)) as [->|H1].
  { rewrite lookup_insert_eq. cbn [os_indexes]. intros H. set_unfold in H.
    destruct_or!; subst; reflexivity || contradiction. }
  rewrite lookup_insert_ne by done.
  destruct (decide (n = STORES.FOODS)) as [->|H2].
  { rewrite lookup_insert_eq. cbn [os_indexes]. intros H. set_unfold in H.
    destruct_or!; subst; reflexivity || contradiction. }
  rewrite lookup_insert_ne by done.
  destruct (decide (n = STORES.SETTINGS)) as [->|H3].
  { rewrite lookup_insert_eq. cbn [os_indexes]. intros H. by set_unfold in H. }
  rewrite lookup_insert_ne by done. rewrite lookup_empty. intros H. by set_unfold in H.
Qed.

Lemma plainRecord_truthy n v : plainRecord n v -> truthy v = true.
Proof. by intros (m & id & -> & _). Qed.

Lemma getStoreKey_inj n n' :
  LocalStorage.getStoreKey n = LocalStorage.getStoreKey n' -> n = n'.
Proof. unfold LocalStorage.getStoreKey, LocalStorage.STORAGE_PREFIX. cbn. by intros [=]. Qed.

Lemma storeData_lsPut_ne n n' data w : n ≠ n' ->
  storeData (lsPut n data w) n' = storeData w n'.
Proof.
  intros Hne. unfold storeData, lsPut. cbn [set_localStorage w_localStorage].
  rewrite lookup_insert_ne; [reflexivity|]. intros H. by apply getStoreKey_inj in H.
Qed.

Lemma ls_setStoreData_window w n data : w_window w = true ->
  LocalStorage.setStoreData n data w = Ret tt (lsPut n data w).
Proof. intros Hw. unfold LocalStorage.setStoreData, lsPut. by rewrite Hw. Qed.

Lemma ls_getById_window w n id : w_window w = true ->
  LocalStorage.getById n id w = Ret (or_null (lookupProp (storeData w n) id)) w.
Proof.
  intros Hw. unfold LocalStorage.getById.
  by rewrite (bind_Ret _ _ _ _ _ (ls_getStoreData_window w n Hw)).
Qed.

Lemma ls_update_window w n item idv : w_window w = true ->
  get_prop item "id" = Ok idv ->
  LocalStorage.update n item w
  = Ret item (lsPut n (assignProp (storeData w n) (ToString idv) item) w).
Proof.
  intros Hw Hid. unfold LocalStorage.update.
  rewrite (bind_Ret _ _ _ _ _ (ls_getStoreData_window w n Hw)).
  rewrite lift_bind, Hid.
  by rewrite (bind_Ret _ _ _ _ _ (ls_setStoreData_window w n _ Hw)).
Qed.

Lemma ls_deleteById_window w n id : w_window w = true ->
  LocalStorage.deleteById n id w = Ret tt (lsPut n (delete id (storeData w n)) w).
Proof.
  intros Hw. unfold LocalStorage.deleteById.
  rewrite (bind_Ret _ _ _ _ _ (ls_getStoreData_window w n Hw)).
  by apply ls_setStoreData_window.
Qed.

Lemma lsPut_window n data w : w_window (lsPut n data w) = w_window w.
Proof. reflexivity. Qed.

(** The invariant is kept when both engines replace the records of one
    store by the same plain records. *)
Lemma sameData_put wd wl n (data : gmap string value) :
  sameData wd wl -> isStore n ->
  (forall id v, data !! id = Some v -> plainRecord n v) ->
  sameData (putStore n (kmap KStr data) wd) (lsPut n data wl).
Proof.
  intros (Hr & Hw & Hs) Hn Hd. split; [by apply ready_putStore|]. split; [exact Hw|].
  intros n' Hn'. destruct (decide (n = n')) as [<-|Hne].
  - rewrite storeRecords_putStore_eq, storeData_lsPut by assumption.
    rewrite json_clone_object_plain; [auto|].
    intros id v E. apply (plainRecord_json n). by apply (Hd id).
  - rewrite storeRecords_putStore_ne, storeData_lsPut_ne by assumption. by apply Hs.
Qed.

Lemma sameData_opened wd wl : sameData wd wl -> sameData (opened wd) wl.
Proof.
  intros (Hr & Hw & Hs). split; [by apply ready_opened|]. split; [exact Hw|].
  intros n Hn. rewrite storeRecords_opened. by apply Hs.
Qed.

(** Selecting entries of an index of the durable engine against selecting
    records by a test on the indexed property. *)
Lemma index_select (i : string) (P : key * value -> Prop) `{!forall e, Decision (P e)}
    (Q : value -> bool) (E : list (key * value)) :
  (forall e, e ∈ E ->
     exists m : gmap string value, e.2 = VObj m
       ∧ match m !! i ≫= to_key with
         | Some ik => P (ik, e.2) ↔ Q e.2 = true
         | None => Q e.2 = false
         end) ->
  (filter P
     (omap (fun e : key * value =>
              match e.2 with
              | VObj m => (fun ik => (ik, e.2)) <$> (m !! i ≫= to_key)
              | _ => None
              end) E)).*2
  = filter (fun v => Q v = true) (E.*2).
Proof.
  induction E as [|[k v] E IH]; intros HE; [reflexivity|].
  specialize (IH (fun e He => HE e (list_elem_of_further _ _ _ He))).
  destruct (HE (k, v)) as (m & Hv & Hm); [left|]. cbn [snd] in Hv, Hm. subst v.
  cbn [omap list_omap snd fmap list_fmap].
  destruct (m !! i ≫= to_key) as [ik|] eqn:Hik; cbn [fmap option_fmap option_map].
  - destruct (Q (VObj m)) eqn:HQ.
    + rewrite filter_cons_True by (by apply Hm).
      rewrite (filter_cons_True (fun v => Q v = true)) by exact HQ.
      cbn [fmap list_fmap snd]. f_equal. exact IH.
    + rewrite filter_cons_False by (intros HP; apply Hm in HP; congruence).
      rewrite (filter_cons_False (fun v => Q v = true)) by congruence. exact IH.
  - rewrite (filter_cons_False (fun v => Q v = true)) by congruence. exact IH.
Qed.

Lemma indexesOf_schema n i s0 :
  i ∈ indexesOf n -> IndexedDB.schema !! n = Some s0 -> i ∈ os_indexes s0.
Proof. unfold indexesOf. intros Hi Hs. by rewrite Hs in Hi. Qed.

Lemma idb_getByIndex_ready w n i x : ready w -> isStore n -> i ∈ indexesOf n ->
  IndexedDB.getByIndex n i (VStr x) w
  = Ret (IndexedDB.ordered
           (filter (fun e : key * value => e.1 = KStr x)
              (omap (fun e : key * value =>
                       match e.2 with
                       | VObj m => (fun ik => (ik, e.2)) <$> (m !! i ≫= to_key)
                       | _ => None
                       end)
                 (merge_sort IndexedDB.entry_le (map_to_list (storeRecords w n))))))
        (opened w).
Proof.
  intros Hr Hn Hi. unfold IndexedDB.getByIndex.
  pose proof Hn as [s0 Hs0]. open_store w n Hr Hn.
  unfold IndexedDB.indexOf. rewrite (Ei s0 Hs0).
  rewrite bool_decide_eq_true_2 by (by apply (indexesOf_schema n)).
  cbn [bind ret to_key]. unfold IndexedDB.indexEntries. by rewrite Er.
Qed.

Lemma ls_getByIndex_window w n i v : w_window w = true ->
  LocalStorage.getByIndex n i v w
  = lift (filterOutcome
            (fun item => eval x := get_prop item i in Ok (strict_eq x v))
            (LocalStorage.values (storeData w n))) w.
Proof.
  intros Hw. unfold LocalStorage.getByIndex.
  by rewrite (bind_Ret _ _ _ _ _ (ls_getAll_window w n Hw)).
Qed.

Lemma key_le_js_ge a s :
  IndexedDB.key_le (KStr a) (KStr s) ↔ js_ge (VStr s) (VStr a) = true.
Proof.
  unfold IndexedDB.key_le, key_leb, key_compare, js_ge, js_lt. cbn [ToPrimitive].
  unfold String.ltb. rewrite (String.compare_antisym s a).
  destruct (String.compare a s); cbn; intuition congruence.
Qed.

Lemma key_le_js_le s b :
  IndexedDB.key_le (KStr s) (KStr b) ↔ js_le (VStr s) (VStr b) = true.
Proof.
  unfold IndexedDB.key_le, key_leb, key_compare, js_le, js_lt. cbn [ToPrimitive].
  unfold String.ltb. rewrite (String.compare_antisym b s).
  destruct (String.compare s b); cbn; intuition congruence.
Qed.

(** The entries of a sorted store are the records the degraded engine
    enumerates. *)
Lemma sorted_entries_values (data : gmap string value) :
  (merge_sort IndexedDB.entry_le (map_to_list (kmap (M2 := gmap key) KStr data))).*2
  ≡ₚ LocalStorage.values data.
Proof. rewrite merge_sort_Permutation. apply values_kmap. Qed.

Lemma sorted_entries_lookup (data : gmap string value) e :
  e ∈ merge_sort IndexedDB.entry_le (map_to_list (kmap (M2 := gmap key) KStr data)) ->
  exists id, data !! id = Some e.2.
Proof.
  rewrite merge_sort_Permutation. destruct e as [k v]. intros H.
  apply elem_of_map_to_list, lookup_kmap_Some in H as (id & _ & Hid); [|apply _].
  eauto.
Qed.

Section Step.
Variables wd wl : world.
Hypothesis Hsame : sameData wd wl.

Lemma sameData_ready : ready wd.
Proof. exact (proj1 Hsame). Qed.

Lemma sameData_window : w_window wl = true.
Proof. exact (proj1 (proj2 Hsame)). Qed.


Lemma sameData_records n : isStore n ->
  storeRecords wd n = kmap KStr (storeData wl n).
Proof. intros Hn. by apply (proj2 (proj2 Hsame) n Hn). Qed.

Lemma sameData_plain n id v : isStore n ->
  storeData wl n !! id = Some v -> plainRecord n v.
Proof. intros Hn. by apply (proj2 (proj2 Hsame) n Hn). Qed.

Lemma step_getById n id : isStore n -> inheritedValue id = VUndef ->
  sameObservation (perform IndexedDB.module (GetById n id) wd).1
                  (perform LocalStorage.module (GetById n id) wl).1
  ∧ sameData (perform IndexedDB.module (GetById n id) wd).2
             (perform LocalStorage.module (GetById n id) wl).2.
Proof.
  intros Hn Hown. cbn [perform db_getById IndexedDB.module LocalStorage.module].
  rewrite (idb_getById_ready wd n id sameData_ready Hn), (ls_getById_window wl n id sameData_window).
  rewrite (sameData_records n Hn), (lookup_kmap (M2 := gmap key) KStr).
  rewrite (lookupProp_own _ _ Hown).
  cbn [observe fst snd sameObservation]. split; [reflexivity|by apply sameData_opened].
Qed.

Lemma step_getAll n : isStore n ->
  sameObservation (perform IndexedDB.module (GetAll n) wd).1
                  (perform LocalStorage.module (GetAll n) wl).1
  ∧ sameData (perform IndexedDB.module (GetAll n) wd).2
             (perform LocalStorage.module (GetAll n) wl).2.
Proof.
  intros Hn. cbn [perform db_getAll IndexedDB.module LocalStorage.module].
  rewrite (idb_getAll_ready wd n sameData_ready Hn), (ls_getAll_window wl n sameData_window).
  rewrite (sameData_records n Hn).
  cbn [observe fst snd sameObservation]. split; [|by apply sameData_opened].
  apply sorted_entries_values.
Qed.

Lemma step_clearStore n : isStore n ->
  sameObservation (perform IndexedDB.module (ClearStore n) wd).1
                  (perform LocalStorage.module (ClearStore n) wl).1
  ∧ sameData (perform IndexedDB.module (ClearStore n) wd).2
             (perform LocalStorage.module (ClearStore n) wl).2.
Proof.
  intros Hn. pose proof sameData_ready as Hr. pose proof sameData_window as Hw.
  cbn [perform db_clearStore IndexedDB.module LocalStorage.module].
  rewrite (idb_clearStore_ready wd n Hr Hn). unfold LocalStorage.clearStore. rewrite Hw.
  cbn [observe fst snd sameObservation]. split; [reflexivity|].
  split; [by apply ready_putStore|]. split; [exact sameData_window|].
  intros n' Hn'. destruct (decide (n = n')) as [<-|Hne].
  - rewrite storeRecords_putStore_eq by assumption.
    unfold storeData. cbn [set_localStorage w_localStorage]. rewrite lookup_delete_eq.
    rewrite kmap_empty. split; [reflexivity|]. intros id v H. by rewrite lookup_empty in H.
  - rewrite storeRecords_putStore_ne by assumption.
    unfold storeData. cbn [set_localStorage w_localStorage].
    rewrite lookup_delete_ne by (intros H; by apply getStoreKey_inj in H).
    split; [by apply sameData_records|]. intros id v. by apply sameData_plain.
Qed.

Lemma step_deleteById n id : isStore n ->
  sameObservation (perform IndexedDB.module (DeleteById n id) wd).1
                  (perform LocalStorage.module (DeleteById n id) wl).1
  ∧ sameData (perform IndexedDB.module (DeleteById n id) wd).2
             (perform LocalStorage.module (DeleteById n id) wl).2.
Proof.
  intros Hn. cbn [perform db_deleteById IndexedDB.module LocalStorage.module].
  rewrite (idb_deleteById_ready wd n id sameData_ready Hn), (ls_deleteById_window wl n id sameData_window).
  cbn [observe fst snd sameObservation]. split; [reflexivity|].
  rewrite (sameData_records n Hn), <- (kmap_delete (M2 := gmap key) KStr).
  apply sameData_put; [exact Hsame|exact Hn|].
  intros i v H. apply lookup_delete_Some in H as [_ H]. by apply (sameData_plain n i).
Qed.

Lemma step_update n item : isStore n -> plainRecord n item ->
  sameObservation (perform IndexedDB.module (Update n item) wd).1
                  (perform LocalStorage.module (Update n item) wl).1
  ∧ sameData (perform IndexedDB.module (Update n item) wd).2
             (perform LocalStorage.module (Update n item) wl).2.
Proof.
  intros Hn Hp. pose proof Hp as (m & id & -> & Hid & Hown & _).
  cbn [perform db_update IndexedDB.module LocalStorage.module].
  rewrite (idb_update_ready wd n (VObj m) (KStr id) sameData_ready Hn (keyOf_id m id Hid)).
  rewrite (ls_update_window wl n (VObj m) (VStr id) sameData_window)
    by (rewrite get_prop_obj by reflexivity; by rewrite Hid).
  cbn [observe fst snd sameObservation ToString]. split; [reflexivity|].
  rewrite (assignProp_own _ _ _ Hown).
  rewrite (sameData_records n Hn), <- (kmap_insert (M2 := gmap key) KStr).
  apply sameData_put; [exact Hsame|exact Hn|].
  intros i v H. apply lookup_insert_Some in H as [[_ <-]|[_ H]]; [exact Hp|].
  by apply (sameData_plain n i).
Qed.

Lemma step_add n item : isStore n -> plainRecord n item ->
  sameObservation (perform IndexedDB.module (Add n item) wd).1
                  (perform LocalStorage.module (Add n item) wl).1
  ∧ sameData (perform IndexedDB.module (Add n item) wd).2
             (perform LocalStorage.module (Add n item) wl).2.
Proof.
  intros Hn Hp. pose proof Hp as (m & id & -> & Hid & Hown & _).
  cbn [perform db_add IndexedDB.module LocalStorage.module].
  rewrite (ls_add_window wl n (VObj m) (VStr id) sameData_window)
    by (rewrite get_prop_obj by reflexivity; by rewrite Hid).
  cbn [ToString]. rewrite (lookupProp_own _ _ Hown), (assignProp_own _ _ _ Hown).
  destruct (storeData wl n !! id) as [v|] eqn:E.
  - rewrite (idb_add_duplicate wd n (VObj m) (KStr id) v sameData_ready Hn (keyOf_id m id Hid))
      by (rewrite (sameData_records n Hn), (lookup_kmap (M2 := gmap key) KStr); exact E).
    cbn [from_option Datatypes.id]. rewrite (plainRecord_truthy n v (sameData_plain n id v Hn E)).
    cbn [observe fst snd sameObservation]. split; [exact I|by apply sameData_opened].
  - rewrite (idb_add_new wd n (VObj m) (KStr id) sameData_ready Hn (keyOf_id m id Hid))
      by (rewrite (sameData_records n Hn), (lookup_kmap (M2 := gmap key) KStr); exact E).
    cbn [from_option Datatypes.id truthy observe fst snd sameObservation].
    split; [reflexivity|].
    rewrite (sameData_records n Hn), <- (kmap_insert (M2 := gmap key) KStr).
    apply sameData_put; [exact Hsame|exact Hn|].
    intros i v H. apply lookup_insert_Some in H as [[_ <-]|[_ H]]; [exact Hp|].
    by apply (sameData_plain n i).
Qed.

Lemma step_getByIndex n i x : isStore n -> i ∈ indexesOf n ->
  sameObservation (perform IndexedDB.module (GetByIndex n i (VStr x)) wd).1
                  (perform LocalStorage.module (GetByIndex n i (VStr x)) wl).1
  ∧ sameData (perform IndexedDB.module (GetByIndex n i (VStr x)) wd).2
             (perform LocalStorage.module (GetByIndex n i (VStr x)) wl).2.
Proof.
  intros Hn Hi. cbn [perform db_getByIndex IndexedDB.module LocalStorage.module].
  rewrite (idb_getByIndex_ready wd n i x sameData_ready Hn Hi), (ls_getByIndex_window wl n i _ sameData_window).
  rewrite (filterOutcome_ok _ (matchesValue i x)).
  2:{ intros v Hv. destruct (values_lookup _ v Hv) as [id Hid].
      by destruct (sameData_plain n id v Hn Hid) as (m & ? & -> & _). }
  cbn [lift ret observe fst snd sameObservation]. split; [|by apply sameData_opened].
  unfold IndexedDB.ordered. rewrite merge_sort_Permutation, (sameData_records n Hn).
  rewrite (index_select i _ (matchesValue i x)).
  - by rewrite sorted_entries_values.
  - intros e He. destruct (sorted_entries_lookup _ e He) as [id Hid].
    destruct (sameData_plain n id _ Hn Hid) as (m & ? & Hm & _ & _ & _ & Hidx).
    exists m. split; [exact Hm|]. rewrite Hm. cbn [matchesValue].
    rewrite (lookupProp_own _ _ (indexesOf_own n i Hi)).
    destruct (Hidx i Hi) as [E|[s E]]; rewrite E; cbn; [reflexivity|].
    rewrite String.eqb_eq. split; congruence.
Qed.

Lemma step_getByIndexRange n i a b : isStore n -> i ∈ indexesOf n ->
  String.compare a b ≠ Gt ->
  sameObservation
    (perform IndexedDB.module (GetByIndexRange n i (VStr a) (VStr b)) wd).1
    (perform LocalStorage.module (GetByIndexRange n i (VStr a) (VStr b)) wl).1
  ∧ sameData (perform IndexedDB.module (GetByIndexRange n i (VStr a) (VStr b)) wd).2
             (perform LocalStorage.module (GetByIndexRange n i (VStr a) (VStr b)) wl).2.
Proof.
  intros Hn Hi Hab.
  cbn [perform db_getByIndexRange IndexedDB.module LocalStorage.module].
  rewrite (idb_getByIndexRange_ready wd n i (VStr a) (VStr b) (KStr a) (KStr b) sameData_ready Hn).
  2:{ intros s0. by apply indexesOf_schema. }
  2,3: reflexivity.
  2:{ unfold key_leb, key_compare. by destruct (String.compare a b). }
  rewrite (ls_getByIndexRange_window wl n i _ _ sameData_window).
  rewrite (filterOutcome_ok _ (matchesRange i a b)).
  2:{ intros v Hv. destruct (values_lookup _ v Hv) as [id Hid].
      destruct (sameData_plain n id v Hn Hid) as (m & ? & -> & _).
      cbn [get_prop obind matchesRange]. by destruct (js_ge _ _). }
  cbn [lift ret observe fst snd sameObservation]. split; [|by apply sameData_opened].
  unfold IndexedDB.ordered. rewrite merge_sort_Permutation, (sameData_records n Hn).
  rewrite (index_select i _ (matchesRange i a b)).
  - by rewrite sorted_entries_values.
  - intros e He. destruct (sorted_entries_lookup _ e He) as [id Hid].
    destruct (sameData_plain n id _ Hn Hid) as (m & ? & Hm & _ & _ & _ & Hidx).
    exists m. split; [exact Hm|]. rewrite Hm. cbn [matchesRange].
    rewrite (lookupProp_own _ _ (indexesOf_own n i Hi)).
    destruct (Hidx i Hi) as [E|[s E]]; rewrite E; cbn [mbind option_bind to_key fst snd
      from_option Datatypes.id]; [reflexivity|].
    rewrite andb_true_iff, key_le_js_ge, key_le_js_le. reflexivity.
Qed.

End Step.

(** One operation within the schema: same observation, same data after. *)
Lemma step_parity wd wl o : sameData wd wl -> plainOp o ->
  sameObservation (perform IndexedDB.module o wd).1 (perform LocalStorage.module o wl).1
  ∧ sameData (perform IndexedDB.module o wd).2 (perform LocalStorage.module o wl).2.
Proof.
  intros Hs Ho. destruct o as [n id|n|n i v|n i lo hi|n item|n item|n id|n]; cbn in Ho.
  - destruct Ho as [Hn Hown]. by apply step_getById.
  - by apply step_getAll.
  - destruct Ho as (Hn & Hi & x & ->). by apply step_getByIndex.
  - destruct Ho as (Hn & Hi & a & b & -> & -> & Hab). by apply step_getByIndexRange.
  - destruct Ho as [Hn Hp]. by apply step_add.
  - destruct Ho as [Hn Hp]. by apply step_update.
  - by apply step_deleteById.
  - by apply step_clearStore.
Qed.

Lemma run_parity ops : forall wd wl, sameData wd wl -> Forall plainOp ops ->
  Forall2 sameObservation (run IndexedDB.module ops wd) (run LocalStorage.module ops wl).
Proof.
  induction ops as [|o ops IH]; intros wd wl Hs Hops; [constructor|].
  apply Forall_cons in Hops as [Ho Hops].
  destruct (step_parity wd wl o Hs Ho) as [H1 H2].
  cbn [run]. constructor; [exact H1|]. by apply IH.
Qed.

Lemma sameData_fresh w : durable w -> w_database w = None -> w_localStorage w = ∅ ->
  sameData w w.
Proof.
  intros Hd Hdb Hls. split; [split; [exact Hd|]|split; [apply Hd|]].
  - unfold schemaPresent. by rewrite Hdb.
  - intros n Hn. unfold storeRecords, storeData. rewrite Hdb, Hls, lookup_empty.
    rewrite kmap_empty. split; [reflexivity|]. intros id v H. by rewrite lookup_empty in H.
Qed.

(** ** Import of a snapshot: what each section leaves *)

Lemma importSettings_falsy db fuel (data : gmap string value) w :
  truthy (default VUndef (data !! "settings")) = false ->
  DataExportRepository.importSettings db fuel (VObj data) w = Ret tt w.
Proof.
  intros H. unfold DataExportRepository.importSettings. rewrite lift_bind.
  rewrite get_prop_obj by reflexivity. by rewrite H.
Qed.

(** On a settings store without the record, the settings write of
    [importData] uses up every fuel. *)
Lemma idb_importSettings_out_of_fuel fuel (data st : gmap string value) w :
  data !! "settings" = Some (VObj st) -> ready w -> storeRecords w STORES.SETTINGS = ∅ ->
  DataExportRepository.importSettings IndexedDB.module fuel (VObj data) w = OutOfFuel.
Proof.
  intros Hst Hr Hempty. unfold DataExportRepository.importSettings.
  rewrite get_prop_obj by reflexivity. rewrite Hst, bind_lift_Ok.
  cbn [from_option Datatypes.id truthy].
  rewrite get_prop_obj by reflexivity. rewrite bind_lift_Ok.
  apply bind_OutOfFuel. apply idb_settings_out_of_fuel; [exact Hr|].
  unfold settingsAbsent. by rewrite Hempty.
Qed.

Lemma idb_import_section n section recs w :
  isStore n -> sectionImports section recs -> ready w -> storeRecords w n = ∅ ->
  exists w',
    DataExportRepository.importRecords (Entity.create IndexedDB.module n) section w
    = Ret tt w'
    ∧ frame n w w' ∧ storeRecords w' n = recs.
Proof.
  intros Hn Hs Hr Hempty. destruct Hs as [v Hv|l Hl Hnd].
  - exists w. split; [by apply importRecords_not_array|]. split; [by apply frame_refl|done].
  - destruct (idb_import_list n l Hn Hl Hnd w ∅ Hr Hempty) as (w' & Hrun & Hf & Hstore).
    + intros e _. apply lookup_empty.
    + exists w'. split; [exact Hrun|]. split; [exact Hf|].
      by rewrite Hstore, (right_id_L ∅ (∪)).
Qed.

(** The records phase on sections that import. *)
Lemma idb_importRecordsPhase_sections (data : gmap string value) (E F : gmap key value) w :
  ready w ->
  sectionImports (default VUndef (data !! "exercises")) E ->
  sectionImports (default VUndef (data !! "foods")) F ->
  exists w',
    importRecordsPhase IndexedDB.module (VObj data) w = Ret tt w'
    ∧ ready w'
    ∧ storeRecords w' STORES.EXERCISES = E ∧ storeRecords w' STORES.FOODS = F
    ∧ storeRecords w' STORES.SETTINGS = ∅.
Proof.
  intros Hr HE HF. unfold importRecordsPhase.
  destruct (checkVersion_outcome data w) as (w1 & Hv & Hr1 & _).
  rewrite (bind_Ret _ _ _ _ _ Hv). specialize (Hr1 Hr).
  rewrite (bind_Ret _ _ _ _ _ (idb_clearAllData_ready w1 Hr1)).
  destruct (cleared_state w1 Hr1) as (Hr2 & E1 & E2 & E3 & _).
  set (w2 := putStore _ _ _) in *.
  destruct (idb_import_section STORES.EXERCISES _ E w2 isStore_exercises HE Hr2 E1)
    as (w3 & Hrun3 & (Hr3 & Hf3 & _) & Hs3).
  destruct (idb_import_section STORES.FOODS _ F w3 isStore_foods HF Hr3)
    as (w4 & Hrun4 & (Hr4 & Hf4 & _) & Hs4).
  { by rewrite Hf3. }
  exists w4. split.
  - erewrite bind_Ret.
    2:{ unfold DataExportRepository.importExercises, ExerciseRepository.create.
        rewrite get_prop_obj by reflexivity. rewrite bind_lift_Ok. exact Hrun3. }
    unfold DataExportRepository.importFoods, FoodRepository.create.
    rewrite get_prop_obj by reflexivity. rewrite bind_lift_Ok. exact Hrun4.
  - split; [exact Hr4|]. split; [by rewrite Hf4|]. split; [exact Hs4|].
    by rewrite Hf4, Hf3.
Qed.

(** Without settings the import ends, and it leaves the settings store
    and the store of every skipped section cleared. *)
Lemma idb_importData_ends_without_settings fuel (data : gmap string value) w :
  ready w -> truthy (default VUndef (data !! "settings")) = false ->
  match DataExportRepository.importData IndexedDB.module fuel (VObj data) w with
  | Ret _ w' | Throw _ w' =>
      storeRecords w' STORES.SETTINGS = ∅
      ∧ (isArray (default VUndef (data !! "exercises")) = false ->
         storeRecords w' STORES.EXERCISES = ∅)
      ∧ (isArray (default VUndef (data !! "foods")) = false ->
         storeRecords w' STORES.FOODS = ∅)
  | OutOfFuel => False
  end.
Proof.
  intros Hr Hs. unfold DataExportRepository.importData.
  destruct (checkVersion_outcome data w) as (w1 & Hv & Hr1 & _).
  rewrite (bind_Ret _ _ _ _ _ Hv). specialize (Hr1 Hr).
  rewrite (bind_Ret _ _ _ _ _ (idb_clearAllData_ready w1 Hr1)).
  destruct (cleared_state w1 Hr1) as (Hr2 & E1 & E2 & E3 & _).
  set (w2 := putStore _ _ _) in *.
  assert (He : match DataExportRepository.importExercises IndexedDB.module (VObj data) w2 with
               | Ret _ w3 | Throw _ w3 =>
                   frame STORES.EXERCISES w2 w3
                   ∧ (isArray (default VUndef (data !! "exercises")) = false ->
                      storeRecords w3 STORES.EXERCISES = ∅)
               | OutOfFuel => False
               end).
  { destruct (isArray (default VUndef (data !! "exercises"))) eqn:Ha.
    - pose proof (importExercises_frame data w2 Hr2) as H.
      destruct (DataExportRepository.importExercises _ _ w2); [| |done]; by split.
    - rewrite (importExercises_not_array _ data w2 Ha). split; [by apply frame_refl|done]. }
  unfold bind at 1.
  destruct (DataExportRepository.importExercises _ _ w2) as [[] w3|e w3|]; [| |done].
  2:{ destruct He as ((_ & He & _) & Hskip). split; [by rewrite He|].
      split; [exact Hskip|]. intros _. by rewrite He. }
  destruct He as ((Hr3 & He & _) & Hskip).
  assert (Hf : match DataExportRepository.importFoods IndexedDB.module (VObj data) w3 with
               | Ret _ w4 | Throw _ w4 =>
                   frame STORES.FOODS w3 w4
                   ∧ (isArray (default VUndef (data !! "foods")) = false ->
                      storeRecords w4 STORES.FOODS = ∅)
               | OutOfFuel => False
               end).
  { destruct (isArray (default VUndef (data !! "foods"))) eqn:Ha.
    - pose proof (importFoods_frame data w3 Hr3) as H.
      destruct (DataExportRepository.importFoods _ _ w3); [| |done]; by split.
    - rewrite (importFoods_not_array _ data w3 Ha). split; [by apply frame_refl|].
      intros _. by rewrite He. }
  unfold bind at 1.
  destruct (DataExportRepository.importFoods _ _ w3) as [[] w4|e w4|]; [| |done].
  - destruct Hf as ((_ & Hf & _) & Hskip').
    rewrite importSettings_falsy by exact Hs.
    split; [by rewrite Hf, He|]. split; [|exact Hskip'].
    intros Ha. rewrite Hf by done. by apply Hskip.
  - destruct Hf as ((_ & Hf & _) & Hskip').
    split; [by rewrite Hf, He|]. split; [|exact Hskip'].
    intros Ha. rewrite Hf by done. by apply Hskip.
Qed.

(** Without settings, and on sections that import, the import resolves
    and leaves the records of the sections. *)
Lemma idb_importData_sections fuel (data : gmap string value) (E F : gmap key value) w :
  ready w -> truthy (default VUndef (data !! "settings")) = false ->
  sectionImports (default VUndef (data !! "exercises")) E ->
  sectionImports (default VUndef (data !! "foods")) F ->
  exists w',
    DataExportRepository.importData IndexedDB.module fuel (VObj data) w = Ret tt w'
    ∧ storeRecords w' STORES.EXERCISES = E ∧ storeRecords w' STORES.FOODS = F
    ∧ storeRecords w' STORES.SETTINGS = ∅.
Proof.
  intros Hr Hs HE HF. rewrite importData_phases.
  destruct (idb_importRecordsPhase_sections data E F w Hr HE HF)
    as (w' & Hrun & _ & E1 & E2 & E3).
  exists w'. rewrite (bind_Ret _ _ _ _ _ Hrun). split; [by apply importSettings_falsy|auto].
Qed.

(** With a settings object, and on sections that import, the import uses
    up every fuel. *)
Lemma idb_importData_settings_out_of_fuel fuel (data st : gmap string value)
    (E F : gmap key value) w :
  ready w -> data !! "settings" = Some (VObj st) ->
  sectionImports (default VUndef (data !! "exercises")) E ->
  sectionImports (default VUndef (data !! "foods")) F ->
  DataExportRepository.importData IndexedDB.module fuel (VObj data) w = OutOfFuel.
Proof.
  intros Hr Hst HE HF. rewrite importData_phases.
  destruct (idb_importRecordsPhase_sections data E F w Hr HE HF)
    as (w' & Hrun & Hr' & _ & _ & E3).
  rewrite (bind_Ret _ _ _ _ _ Hrun).
  by apply (idb_importSettings_out_of_fuel fuel data st).
Qed.

(** ** Settings once a record is stored *)

Lemma settingsRecord_lookup goal unit_ theme u k :
  settingsRecord goal unit_ theme u !! k
  = if decide (k = "dailyCalorieGoal") then Some goal
    else if decide (k = "weightUnit") then Some unit_
    else if decide (k = "theme") then Some theme
    else if decide (k = "updatedAt") then Some (VDate (Some u))
    else None.
Proof.
  unfold settingsRecord.
  repeat (case_decide; [subst k; by rewrite ?lookup_insert_eq, ?lookup_insert_ne by done
                       |rewrite lookup_insert_ne by done]).
  apply lookup_empty.
Qed.

Lemma settingsRecord_fields goal unit_ theme u :
  settingsRecord goal unit_ theme u !! "dailyCalorieGoal" = Some goal
  ∧ settingsRecord goal unit_ theme u !! "weightUnit" = Some unit_
  ∧ settingsRecord goal unit_ theme u !! "theme" = Some theme
  ∧ settingsRecord goal unit_ theme u !! "updatedAt" = Some (VDate (Some u))
  ∧ settingsRecord goal unit_ theme u !! "id" = None.
Proof. rewrite !settingsRecord_lookup. repeat split. Qed.

Lemma defaults_stamped w :
  <["updatedAt" := VDate (Some (w_now w))]> (spread (DEFAULT_USER_SETTINGS w))
  = settingsRecord (VNum 2000) (VStr "lbs") (VStr "system") (w_now w).
Proof.
  apply map_eq. intros k. rewrite settingsRecord_lookup.
  unfold DEFAULT_USER_SETTINGS. cbn [spread].
  destruct (decide (k = "updatedAt")) as [->|N1]; [by rewrite lookup_insert_eq|].
  rewrite lookup_insert_ne by done.
  repeat (case_decide; [subst k; by rewrite ?lookup_insert_eq, ?lookup_insert_ne by done
                       |rewrite lookup_insert_ne by done]).
  rewrite lookup_insert_ne by done. apply lookup_empty.
Qed.

Lemma settingsOf_settingsRecord goal unit_ theme u x (m : gmap string value) :
  IsoDate.inRange u ->
  m !! "dailyCalorieGoal" = Some goal -> m !! "weightUnit" = Some unit_ ->
  m !! "theme" = Some theme ->
  settingsOf (<["updatedAt" := VStr (IsoDate.toISOString u)]> (<["id" := x]> m))
  = settingsRecord goal unit_ theme u.
Proof.
  intros Hu Hg Hw Ht. unfold settingsOf, settingsRecord.
  rewrite lookup_insert_eq. do 6 rewrite lookup_insert_ne by done.
  rewrite Hg, Hw, Ht. cbn [from_option Datatypes.id]. by rewrite new_Date_iso.
Qed.

Lemma settingsOf_id (s : gmap string value) : settingsOf s !! "id" = None.
Proof. unfold settingsOf. by rewrite !lookup_insert_ne. Qed.

(** The record [serialize] makes of settings. *)
Lemma settings_serialize (m : gmap string value) t :
  m !! "updatedAt" = Some (VDate (Some t)) ->
  UserSettingsRepository.serialize (VObj m)
  = Ok (VObj (<["updatedAt" := VStr (IsoDate.toISOString t)]>
             (m ∪ <["id" := VStr UserSettingsRepository.SETTINGS_ID]> ∅))).
Proof.
  intros H. unfold UserSettingsRepository.serialize.
  rewrite get_prop_obj by reflexivity. by rewrite H.
Qed.

Lemma idb_settings_reset w : ready w ->
  let defaults := settingsRecord (VNum 2000) (VStr "lbs") (VStr "system") (w_now w) in
  let ser := <["updatedAt" := VStr (IsoDate.toISOString (w_now w))]>
               (defaults ∪ <["id" := VStr UserSettingsRepository.SETTINGS_ID]> ∅) in
  UserSettingsRepository.reset IndexedDB.module w
  = Ret (VObj defaults)
        (putStore STORES.SETTINGS
           (<[KStr UserSettingsRepository.SETTINGS_ID := VObj ser]>
              (storeRecords w STORES.SETTINGS)) w).
Proof.
  intros Hr defaults ser. unfold UserSettingsRepository.reset.
  unfold bind at 1. cbn [read]. unfold bind at 1. cbn [read].
  rewrite defaults_stamped. fold defaults.
  rewrite lift_bind, (settings_serialize defaults (w_now w)).
  2:{ subst defaults. by rewrite settingsRecord_lookup. }
  fold ser. cbn [db_update IndexedDB.module].
  erewrite bind_Ret; [reflexivity|].
  apply idb_update_ready; [exact Hr|apply isStore_settings|].
  apply keyOf_id. subst ser. rewrite lookup_insert_ne by done.
  rewrite lookup_union. subst defaults. rewrite settingsRecord_lookup. reflexivity.
Qed.

Lemma idb_settings_update_present fuel w (s p : gmap string value) k :
  ready w ->
  storeRecords w STORES.SETTINGS !! KStr UserSettingsRepository.SETTINGS_ID = Some (VObj s) ->
  let updated := <["updatedAt" := VDate (Some (w_now w))]> (p ∪ settingsOf s) in
  let ser := <["updatedAt" := VStr (IsoDate.toISOString (w_now w))]>
               (updated ∪ <["id" := VStr UserSettingsRepository.SETTINGS_ID]> ∅) in
  IndexedDB.keyOf (VObj ser) = Some k ->
  UserSettingsRepository.update IndexedDB.module (S (S fuel)) (VObj p) w
  = Ret (VObj updated)
        (putStore STORES.SETTINGS (<[k := VObj ser]> (storeRecords w STORES.SETTINGS)) w).
Proof.
  intros Hr Hs updated ser Hk.
  cbn [UserSettingsRepository.update].
  rewrite (bind_Ret _ _ _ _ _ (idb_settings_get_present fuel w s Hr Hs)).
  unfold bind at 1. cbn [read spread]. rewrite (proj1 (opened_fields w)).
  unfold merge. fold updated.
  rewrite lift_bind, (settings_serialize updated (w_now w))
    by (subst updated; apply lookup_insert_eq).
  fold ser. cbn [db_update IndexedDB.module].
  erewrite bind_Ret; [cbn [ret]|].
  2:{ apply (idb_update_ready (opened w) _ _ k);
        [by apply ready_opened|apply isStore_settings|exact Hk]. }
  by rewrite putStore_opened, storeRecords_opened.
Qed.

(** ** Export, then import: what is handed to the settings write *)




(** * The claims *)

(** C1. On an empty settings store [get] is meant to return and persist
    the default record. In the code [get] calls [update] to write the
    defaults and [update] starts by calling [get]: on a store without the
    settings record no run of [get] ever returns a record, whatever the
    fuel, and where the engine is ready every run uses up its fuel. *)
Theorem settings_get_on_empty_store_never_returns (fuel : nat) (w : world)
    (Hempty : settingsAbsent w) :
  (forall v w', UserSettingsRepository.get IndexedDB.module fuel w ≠ Ret v w')
  ∧ (ready w -> UserSettingsRepository.get IndexedDB.module fuel w = OutOfFuel).
Proof.
  split.
  - apply (idb_settings_never_return fuel w Hempty).
  - intros Hr. apply (idb_settings_out_of_fuel fuel w Hr Hempty).
Qed.

Lemma settings_get_on_empty_store_never_returns_witness :
  settingsAbsent Examples.browser
  ∧ (forall v w',
       UserSettingsRepository.get IndexedDB.module 1000 Examples.browser ≠ Ret v w').
Proof.
  assert (H : settingsAbsent Examples.browser) by reflexivity.
  split; [exact H|].
  exact (proj1 (settings_get_on_empty_store_never_returns 1000 Examples.browser H)).
Defined.

(** C9. For the three entities, [deserialize] applied to the result of
    [serialize] gives the entity back: every date field is stored as its
    ISO-8601 text and read back to the same time value, and every other
    property (the sets of an exercise among them) is stored unchanged. *)
Theorem serialize_deserialize_roundtrip (e : gmap string value) (d c u : Z)
    (goal unit_ theme : value) (su : Z)
    (Hd : holdsDate e "date" d) (Hc : holdsDate e "createdAt" c)
    (Hu : holdsDate e "updatedAt" u) (Hsu : IsoDate.inRange su) :
  (exists s : gmap string value,
     ExerciseRepository.serialize (VObj e) = Ok (VObj s)
     ∧ holdsIso s "date" d ∧ holdsIso s "createdAt" c ∧ holdsIso s "updatedAt" u
     ∧ s !! "sets" = e !! "sets"
     ∧ (forall k, k ≠ "date" -> k ≠ "createdAt" -> k ≠ "updatedAt" -> s !! k = e !! k)
     ∧ ExerciseRepository.deserialize (VObj s) = Ok (VObj e))
  ∧ (exists s : gmap string value,
     FoodRepository.serialize (VObj e) = Ok (VObj s)
     ∧ holdsIso s "date" d ∧ holdsIso s "createdAt" c ∧ holdsIso s "updatedAt" u
     ∧ (forall k, k ≠ "date" -> k ≠ "createdAt" -> k ≠ "updatedAt" -> s !! k = e !! k)
     ∧ FoodRepository.deserialize (VObj s) = Ok (VObj e))
  ∧ (exists r : gmap string value,
     UserSettingsRepository.serialize (VObj (settingsRecord goal unit_ theme su))
       = Ok (VObj r)
     ∧ holdsIso r "updatedAt" su
     ∧ UserSettingsRepository.deserialize (VObj r)
       = Ok (VObj (settingsRecord goal unit_ theme su))).
Proof.
  destruct (entity_roundtrip e d c u Hd Hc Hu) as (s & Hs & Sd & Sc & Su & Hk & Hr).
  split; [|split].
  - exists s. repeat split; try assumption; try (apply Sd || apply Sc || apply Su).
    by apply Hk.
  - exists s. repeat split; try assumption; try (apply Sd || apply Sc || apply Su).
  - apply settings_roundtrip. exact Hsu.
Qed.

Lemma serialize_deserialize_roundtrip_witness :
  holdsDate Examples.benchPress "date" 1704067200000
  ∧ holdsDate Examples.benchPress "createdAt" 1704070000000
  ∧ holdsDate Examples.benchPress "updatedAt" 1704070000000
  ∧ IsoDate.inRange 1704067100000
  ∧ exists s : gmap string value,
      ExerciseRepository.serialize (VObj Examples.benchPress) = Ok (VObj s)
      ∧ s !! "date" = Some (VStr "2024-01-01T00:00:00.000Z")
      ∧ ExerciseRepository.deserialize (VObj s) = Ok (VObj Examples.benchPress).
Proof.
  assert (Hd : holdsDate Examples.benchPress "date" 1704067200000)
    by (split; [reflexivity | unfold IsoDate.inRange, IsoDate.maxTime; lia]).
  assert (Hc : holdsDate Examples.benchPress "createdAt" 1704070000000)
    by (split; [reflexivity | unfold IsoDate.inRange, IsoDate.maxTime; lia]).
  assert (Hs : IsoDate.inRange 1704067100000)
    by (unfold IsoDate.inRange, IsoDate.maxTime; lia).
  split; [exact Hd|]. split; [exact Hc|]. split; [exact Hc|]. split; [exact Hs|].
  destruct (serialize_deserialize_roundtrip Examples.benchPress _ _ _
              (VNum 2000) (VStr "lbs") (VStr "system") _ Hd Hc Hc Hs)
    as [(s & H1 & H2 & _ & _ & _ & _ & H3) _].
  exists s. split; [exact H1|]. split; [exact (proj1 H2)|exact H3].
Defined.

(** C3. [getRepositories] builds its container once and then returns the
    same objects, but the repositories are not bound to the engine that
    [detectStorageType] selects: each repository file imports
    [./indexedDB]. In a browser without IndexedDB the first call records
    the storage type [localstorage] while all repositories stay bound to
    the IndexedDB module, whose operations reject there. *)
Theorem getRepositories_ignores_detected_backend (w : world)
    (Hfirst : w_repositoryContainer w = None)
    (Hwindow : w_window w = true) (Hidb : w_indexedDB w = false) :
  exists c w1,
    StorageFactory.getRepositories w = Ret c w1
    ∧ StorageFactory.getRepositories w1 = Ret c w1
    ∧ storageType c = localstorage
    ∧ binding (exerciseRepository c) = IndexedDBModule
    ∧ binding (foodRepository c) = IndexedDBModule
    ∧ binding (userSettingsRepository c) = IndexedDBModule
    ∧ ExerciseRepository.getAll (resolve (binding (exerciseRepository c))) w1
      = Throw ReferenceError w1
    ∧ FoodRepository.getAll (resolve (binding (foodRepository c))) w1
      = Throw ReferenceError w1.
Proof.
  destruct (createRepositories_first w Hfirst) as (c & Hc & Ht & He & Hf & Hs & _).
  exists c, (set_factory (w_nextRef w + 7)%nat (Some c) w).
  split; [exact Hc|]. split; [by apply (getRepositories_once w c)|].
  split.
  { rewrite Ht. unfold StorageFactory.detectStorageType, IndexedDB.isIndexedDBAvailable.
    by rewrite Hwindow, Hidb. }
  split; [exact He|]. split; [exact Hf|]. split; [exact Hs|].
  rewrite He, Hf. cbn [resolve]. split.
  - unfold ExerciseRepository.getAll, Entity.getAll. cbn [db_getAll IndexedDB.module].
    unfold IndexedDB.getAll. unfold bind at 1. by rewrite idb_unreachable.
  - unfold FoodRepository.getAll, Entity.getAll. cbn [db_getAll IndexedDB.module].
    unfold IndexedDB.getAll. unfold bind at 1. by rewrite idb_unreachable.
Qed.

Lemma getRepositories_ignores_detected_backend_witness :
  exists c w1,
    StorageFactory.getRepositories Examples.legacyBrowser = Ret c w1
    ∧ storageType c = localstorage
    ∧ binding (exerciseRepository c) = IndexedDBModule.
Proof.
  destruct (getRepositories_ignores_detected_backend Examples.legacyBrowser
              eq_refl eq_refl eq_refl) as (c & w1 & H1 & _ & H2 & H3 & _).
  exists c, w1. auto.
Defined.

(** C4 fails on the degraded engine: a read maps a text that is not JSON
    to an empty result and raises nothing. *)
Lemma degraded_read_of_unparseable_text_is_empty :
  LocalStorage.getAll STORES.EXERCISES Examples.corruptStore
  = Ret [] Examples.corruptStore.
Proof. reflexivity. Qed.

(** C4, amended. On the degraded engine a store whose text is not JSON is
    read as the empty object: [getById] resolves to what an empty object
    holds under the identifier ([null], unless the identifier names an
    inherited property), [getAll], [getByIndex] and [getByIndexRange]
    resolve to the empty list, none of them raises and the state is left
    unchanged. *)
Theorem degraded_reads_unparseable_store_as_empty (w : world) (n s : string)
    (Hraw : w_localStorage w !! LocalStorage.getStoreKey n = Some (RawText s)) :
  (forall id, LocalStorage.getById n id w = Ret (or_null (inheritedValue id)) w)
  ∧ LocalStorage.getAll n w = Ret [] w
  ∧ (forall i v, LocalStorage.getByIndex n i v w = Ret [] w)
  ∧ (forall i lo hi, LocalStorage.getByIndexRange n i lo hi w = Ret [] w).
Proof. exact (ls_reads_raw w n s Hraw). Qed.

Lemma degraded_reads_unparseable_store_as_empty_witness :
  w_localStorage Examples.corruptStore !! LocalStorage.getStoreKey STORES.EXERCISES
    = Some (RawText "{not json")
  ∧ LocalStorage.getById STORES.EXERCISES "ex-1" Examples.corruptStore
    = Ret VNull Examples.corruptStore.
Proof.
  split; [reflexivity|].
  exact (proj1 (degraded_reads_unparseable_store_as_empty Examples.corruptStore
                  STORES.EXERCISES "{not json" eq_refl) "ex-1").
Defined.

Lemma ready_browser : ready Examples.browser.
Proof. split; [split; reflexivity|exact I]. Qed.

(** C6. After a [create] that succeeded, a second [create] of an entity
    with the same identifier is rejected with the engine's duplicate
    error, on the durable and on the degraded engine, for exercises and
    for food entries; the state is unchanged and the first record is still
    stored with its values. *)
Theorem create_twice_rejects_duplicate (e1 e2 : gmap string value) (id : string)
    (d c u : Z)
    (Hid1 : e1 !! "id" = Some (VStr id)) (Hid2 : e2 !! "id" = Some (VStr id))
    (Hd : holdsDate e2 "date" d) (Hc : holdsDate e2 "createdAt" c)
    (Hu : holdsDate e2 "updatedAt" u) :
  (forall w w1 v, ready w ->
     ExerciseRepository.create IndexedDB.module (VObj e1) w = Ret v w1 ->
     exists s1, ExerciseRepository.serialize (VObj e1) = Ok s1
       ∧ storeRecords w1 STORES.EXERCISES !! KStr id = Some s1
       ∧ ExerciseRepository.create IndexedDB.module (VObj e2) w1
         = Throw (Error "Failed to add item to exercises") w1)
  ∧ (forall w w1 v, w_window w = true ->
     ExerciseRepository.create LocalStorage.module (VObj e1) w = Ret v w1 ->
     exists s1, ExerciseRepository.serialize (VObj e1) = Ok s1
       ∧ storeData w1 STORES.EXERCISES !! id = Some (json_clone s1)
       ∧ ExerciseRepository.create LocalStorage.module (VObj e2) w1
         = Throw (Error ("Item with id " +:+ id +:+ " already exists")) w1)
  ∧ (forall w w1 v, ready w ->
     FoodRepository.create IndexedDB.module (VObj e1) w = Ret v w1 ->
     exists s1, FoodRepository.serialize (VObj e1) = Ok s1
       ∧ storeRecords w1 STORES.FOODS !! KStr id = Some s1
       ∧ FoodRepository.create IndexedDB.module (VObj e2) w1
         = Throw (Error "Failed to add item to foods") w1)
  ∧ (forall w w1 v, w_window w = true ->
     FoodRepository.create LocalStorage.module (VObj e1) w = Ret v w1 ->
     exists s1, FoodRepository.serialize (VObj e1) = Ok s1
       ∧ storeData w1 STORES.FOODS !! id = Some (json_clone s1)
       ∧ FoodRepository.create LocalStorage.module (VObj e2) w1
         = Throw (Error ("Item with id " +:+ id +:+ " already exists")) w1).
Proof.
  split; [|split; [|split]].
  - intros w w1 v Hr H.
    apply (idb_create_twice _ w w1 v e1 e2 id d c u Hr isStore_exercises Hid1 Hid2 Hd Hc Hu H).
  - intros w w1 v Hw H.
    apply (ls_create_twice _ w w1 v e1 e2 id d c u Hw Hid1 Hid2 Hd Hc Hu H).
  - intros w w1 v Hr H.
    apply (idb_create_twice _ w w1 v e1 e2 id d c u Hr isStore_foods Hid1 Hid2 Hd Hc Hu H).
  - intros w w1 v Hw H.
    apply (ls_create_twice _ w w1 v e1 e2 id d c u Hw Hid1 Hid2 Hd Hc Hu H).
Qed.

Lemma benchPress_dates :
  holdsDate Examples.benchPress "date" 1704067200000
  ∧ holdsDate Examples.benchPress "createdAt" 1704070000000
  ∧ holdsDate Examples.benchPress "updatedAt" 1704070000000.
Proof.
  repeat split; try reflexivity; unfold IsoDate.maxTime; lia.
Qed.

Lemma create_benchPress :
  ExerciseRepository.create IndexedDB.module (VObj Examples.benchPress) Examples.browser
  = Ret (VObj Examples.benchPress) Examples.stocked.
Proof. vm_compute. reflexivity. Qed.

Lemma create_twice_rejects_duplicate_witness :
  Examples.benchPress !! "id" = Some (VStr "ex-1")
  ∧ ExerciseRepository.create IndexedDB.module (VObj Examples.benchPress) Examples.stocked
    = Throw (Error "Failed to add item to exercises") Examples.stocked.
Proof.
  split; [reflexivity|].
  destruct benchPress_dates as (Hd & Hc & Hu).
  destruct (proj1 (create_twice_rejects_duplicate Examples.benchPress Examples.benchPress
                     "ex-1" _ _ _ eq_refl eq_refl Hd Hc Hu)
              Examples.browser Examples.stocked _ ready_browser create_benchPress)
    as (s1 & _ & _ & H).
  exact H.
Defined.

(** C5 fails: a partial update that carries a creation time replaces the
    stored one, and [updatedAt] becomes the time of the call even when the
    stored [updatedAt] is later than the clock. *)
Lemma update_overwrites_createdAt :
  exists upd w',
    storeRecords Examples.stocked STORES.EXERCISES !! KStr "ex-1"
      = Some (VObj Examples.benchPressStored)
    ∧ ExerciseRepository.update IndexedDB.module "ex-1" (VObj Examples.backdate)
        Examples.stocked = Ret upd w'
    ∧ get_prop upd "createdAt" = Ok (VDate (Some 0))
    ∧ get_prop upd "updatedAt" = Ok (VDate (Some 1704067200000))
    ∧ Examples.benchPress !! "updatedAt" = Some (VDate (Some 1704070000000))
    ∧ (exists ser : gmap string value,
         storeRecords w' STORES.EXERCISES !! KStr "ex-1" = Some (VObj ser)
         ∧ ser !! "createdAt" = Some (VStr "1970-01-01T00:00:00.000Z")).
Proof.
  eexists _, _. split; [vm_compute; reflexivity|].
  split; [vm_compute; reflexivity|]. split; [vm_compute; reflexivity|].
  split; [vm_compute; reflexivity|]. split; [vm_compute; reflexivity|].
  eexists. split; vm_compute; reflexivity.
Qed.

(** C5, amended. [update(id, partial)] on a stored exercise or food entry
    never changes the identifier, even when the partial carries one, and
    sets [updatedAt] to the time of the call, which is not earlier than the
    previous [updatedAt] whenever that one is not ahead of the clock;
    [createdAt] is kept when the partial has no [createdAt] property and is
    replaced by the partial's otherwise. The stored record carries the same
    three values. *)
Theorem update_keeps_id_and_stamps_time (w : world) (id : string)
    (r p : gmap string value) (d c u d' c' : Z)
    (Hready : ready w)
    (Hd : holdsIso r "date" d) (Hc : holdsIso r "createdAt" c)
    (Hu : holdsIso r "updatedAt" u)
    (Hd' : dateAfter p "date" d = Some d') (Hc' : dateAfter p "createdAt" c = Some c') :
  (storeRecords w STORES.EXERCISES !! KStr id = Some (VObj r) ->
   exists (upd ser : gmap string value) w',
     ExerciseRepository.update IndexedDB.module id (VObj p) w = Ret (VObj upd) w'
     ∧ storeRecords w' STORES.EXERCISES !! KStr id = Some (VObj ser)
     ∧ upd !! "id" = Some (VStr id) ∧ ser !! "id" = Some (VStr id)
     ∧ upd !! "updatedAt" = Some (VDate (Some (w_now w)))
     ∧ ser !! "updatedAt" = Some (VStr (IsoDate.toISOString (w_now w)))
     ∧ upd !! "createdAt" = Some (VDate (Some c'))
     ∧ ser !! "createdAt" = Some (VStr (IsoDate.toISOString c')))
  ∧ (storeRecords w STORES.FOODS !! KStr id = Some (VObj r) ->
   exists (upd ser : gmap string value) w',
     FoodRepository.update IndexedDB.module id (VObj p) w = Ret (VObj upd) w'
     ∧ storeRecords w' STORES.FOODS !! KStr id = Some (VObj ser)
     ∧ upd !! "id" = Some (VStr id) ∧ ser !! "id" = Some (VStr id)
     ∧ upd !! "updatedAt" = Some (VDate (Some (w_now w)))
     ∧ ser !! "updatedAt" = Some (VStr (IsoDate.toISOString (w_now w)))
     ∧ upd !! "createdAt" = Some (VDate (Some c'))
     ∧ ser !! "createdAt" = Some (VStr (IsoDate.toISOString c')))
  ∧ (p !! "createdAt" = None -> c' = c).
Proof.
  split; [|split].
  - intros Hs.
    destruct (idb_entity_update STORES.EXERCISES "Exercise" w id r p d c u d' c'
                Hready isStore_exercises Hs Hd Hc Hu Hd' Hc')
      as (upd & ser & H & A1 & A2 & A3 & B1 & B2 & B3).
    exists upd, ser. eexists. split; [exact H|].
    rewrite storeRecords_putStore_eq by (exact Hready || apply isStore_exercises).
    rewrite lookup_insert_eq. auto 10.
  - intros Hs.
    destruct (idb_entity_update STORES.FOODS "Food entry" w id r p d c u d' c'
                Hready isStore_foods Hs Hd Hc Hu Hd' Hc')
      as (upd & ser & H & A1 & A2 & A3 & B1 & B2 & B3).
    exists upd, ser. eexists. split; [exact H|].
    rewrite storeRecords_putStore_eq by (exact Hready || apply isStore_foods).
    rewrite lookup_insert_eq. auto 10.
  - intros Hp. unfold dateAfter in Hc'. rewrite Hp in Hc'. by inversion Hc'.
Qed.

Lemma ready_stocked : ready Examples.stocked.
Proof.
  replace Examples.stocked
    with (putStore STORES.EXERCISES
            (<[KStr "ex-1" := VObj Examples.benchPressStored]> ∅) Examples.browser)
    by (vm_compute; reflexivity).
  apply ready_putStore; [exact ready_browser|apply isStore_exercises].
Qed.

Lemma benchPressStored_dates :
  holdsIso Examples.benchPressStored "date" 1704067200000
  ∧ holdsIso Examples.benchPressStored "createdAt" 1704070000000
  ∧ holdsIso Examples.benchPressStored "updatedAt" 1704070000000.
Proof.
  repeat split; try (vm_compute; reflexivity); unfold IsoDate.maxTime; lia.
Qed.

Lemma update_keeps_id_and_stamps_time_witness :
  ready Examples.stocked
  ∧ dateAfter Examples.backdate "createdAt" 1704070000000 = Some 0
  ∧ exists (upd ser : gmap string value) w',
      ExerciseRepository.update IndexedDB.module "ex-1" (VObj Examples.backdate)
        Examples.stocked = Ret (VObj upd) w'
      ∧ upd !! "id" = Some (VStr "ex-1")
      ∧ ser !! "createdAt" = Some (VStr (IsoDate.toISOString 0)).
Proof.
  split; [exact ready_stocked|]. split; [reflexivity|].
  destruct benchPressStored_dates as (Hd & Hc & Hu).
  destruct (proj1 (update_keeps_id_and_stamps_time Examples.stocked "ex-1"
                     Examples.benchPressStored Examples.backdate _ _ _ 1704067200000 0
                     ready_stocked Hd Hc Hu eq_refl eq_refl))
    as (upd & ser & w' & H & _ & H1 & _ & _ & _ & _ & H2).
  { vm_compute. reflexivity. }
  exists upd, ser, w'. auto.
Defined.

(** C7 fails past the year 9999, where the ISO text gets a sign and six
    digits and no longer sorts like the time: for the range from noon of
    9999-12-31 to noon of the next day the lower bound text is greater than
    the upper one. The exercise of 9999-12-31, which lies in the interval,
    is not returned; the durable engine rejects the range and the degraded
    engine returns nothing. *)
Lemma getByDateRange_fails_past_year_9999 :
  (exists r, storeRecords Examples.lateDurable STORES.EXERCISES !! KStr "ex-late" = Some r
     ∧ storeData Examples.lateDegraded STORES.EXERCISES !! "ex-late" = Some r
     ∧ recordTime r = Some Examples.lastNoon)
  ∧ @startOfDay Examples.utc Examples.lastNoon <= Examples.lastNoon
      <= @endOfDay Examples.utc (Examples.lastNoon + IsoDate.msPerDay)
  ∧ @ExerciseRepository.getByDateRange Examples.utc IndexedDB.module
      (VDate (Some Examples.lastNoon))
      (VDate (Some (Examples.lastNoon + IsoDate.msPerDay))) Examples.lateDurable
    = Throw (DOMException "DataError") Examples.lateDurable
  ∧ @ExerciseRepository.getByDateRange Examples.utc LocalStorage.module
      (VDate (Some Examples.lastNoon))
      (VDate (Some (Examples.lastNoon + IsoDate.msPerDay))) Examples.lateDegraded
    = Ret [] Examples.lateDegraded.
Proof.
  split; [eexists; repeat split; vm_compute; reflexivity|].
  split; [vm_compute; split; discriminate|].
  split; vm_compute; reflexivity.
Qed.

(** C7, amended. When the bounds [startOfDay(d1)] and [endOfDay(d2)] and
    the dates of the stored records have years from 0000 to 9999, for
    [d1 <= d2], [getByDateRange(d1, d2)] returns exactly the stored records
    whose date lies in the inclusive interval from [startOfDay(d1)] to
    [endOfDay(d2)], deserialized; the durable and the degraded engine
    return the same records (the durable one in index order). *)
Theorem getByDateRange_within_four_digit_years {L : LocalDay}
    (recs : gmap string value) (t1 t2 : Z) (wd wl : world)
    (Hrecs : forall id r, recs !! id = Some r -> isoDated r)
    (Hlo : IsoDate.fourDigitYear (startOfDay t1))
    (Hhi : IsoDate.fourDigitYear (endOfDay t2))
    (Horder : t1 <= t2)
    (Hdurable : ready wd) (Hdegraded : w_window wl = true) :
  (storeRecords wd STORES.EXERCISES = kmap KStr recs ->
   storeData wl STORES.EXERCISES = recs ->
   exists l,
     ExerciseRepository.getByDateRange IndexedDB.module
       (VDate (Some t1)) (VDate (Some t2)) wd = Ret (deserialized <$> l) (opened wd)
     ∧ l ≡ₚ recordsBetween (startOfDay t1) (endOfDay t2) (LocalStorage.values recs)
     ∧ ExerciseRepository.getByDateRange LocalStorage.module
         (VDate (Some t1)) (VDate (Some t2)) wl
       = Ret (deserialized <$> recordsBetween (startOfDay t1) (endOfDay t2)
                                 (LocalStorage.values recs)) wl)
  ∧ (storeRecords wd STORES.FOODS = kmap KStr recs ->
     storeData wl STORES.FOODS = recs ->
     exists l,
       FoodRepository.getByDateRange IndexedDB.module
         (VDate (Some t1)) (VDate (Some t2)) wd = Ret (deserialized <$> l) (opened wd)
       ∧ l ≡ₚ recordsBetween (startOfDay t1) (endOfDay t2) (LocalStorage.values recs)
       ∧ FoodRepository.getByDateRange LocalStorage.module
           (VDate (Some t1)) (VDate (Some t2)) wl
         = Ret (deserialized <$> recordsBetween (startOfDay t1) (endOfDay t2)
                                   (LocalStorage.values recs)) wl).
Proof.
  split; intros Hs Hd.
  - destruct (durable_getByDateRange STORES.EXERCISES recs t1 t2 isStore_exercises)
      with (w := wd) as (l & H1 & H2); try assumption.
    { intros s0 H. vm_compute in H. inversion H. set_solver. }
    exists l. split; [exact H1|]. split; [exact H2|].
    by apply (degraded_getByDateRange STORES.EXERCISES recs t1 t2).
  - destruct (durable_getByDateRange STORES.FOODS recs t1 t2 isStore_foods)
      with (w := wd) as (l & H1 & H2); try assumption.
    { intros s0 H. vm_compute in H. inversion H. set_solver. }
    exists l. split; [exact H1|]. split; [exact H2|].
    by apply (degraded_getByDateRange STORES.FOODS recs t1 t2).
Qed.

Lemma benchPressRecords_isoDated id r :
  Examples.benchPressRecords !! id = Some r -> isoDated r.
Proof.
  unfold Examples.benchPressRecords. intros H.
  apply lookup_insert_Some in H as [[_ <-]|[_ H]]; [|by rewrite lookup_empty in H].
  exists Examples.benchPressStored, 1704067200000.
  split; [reflexivity|]. split; [vm_compute; reflexivity|].
  unfold IsoDate.fourDigitYear, IsoDate.yearZeroStart, IsoDate.year9999End. lia.
Qed.

Lemma getByDateRange_within_four_digit_years_witness :
  ready Examples.stocked
  ∧ w_window Examples.stockedDegraded = true
  ∧ IsoDate.fourDigitYear (@startOfDay Examples.utc 1704067200000)
  ∧ IsoDate.fourDigitYear (@endOfDay Examples.utc 1704067200000)
  ∧ exists l,
      @ExerciseRepository.getByDateRange Examples.utc IndexedDB.module
        (VDate (Some 1704067200000)) (VDate (Some 1704067200000)) Examples.stocked
      = Ret (deserialized <$> l) (opened Examples.stocked)
      ∧ l ≡ₚ recordsBetween (@startOfDay Examples.utc 1704067200000)
               (@endOfDay Examples.utc 1704067200000)
               (LocalStorage.values Examples.benchPressRecords).
Proof.
  assert (Hlo : IsoDate.fourDigitYear (@startOfDay Examples.utc 1704067200000))
    by (vm_compute; split; discriminate).
  assert (Hhi : IsoDate.fourDigitYear (@endOfDay Examples.utc 1704067200000))
    by (vm_compute; split; discriminate).
  split; [exact ready_stocked|]. split; [reflexivity|].
  split; [exact Hlo|]. split; [exact Hhi|].
  destruct (proj1 (@getByDateRange_within_four_digit_years Examples.utc
                     Examples.benchPressRecords 1704067200000 1704067200000
                     Examples.stocked Examples.stockedDegraded
                     benchPressRecords_isoDated Hlo Hhi (Z.le_refl _)
                     ready_stocked eq_refl))
    as (l & H1 & H2 & _).
  - vm_compute. reflexivity.
  - vm_compute. reflexivity.
  - exists l. split; assumption.
Defined.

Lemma ready_settled : ready Examples.settled.
Proof.
  replace Examples.settled
    with (set_now 1704153600000
            (putStore STORES.SETTINGS
               (<[KStr "user-settings" := VObj Examples.settingsStored]> ∅)
               Examples.stocked))
    by (vm_compute; reflexivity).
  apply ready_set_now, ready_putStore; [exact ready_stocked|apply isStore_settings].
Qed.

Lemma benchPressStored_entity : storedEntity (KStr "ex-1") (VObj Examples.benchPressStored).
Proof.
  destruct benchPressStored_dates as (Hd & Hc & Hu).
  exists Examples.benchPressStored, "ex-1"%string. eexists _, _, _.
  split; [reflexivity|]. split; [reflexivity|]. split; [reflexivity|].
  split; [exact Hd|]. split; [exact Hc|exact Hu].
Qed.

Lemma settled_exercises : storeOk Examples.settled STORES.EXERCISES.
Proof.
  unfold storeOk.
  replace (storeRecords Examples.settled STORES.EXERCISES)
    with (<[KStr "ex-1" := VObj Examples.benchPressStored]> (∅ : gmap key value))
    by (vm_compute; reflexivity).
  intros k v H. apply lookup_insert_Some in H as [[<- <-]|[_ H]];
    [exact benchPressStored_entity|by rewrite lookup_empty in H].
Qed.

Lemma settled_foods : storeOk Examples.settled STORES.FOODS.
Proof.
  unfold storeOk.
  replace (storeRecords Examples.settled STORES.FOODS) with (∅ : gmap key value)
    by (vm_compute; reflexivity).
  intros k v H. by rewrite lookup_empty in H.
Qed.

Lemma settled_settings :
  storeRecords Examples.settled STORES.SETTINGS !! KStr UserSettingsRepository.SETTINGS_ID
    = Some (VObj Examples.settingsStored)
  ∧ holdsIso Examples.settingsStored "updatedAt" 1704067200000.
Proof.
  split; [vm_compute; reflexivity|].
  split; [vm_compute; reflexivity|unfold IsoDate.inRange, IsoDate.maxTime; lia].
Qed.




(** C10 fails. Skipping a section does not make the import succeed. With
    an [exercises] section that is not an array and a settings object, no
    run of [importData] returns: after the stores are cleared the settings
    write runs into the loop of C1. With an [exercises] section that is not
    an array, no settings and a food record without dates, [importData]
    rejects with the [RangeError] of [serialize]. *)
Lemma importData_with_skipped_section_does_not_succeed :
  isArray (default VUndef (Examples.snapshotWithSettings !! "exercises")) = false
  ∧ (forall fuel,
       DataExportRepository.importData IndexedDB.module fuel
         (VObj Examples.snapshotWithSettings) Examples.settled = OutOfFuel)
  ∧ isArray (default VUndef (Examples.snapshotWithUndatedFood !! "exercises")) = false
  ∧ Examples.snapshotWithUndatedFood !! "settings" = None
  ∧ exists w',
      DataExportRepository.importData IndexedDB.module 0
        (VObj Examples.snapshotWithUndatedFood) Examples.settled = Throw RangeError w'.
Proof.
  split; [reflexivity|]. split; [|split; [reflexivity|split; [reflexivity|]]].
  - intros fuel.
    apply (idb_importData_settings_out_of_fuel fuel Examples.snapshotWithSettings
             (<["theme" := VStr "dark"]> ∅) ∅ (list_to_map []));
      [exact ready_settled|reflexivity|by apply section_skipped|].
    apply (section_records []); [by intros e He; apply elem_of_nil in He|constructor].
  - eexists. vm_compute. reflexivity.
Qed.

Lemma oatmealStored_entity :
  storedEntity (KStr "food-1") (VObj Examples.oatmealStored).
Proof.
  exists Examples.oatmealStored, "food-1"%string.
  exists 1704067200000, 1704070000000, 1704070000000.
  split; [reflexivity|]. split; [reflexivity|]. split; [reflexivity|].
  assert (Hr : forall t, 0 <= t <= 1704070000000 -> IsoDate.inRange t)
    by (intros t Ht; unfold IsoDate.inRange, IsoDate.maxTime; lia).
  repeat split; try (vm_compute; reflexivity); apply Hr; lia.
Qed.

(** C10, amended. A section of the snapshot that is not an array is
    skipped silently: its phase of [importData] returns at once, whatever
    the state, re-creates nothing and raises nothing. When the [settings]
    field is absent (or otherwise falsy) no settings write is attempted;
    the import then ends, resolved or rejected, with the settings store
    cleared and with the store of every skipped section cleared, and it
    resolves whenever each section either is skipped or is an array of
    records in stored form under distinct identifiers, leaving exactly
    those records. What the import does when [settings] is present is the
    matter of C1 and is not stated here. *)
Theorem importData_skips_missing_sections (fuel : nat) (data : gmap string value)
    (w : world) (Hready : ready w) :
  (isArray (default VUndef (data !! "exercises")) = false ->
     forall w0, DataExportRepository.importExercises IndexedDB.module (VObj data) w0
                = Ret tt w0)
  ∧ (isArray (default VUndef (data !! "foods")) = false ->
     forall w0, DataExportRepository.importFoods IndexedDB.module (VObj data) w0 = Ret tt w0)
  ∧ (truthy (default VUndef (data !! "settings")) = false ->
     (forall w0, DataExportRepository.importSettings IndexedDB.module fuel (VObj data) w0
                 = Ret tt w0)
     ∧ match DataExportRepository.importData IndexedDB.module fuel (VObj data) w with
       | Ret _ w' | Throw _ w' =>
           storeRecords w' STORES.SETTINGS = ∅
           ∧ (isArray (default VUndef (data !! "exercises")) = false ->
              storeRecords w' STORES.EXERCISES = ∅)
           ∧ (isArray (default VUndef (data !! "foods")) = false ->
              storeRecords w' STORES.FOODS = ∅)
       | OutOfFuel => False
       end
     ∧ forall E F : gmap key value,
         sectionImports (default VUndef (data !! "exercises")) E ->
         sectionImports (default VUndef (data !! "foods")) F ->
         exists w',
           DataExportRepository.importData IndexedDB.module fuel (VObj data) w = Ret tt w'
           ∧ storeRecords w' STORES.EXERCISES = E ∧ storeRecords w' STORES.FOODS = F
           ∧ storeRecords w' STORES.SETTINGS = ∅).
Proof.
  split; [intros H w0; by apply importExercises_not_array|].
  split; [intros H w0; by apply importFoods_not_array|].
  intros Hs. split; [intros w0; by apply importSettings_falsy|].
  split; [by apply idb_importData_ends_without_settings|].
  intros E F HE HF. by apply idb_importData_sections.
Qed.

Lemma importData_skips_missing_sections_witness :
  ready Examples.settled
  ∧ storeRecords Examples.settled STORES.EXERCISES !! KStr "ex-1"
    = Some (VObj Examples.benchPressStored)
  ∧ exists w',
      DataExportRepository.importData IndexedDB.module 0 (VObj Examples.foodsOnlySnapshot)
        Examples.settled = Ret tt w'
      ∧ storeRecords w' STORES.EXERCISES = ∅
      ∧ storeRecords w' STORES.FOODS
        = list_to_map [(KStr "food-1", VObj Examples.oatmealStored)]
      ∧ storeRecords w' STORES.SETTINGS = ∅.
Proof.
  split; [exact ready_settled|]. split; [vm_compute; reflexivity|].
  apply (proj2 (proj2 (proj2 (proj2
           (importData_skips_missing_sections 0 Examples.foodsOnlySnapshot Examples.settled
              ready_settled)) eq_refl))).
  - by apply section_skipped.
  - apply (section_records [(KStr "food-1", VObj Examples.oatmealStored)]).
    + intros e He. apply list_elem_of_singleton in He as ->. exact oatmealStored_entity.
    + apply NoDup_singleton.
Defined.

(** C8 fails: a lookup on an index the store does not declare is rejected
    by the durable engine and answered with the empty list by the degraded
    one, which filters on any property name. *)
Lemma engines_differ_on_undeclared_index :
  run IndexedDB.module Examples.queryUndeclaredIndex Examples.browser = [Rejected]
  ∧ run LocalStorage.module Examples.queryUndeclaredIndex Examples.browser = [Resolved []].
Proof. split; vm_compute; reflexivity. Qed.

(** C8, amended. For every finite sequence of storage-engine operations
    within the schema (a declared store; records that are objects with a
    string identifier, unchanged by a JSON round trip, whose indexed
    properties are strings where present; identifiers that do not name a
    property every object inherits; index lookups on a declared index with
    string values, range bounds in order), applied from the empty state, the durable and the degraded engine produce the same
    observations: each read returns the same records, up to their order,
    and one engine rejects an operation exactly when the other does. *)
Theorem engines_agree_within_schema (ops : list op) (w : world)
    (Hdurable : durable w) (Hdatabase : w_database w = None)
    (HlocalStorage : w_localStorage w = ∅) (Hops : Forall plainOp ops) :
  Forall2 sameObservation (run IndexedDB.module ops w) (run LocalStorage.module ops w).
Proof.
  apply run_parity; [|exact Hops]. by apply sameData_fresh.
Qed.

Lemma benchPressStored_plain : plainRecord STORES.EXERCISES (VObj Examples.benchPressStored).
Proof.
  exists Examples.benchPressStored, "ex-1"%string.
  split; [reflexivity|]. split; [reflexivity|]. split; [reflexivity|].
  split; [vm_compute; reflexivity|]. intros i Hi. right.
  replace (indexesOf STORES.EXERCISES) with ["name"; "date"]%string in Hi by reflexivity.
  apply elem_of_cons in Hi as [->|Hi]; [eexists; vm_compute; reflexivity|].
  apply elem_of_cons in Hi as [->|Hi]; [eexists; vm_compute; reflexivity|].
  by apply elem_of_nil in Hi.
Qed.

Lemma sampleOps_plain : Forall plainOp Examples.sampleOps.
Proof.
  assert (Hn : isStore STORES.EXERCISES) by apply isStore_exercises.
  assert (Hi : "name"%string ∈ indexesOf STORES.EXERCISES).
  { replace (indexesOf STORES.EXERCISES) with ["name"; "date"]%string by reflexivity.
    apply list_elem_of_here. }
  unfold Examples.sampleOps.
  repeat first [apply Forall_nil_2 | apply Forall_cons_2]; cbn [plainOp].
  - split; [exact Hn|exact benchPressStored_plain].
  - split; [exact Hn|exact benchPressStored_plain].
  - split; [exact Hn|]. split; [exact Hi|by eexists].
  - split; [exact Hn|reflexivity].
  - exact Hn.
  - exact Hn.
Qed.

Lemma engines_agree_within_schema_witness :
  durable Examples.browser
  ∧ Forall plainOp Examples.sampleOps
  ∧ Forall2 sameObservation (run IndexedDB.module Examples.sampleOps Examples.browser)
      (run LocalStorage.module Examples.sampleOps Examples.browser).
Proof.
  assert (Hd : durable Examples.browser) by (split; reflexivity).
  split; [exact Hd|]. split; [exact sampleOps_plain|].
  exact (engines_agree_within_schema Examples.sampleOps Examples.browser Hd eq_refl
           eq_refl sampleOps_plain).
Defined.

Example sampleOps_observed :
  run IndexedDB.module Examples.sampleOps Examples.browser
  = [Resolved [VObj Examples.benchPressStored]; Rejected;
     Resolved [VObj Examples.benchPressStored];
     Resolved [VObj Examples.benchPressStored]; Resolved []; Resolved []].
Proof. vm_compute. reflexivity. Qed.

(** Outside the schema of identifiers the engines differ as well: the
    degraded engine finds an inherited property under an identifier such as
    [constructor], so it rejects the first record created under it and
    answers a lookup with that property. *)
Example engines_differ_on_inherited_identifier :
  run IndexedDB.module Examples.addInheritedIdentifier Examples.browser
  = [Resolved [VObj (<["id" := VStr "constructor"]> Examples.benchPressStored)]]
  ∧ run LocalStorage.module Examples.addInheritedIdentifier Examples.browser = [Rejected]
  ∧ run IndexedDB.module Examples.getInheritedIdentifier Examples.browser
    = [Resolved [VNull]]
  ∧ run LocalStorage.module Examples.getInheritedIdentifier Examples.browser
    = [Resolved [VFunc "toString"]].
Proof. repeat split; vm_compute; reflexivity. Qed.
(** * Lemmas for the further properties *)


(** ** Sets and sorted arrays *)

Lemma strict_eq_eq a b : strict_eq a b = true -> a = b.
Proof.
  destruct a, b; cbn; try discriminate; try reflexivity.
  - intros H. apply Bool.eqb_prop in H. by subst.
  - intros H. apply Z.eqb_eq in H. by subst.
  - intros H. apply String.eqb_eq in H. by subst.
Qed.

Lemma Set_has_true s v : Set_has s v = true -> v ∈ s.
Proof.
  unfold Set_has. intros H. apply existsb_exists in H as (x & Hx & He).
  apply strict_eq_eq in He. subst x. by apply list_elem_of_In.
Qed.

Lemma Set_has_false s v : strict_eq v v = true -> Set_has s v = false -> v ∉ s.
Proof.
  unfold Set_has. intros Hv H Hin.
  assert (existsb (strict_eq v) s = true); [|congruence].
  apply existsb_exists. exists v. split; [by apply list_elem_of_In|exact Hv].
Qed.

Lemma Set_add_elem s v x : x ∈ Set_add s v ↔ x ∈ s ∨ x = v.
Proof.
  unfold Set_add. destruct (Set_has s v) eqn:E.
  - split; [auto|]. intros [H| ->]; [exact H|by apply Set_has_true].
  - rewrite elem_of_app, list_elem_of_singleton. reflexivity.
Qed.

Lemma Set_add_NoDup s v : strict_eq v v = true -> NoDup s -> NoDup (Set_add s v).
Proof.
  intros Hv Hs. unfold Set_add. destruct (Set_has s v) eqn:E; [exact Hs|].
  apply NoDup_app. split; [exact Hs|]. split; [|apply NoDup_singleton].
  intros x Hx Hx'. apply list_elem_of_singleton in Hx'. subst x.
  by apply (Set_has_false s v).
Qed.

Lemma Set_add_length s v :
  (List.length s <= List.length (Set_add s v) <= S (List.length s))%nat.
Proof.
  unfold Set_add. destruct (Set_has s v); [lia|]. rewrite length_app. cbn. lia.
Qed.

Lemma Set_add_prefix s v : exists t, Set_add s v = s ++ t.
Proof.
  unfold Set_add. destruct (Set_has s v); [exists []; by rewrite app_nil_r|by exists [v]].
Qed.

Lemma fold_Set_add_elem l : forall s x,
  x ∈ fold_left Set_add l s ↔ x ∈ s ∨ x ∈ l.
Proof.
  induction l as [|v l IH]; intros s x; cbn [fold_left].
  - rewrite elem_of_nil. tauto.
  - rewrite IH, Set_add_elem, elem_of_cons. tauto.
Qed.

Lemma fold_Set_add_NoDup l : forall s,
  Forall (fun v => strict_eq v v = true) l -> NoDup s -> NoDup (fold_left Set_add l s).
Proof.
  induction l as [|v l IH]; intros s Hl Hs; cbn [fold_left]; [exact Hs|].
  apply Forall_cons in Hl as [Hv Hl]. apply IH; [exact Hl|by apply Set_add_NoDup].
Qed.

Lemma new_Set_elem l x : x ∈ new_Set l ↔ x ∈ l.
Proof. unfold new_Set. rewrite fold_Set_add_elem, elem_of_nil. tauto. Qed.

Lemma new_Set_NoDup l : Forall (fun v => strict_eq v v = true) l -> NoDup (new_Set l).
Proof. intros H. apply fold_Set_add_NoDup; [exact H|apply NoDup_nil_2]. Qed.

(** Sorting with a comparator that does not throw on the elements, which
    all satisfy [P]. *)
Section Sorting.
Variable cmp : value -> value -> outcome bool.
Variable le : value -> value -> bool.
Variable P : value -> Prop.
Hypothesis cmp_le : forall x y, P x -> P y -> cmp x y = Ok (le x y).

Lemma insertSorted_perm x l : P x -> Forall P l ->
  exists r, insertSorted cmp x l = Ok r ∧ r ≡ₚ x :: l.
Proof.
  intros Hx. induction l as [|y l IH]; intros Hl; cbn [insertSorted]; [by eexists|].
  apply Forall_cons in Hl as [Hy Hl]. rewrite (cmp_le x y Hx Hy). cbn [obind].
  destruct (le x y); [by eexists|].
  destruct (IH Hl) as (r & -> & Hr). cbn [obind]. eexists. split; [reflexivity|].
  rewrite Hr. apply Permutation_swap.
Qed.

Lemma Array_sort_perm l : Forall P l -> exists r, Array_sort cmp l = Ok r ∧ r ≡ₚ l.
Proof.
  induction l as [|x l IH]; intros Hl; cbn [Array_sort]; [by eexists|].
  apply Forall_cons in Hl as [Hx Hl]. destruct (IH Hl) as (s & -> & Hs). cbn [obind].
  destruct (insertSorted_perm x s Hx) as (r & Hr & Hp).
  { by rewrite Hs. }
  exists r. split; [exact Hr|]. by rewrite Hp, Hs.
Qed.

Hypothesis le_total : forall x y, P x -> P y -> le x y = false -> le y x = true.
Hypothesis le_trans : forall x y z, P x -> P y -> P z ->
  le x y = true -> le y z = true -> le x z = true.

Lemma insertSorted_sorted x l : P x -> Forall P l ->
  StronglySorted (fun a b => le a b = true) l ->
  exists r, insertSorted cmp x l = Ok r ∧ r ≡ₚ x :: l
            ∧ StronglySorted (fun a b => le a b = true) r.
Proof.
  intros Hx. induction l as [|y l IH]; intros Hl Hs; cbn [insertSorted].
  { eexists. split; [reflexivity|]. split; [reflexivity|]. repeat constructor. }
  apply Forall_cons in Hl as [Hy Hl]. rewrite (cmp_le x y Hx Hy). cbn [obind].
  apply StronglySorted_inv in Hs as [Hs Hall].
  destruct (le x y) eqn:E.
  - eexists. split; [reflexivity|]. split; [reflexivity|].
    constructor; [by constructor|]. constructor; [exact E|].
    rewrite Forall_forall in Hall, Hl. apply Forall_forall. intros z Hz.
    apply (le_trans x y z); auto.
  - destruct (IH Hl Hs) as (r & -> & Hp & Hr). cbn [obind].
    eexists. split; [reflexivity|]. split; [rewrite Hp; apply Permutation_swap|].
    constructor; [exact Hr|]. rewrite Hp. constructor; [|exact Hall].
    by apply le_total.
Qed.

Lemma Array_sort_sorted l : Forall P l ->
  exists r, Array_sort cmp l = Ok r ∧ r ≡ₚ l
            ∧ StronglySorted (fun a b => le a b = true) r.
Proof.
  induction l as [|x l IH]; intros Hl; cbn [Array_sort].
  { eexists. split; [reflexivity|]. split; [reflexivity|constructor]. }
  apply Forall_cons in Hl as [Hx Hl]. destruct (IH Hl) as (s & -> & Hs & Hss). cbn [obind].
  destruct (insertSorted_sorted x s Hx) as (r & Hr & Hp & Hrs); [by rewrite Hs|exact Hss|].
  exists r. split; [exact Hr|]. split; [by rewrite Hp, Hs|exact Hrs].
Qed.

End Sorting.

(** ** The order of strings and keys *)

Lemma string_lt_trans a b c : string_lt a b -> string_lt b c -> string_lt a c.
Proof.
  unfold string_lt. intros H1 H2.
  apply OrderedTypeEx.String_as_OT.cmp_lt in H1, H2.
  apply OrderedTypeEx.String_as_OT.cmp_lt.
  by apply (OrderedTypeEx.String_as_OT.lt_trans a b c).
Qed.

Lemma string_compare_refl a : String.compare a a = Eq.
Proof. by apply OrderedTypeEx.String_as_OT.cmp_eq. Qed.

Lemma string_lt_irrefl a : ¬ string_lt a a.
Proof. unfold string_lt. by rewrite string_compare_refl. Qed.

Lemma string_compare_Gt a b : String.compare a b = Gt ↔ string_lt b a.
Proof.
  unfold string_lt. rewrite (String.compare_antisym b a).
  destruct (String.compare a b); cbn; intuition congruence.
Qed.

(** [a <= b] on strings, as the default comparator tests it. *)
Lemma string_le_cases a b :
  negb (String.ltb b a) = true ↔ string_lt a b ∨ a = b.
Proof.
  unfold String.ltb, string_lt. rewrite (String.compare_antisym b a).
  destruct (String.compare a b) eqn:E; cbn.
  - apply String.compare_eq_iff in E. intuition.
  - intuition.
  - split; [discriminate|]. intros [H| ->]; [discriminate|].
    by rewrite string_compare_refl in E.
Qed.

Lemma string_le_total a b :
  negb (String.ltb b a) = false -> negb (String.ltb a b) = true.
Proof.
  unfold String.ltb. rewrite (String.compare_antisym b a).
  by destruct (String.compare a b).
Qed.

Lemma string_le_trans a b c :
  negb (String.ltb b a) = true -> negb (String.ltb c b) = true ->
  negb (String.ltb c a) = true.
Proof.
  rewrite !string_le_cases. intros [H1| ->] [H2| ->]; auto.
  left. by apply (string_lt_trans a b c).
Qed.

(** A sorted list without repetitions is strictly sorted. *)
Lemma StronglySorted_strict {A} (R : relation A) (l : list A) :
  StronglySorted R l -> NoDup l -> StronglySorted (fun a b => R a b ∧ a ≠ b) l.
Proof.
  induction 1 as [|x l Hs IH Hall]; intros Hn; [constructor|].
  apply NoDup_cons in Hn as [Hx Hn]. constructor; [by apply IH|].
  rewrite Forall_forall in Hall. apply Forall_forall. intros y Hy.
  split; [by apply Hall|]. intros ->. contradiction.
Qed.

Lemma strings_of_values (l : list value) :
  Forall (fun v => exists s, v = VStr s) l -> exists ss, l = VStr <$> ss.
Proof.
  induction 1 as [|v l [s ->] _ [ss ->]]; [by exists []|by exists (s :: ss)].
Qed.

(** ** What [getAll] returns *)

Lemma mapOutcome_Ok {A B} (f : A -> outcome B) (g : A -> B) (l : list A) w :
  Forall (fun x => f x = Ok (g x)) l -> mapOutcome f l w = Ret (g <$> l) w.
Proof.
  intros H. unfold mapOutcome.
  assert (E : omapM f l = Ok (g <$> l)); [|by rewrite E].
  induction H as [|x l Hx _ IH]; [reflexivity|].
  cbn [omapM]. by rewrite Hx, IH.
Qed.

Lemma omapM_Forall2 {A B} (f : A -> outcome B) (l : list A) (r : list B) :
  omapM f l = Ok r -> Forall2 (fun x y => f x = Ok y) l r.
Proof.
  revert r. induction l as [|x l IH]; intros r; cbn [omapM].
  - intros [= <-]. constructor.
  - destruct (f x) as [y|] eqn:E; [|discriminate]. cbn [obind].
    destruct (omapM f l) as [ys|]; [|discriminate]. cbn [obind].
    intros [= <-]. constructor; [exact E|by apply IH].
Qed.

Lemma entity_getAll_inv (db : Backend) n w l w' :
  Entity.getAll db n w = Ret l w' ->
  exists items, db_getAll db n w = Ret items w'
    ∧ Forall2 (fun item e => Entity.deserialize item = Ok e) items l.
Proof.
  unfold Entity.getAll. intros H.
  apply bind_Ret_inv in H as (items & w1 & Hg & H).
  unfold mapOutcome in H. apply lift_Ret_inv in H as [H ->].
  exists items. split; [exact Hg|by apply omapM_Forall2].
Qed.

(** An entity as [deserialize] builds it: an object whose [createdAt] is
    a [Date]. *)
Lemma deserialize_shape item e : Entity.deserialize item = Ok e ->
  exists (m : gmap string value) t, e = VObj m ∧ m !! "createdAt" = Some (VDate t).
Proof.
  unfold Entity.deserialize, Entity.withDates. intros H.
  destruct (get_prop item "date") as [d|]; [|discriminate]. cbn [obind] in H.
  destruct (get_prop item "createdAt") as [c|]; [|discriminate]. cbn [obind] in H.
  destruct (get_prop item "updatedAt") as [u|]; [|discriminate]. cbn [obind] in H.
  inversion H; subst.
  assert (Hc : exists t, new_Date c = VDate t) by (destruct c; cbn; eauto).
  destruct Hc as [t Hc]. eexists _, t. split; [reflexivity|].
  rewrite lookup_insert_ne by done. by rewrite lookup_insert_eq, Hc.
Qed.

Lemma entity_getAll_shape (db : Backend) n w l w' :
  Entity.getAll db n w = Ret l w' ->
  Forall (fun e => exists (m : gmap string value) t,
            e = VObj m ∧ m !! "createdAt" = Some (VDate t)) l.
Proof.
  intros H. apply entity_getAll_inv in H as (items & _ & H).
  induction H as [|item e items l He _ IH]; constructor; [|exact IH].
  by apply (deserialize_shape item).
Qed.

Lemma names_of_entities l w :
  Forall (fun e => exists (m : gmap string value) t,
            e = VObj m ∧ m !! "createdAt" = Some (VDate t)) l ->
  mapOutcome (fun e => get_prop e "name") l w = Ret (nameOf <$> l) w.
Proof.
  intros H. apply mapOutcome_Ok. eapply Forall_impl; [exact H|].
  by intros e (m & t & -> & _).
Qed.

Lemma namedByString_spec e : namedByString e = true ↔ exists s, nameOf e = VStr s.
Proof.
  unfold namedByString. split; [|by intros [s ->]].
  destruct (nameOf e) as [| | | |s| | | |]; try discriminate. by exists s.
Qed.

(** ** [getUniqueNames] *)

Lemma defaultCompare_strings x y :
  (exists a, x = VStr a) -> (exists b, y = VStr b) ->
  defaultCompare x y
  = Ok (match x, y with
        | VStr a, VStr b => negb (String.ltb b a)
        | _, _ => true
        end).
Proof. by intros [a ->] [b ->]. Qed.

Lemma StronglySorted_fmap_inv {A B} (f : A -> B) (R1 : relation A) (R2 : relation B)
    (l : list A) :
  (forall x y, R2 (f x) (f y) -> R1 x y) ->
  StronglySorted R2 (f <$> l) -> StronglySorted R1 l.
Proof.
  intros HR. induction l as [|x l IH]; intros H; [constructor|].
  change (f <$> x :: l) with (f x :: (f <$> l)) in H.
  apply StronglySorted_inv in H as [H Hall]. constructor; [by apply IH|].
  rewrite Forall_fmap in Hall. eapply Forall_impl; [exact Hall|]. intros y. apply HR.
Qed.

Lemma sort_strings (ss : list string) : NoDup ss ->
  exists rs, Array_sort defaultCompare (VStr <$> ss) = Ok (VStr <$> rs)
    ∧ rs ≡ₚ ss ∧ StronglySorted string_lt rs.
Proof.
  intros Hn.
  destruct (Array_sort_sorted defaultCompare
              (fun x y => match x, y with
                          | VStr a, VStr b => negb (String.ltb b a)
                          | _, _ => true
                          end)
              (fun v => exists s, v = VStr s) defaultCompare_strings)
    with (l := VStr <$> ss) as (r & Hr & Hp & Hs).
  - intros x y [a ->] [b ->]. apply string_le_total.
  - intros x y z [a ->] [b ->] [c ->]. apply string_le_trans.
  - apply Forall_fmap, Forall_forall. intros s _. by exists s.
  - apply Permutation_map_inv in Hp as (rs & -> & Hp).
    exists rs. split; [exact Hr|]. split; [by symmetry|].
    assert (Hn' : NoDup rs) by (by rewrite <- Hp).
    apply (StronglySorted_fmap_inv VStr (fun a b => negb (String.ltb b a) = true)) in Hs.
    2:{ intros a b H. exact H. }
    apply StronglySorted_strict in Hs; [|exact Hn'].
    clear -Hs. induction Hs as [|a l _ IH Hall]; constructor; [exact IH|].
    eapply Forall_impl; [exact Hall|]. intros b [H Hne]. cbn in H.
    apply string_le_cases in H as [H|H]; [exact H|contradiction].
Qed.

Global Instance VStr_inj : Inj eq eq VStr.
Proof. intros x y H. by inversion H. Qed.

Lemma new_Set_strings (ss : list string) :
  exists us, new_Set (VStr <$> ss) = VStr <$> us ∧ NoDup us ∧ forall s, s ∈ us ↔ s ∈ ss.
Proof.
  destruct (strings_of_values (new_Set (VStr <$> ss))) as [us Hus].
  { apply Forall_forall. intros v Hv. apply new_Set_elem, list_elem_of_fmap in Hv.
    destruct Hv as (s & -> & _). by exists s. }
  exists us. split; [exact Hus|]. split.
  - apply (NoDup_fmap_1 VStr). rewrite <- Hus. apply new_Set_NoDup.
    apply Forall_fmap, Forall_forall. intros s _. cbn. apply String.eqb_refl.
  - intros s. rewrite <- (list_elem_of_fmap_inj VStr), <- Hus, new_Set_elem.
    apply (list_elem_of_fmap_inj VStr).
Qed.

Lemma names_strings (l : list value) : forallb namedByString l = true ->
  exists ss, nameOf <$> l = VStr <$> ss
    ∧ forall s, s ∈ ss ↔ exists e, e ∈ l ∧ nameOf e = VStr s.
Proof.
  induction l as [|e l IH]; cbn [forallb]; intros H.
  - exists []. split; [reflexivity|]. intros s. rewrite elem_of_nil.
    split; [tauto|]. intros (e & He & _). by apply elem_of_nil in He.
  - apply andb_true_iff in H as [He Hl]. apply namedByString_spec in He as [s0 He].
    destruct (IH Hl) as (ss & Hss & Hin). exists (s0 :: ss). split.
    + cbn [fmap list_fmap]. f_equal; [exact He|exact Hss].
    + intros s. rewrite elem_of_cons, Hin. split.
      * intros [->|(x & Hx & Hn)]; [exists e; split; [left|exact He]|].
        exists x. split; [by right|exact Hn].
      * intros (x & Hx & Hn). apply elem_of_cons in Hx as [->|Hx]; [|eauto].
        left. congruence.
Qed.

(** ** [getRecentFoodNames] *)

(** The order that the comparator of [getRecentFoodNames] induces on
    entities whose [createdAt] is a date. *)
Lemma byCreatedAtDescending_dates a b :
  (exists (m : gmap string value) t, a = VObj m ∧ m !! "createdAt" = Some (VDate t)) ->
  (exists (m : gmap string value) t, b = VObj m ∧ m !! "createdAt" = Some (VDate t)) ->
  FoodRepository.byCreatedAtDescending a b
  = Ok (match createdTime b, createdTime a with
        | Some y, Some x => y <=? x
        | _, _ => true
        end).
Proof.
  intros (ma & ta & -> & Ha) (mb & tb & -> & Hb).
  unfold FoodRepository.byCreatedAtDescending. cbn [get_prop obind].
  rewrite (lookupProp_Some _ _ _ Ha), (lookupProp_Some _ _ _ Hb).
  cbn [call_getTime obind createdTime]. by rewrite Ha, Hb.
Qed.

Lemma collectNames_spec limit : forall sorted s,
  Forall (fun e => exists (m : gmap string value) t,
            e = VObj m ∧ m !! "createdAt" = Some (VDate t)) sorted ->
  s = [] ∨ Z.of_nat (List.length s) < limit ->
  exists t, FoodRepository.collectNames limit s sorted = Ok (s ++ t)
    ∧ Z.of_nat (List.length (s ++ t)) <= Z.max 1 limit
    ∧ (forall v, v ∈ t -> exists f, f ∈ sorted ∧ nameOf f = v)
    ∧ (NoDup s -> forallb namedByString sorted = true -> NoDup (s ++ t)).
Proof.
  induction sorted as [|f rest IH]; intros s Hshape Hs; cbn [FoodRepository.collectNames].
  - exists []. rewrite app_nil_r. split; [reflexivity|]. split; [|split].
    + destruct Hs as [->|Hs]; cbn; lia.
    + intros v Hv. by apply elem_of_nil in Hv.
    + auto.
  - apply Forall_cons in Hshape as [(m & tm & -> & Hm) Hshape]. cbn [get_prop obind].
    change (lookupProp m "name") with (nameOf (VObj m)).
    destruct (Set_add_prefix s (nameOf (VObj m))) as [t0 Ht0].
    pose proof (Set_add_length s (nameOf (VObj m))) as Hlen.
    assert (Hin0 : forall v, v ∈ t0 -> v = nameOf (VObj m)).
    { intros v Hv.
      assert (Hv' : v ∈ Set_add s (nameOf (VObj m))) by (rewrite Ht0, elem_of_app; auto).
      apply Set_add_elem in Hv' as [Hv'|Hv']; [|exact Hv'].
      unfold Set_add in Ht0. destruct (Set_has s (nameOf (VObj m))).
      - apply (f_equal List.length) in Ht0. rewrite length_app in Ht0.
        destruct t0; [by apply elem_of_nil in Hv|cbn in Ht0; lia].
      - apply app_inv_head in Ht0. subst t0. by apply list_elem_of_singleton in Hv. }
    assert (Hnd0 : NoDup s -> namedByString (VObj m) = true ->
                   NoDup (Set_add s (nameOf (VObj m)))).
    { intros Hn Hb. apply Set_add_NoDup; [|exact Hn].
      apply namedByString_spec in Hb as [x ->]. cbn. apply String.eqb_refl. }
    destruct (limit <=? Z.of_nat (List.length (Set_add s (nameOf (VObj m))))) eqn:E.
    + exists t0. rewrite <- Ht0. split; [reflexivity|]. split; [|split].
      * destruct Hs as [->|Hs]; [cbn [List.length] in Hlen|]; lia.
      * intros v Hv. exists (VObj m). split; [left|]. symmetry. by apply Hin0.
      * cbn [forallb]. intros Hn Hb. apply andb_true_iff in Hb as [Hb _]. by apply Hnd0.
    + apply Z.leb_gt in E.
      destruct (IH (Set_add s (nameOf (VObj m))) Hshape (or_intror E))
        as (t & Hr & Hb & Hin & Hnd).
      exists (t0 ++ t). rewrite Ht0 in Hr, Hb, Hnd |- *. rewrite app_assoc.
      split; [exact Hr|]. split; [exact Hb|]. split.
      * intros v Hv. apply elem_of_app in Hv as [Hv|Hv].
        -- exists (VObj m). split; [left|]. symmetry. by apply Hin0.
        -- destruct (Hin v Hv) as (g & Hg & Hn). exists g. split; [by right|exact Hn].
      * cbn [forallb]. intros Hn Hbs. apply andb_true_iff in Hbs as [Hb1 Hb2].
        apply Hnd; [|exact Hb2]. rewrite <- Ht0. by apply Hnd0.
Qed.

Lemma collectNames_first limit f rest :
  Forall (fun e => exists (m : gmap string value) t,
            e = VObj m ∧ m !! "createdAt" = Some (VDate t)) (f :: rest) ->
  exists t, FoodRepository.collectNames limit [] (f :: rest) = Ok (nameOf f :: t)
    ∧ (limit <= 1 -> t = []).
Proof.
  intros Hshape. pose proof Hshape as Hshape'.
  apply Forall_cons in Hshape' as [(m & tm & -> & Hm) Hrest].
  cbn [FoodRepository.collectNames get_prop obind].
  change (lookupProp m "name") with (nameOf (VObj m)).
  change (Set_add [] (nameOf (VObj m))) with [nameOf (VObj m)].
  cbn [List.length]. destruct (limit <=? Z.of_nat 1) eqn:E.
  - exists []. split; [reflexivity|auto].
  - apply Z.leb_gt in E.
    destruct (collectNames_spec limit rest [nameOf (VObj m)] Hrest (or_intror E))
      as (t & Hr & _).
    exists t. split; [exact Hr|]. intros Hl. cbn in E. lia.
Qed.

(** ** The order of keys *)

Lemma key_compare_antisym a b : key_compare b a = CompOpp (key_compare a b).
Proof.
  destruct a, b; cbn; try reflexivity.
  - apply Z.compare_antisym.
  - apply Z.compare_antisym.
  - apply String.compare_antisym.
Qed.

Lemma key_compare_eq a b : key_compare a b = Eq -> a = b.
Proof.
  destruct a, b; cbn; try discriminate.
  - intros H. apply Z.compare_eq in H. by subst.
  - intros H. apply Z.compare_eq in H. by subst.
  - intros H. apply String.compare_eq_iff in H. by subst.
Qed.

Lemma key_lt_trans a b c : key_lt a b -> key_lt b c -> key_lt a c.
Proof.
  unfold key_lt. destruct a, b, c; cbn; try discriminate; try reflexivity.
  - rewrite !Z.compare_lt_iff. lia.
  - rewrite !Z.compare_lt_iff. lia.
  - apply string_lt_trans.
Qed.

Lemma key_le_cases a b : IndexedDB.key_le a b ↔ key_lt a b ∨ a = b.
Proof.
  unfold IndexedDB.key_le, key_leb, key_lt. split.
  - destruct (key_compare a b) eqn:E; [|auto|discriminate].
    right. by apply key_compare_eq.
  - intros [->| ->]; [reflexivity|].
    destruct (key_compare b b) eqn:E; try reflexivity.
    pose proof (key_compare_antisym b b) as H. rewrite E in H. discriminate.
Qed.

Global Instance key_le_trans : Transitive IndexedDB.key_le.
Proof.
  intros a b c. rewrite !key_le_cases. intros [H1| ->] [H2| ->]; auto.
  left. by apply (key_lt_trans a b c).
Qed.

Global Instance key_le_total : Total IndexedDB.key_le.
Proof.
  intros a b. unfold IndexedDB.key_le, key_leb. rewrite (key_compare_antisym a b).
  destruct (key_compare a b); cbn; auto.
Qed.

Global Instance entry_le_trans : Transitive IndexedDB.entry_le.
Proof. intros a b c. unfold IndexedDB.entry_le. apply key_le_trans. Qed.

Global Instance entry_le_total : Total IndexedDB.entry_le.
Proof. intros a b. unfold IndexedDB.entry_le. apply key_le_total. Qed.

(** The records of a store in the order of [getAll]. *)
Lemma sorted_entries_strict (m : gmap key value) :
  StronglySorted key_lt (merge_sort IndexedDB.entry_le (map_to_list m)).*1.
Proof.
  pose proof (StronglySorted_merge_sort IndexedDB.entry_le (map_to_list m)) as Hs.
  apply (StronglySorted_fmap fst _ IndexedDB.key_le) in Hs; [|by intros x y H].
  apply StronglySorted_strict in Hs.
  2:{ rewrite merge_sort_Permutation. apply NoDup_fst_map_to_list. }
  clear -Hs. induction Hs as [|a l _ IH Hall]; constructor; [exact IH|].
  eapply Forall_impl; [exact Hall|]. intros b [H Hne]. cbn in H.
  apply key_le_cases in H as [H|H]; [exact H|contradiction].
Qed.

(** ** The engines outside a browser *)

Lemma idb_openDatabase_server {A} (k : gmap string objectStore -> M A) w :
  w_window w = false ->
  bind IndexedDB.openDatabase k w
  = Throw (Error "IndexedDB is not available in this environment") w.
Proof. intros H. unfold bind, IndexedDB.openDatabase. by rewrite H. Qed.

Lemma ls_getStoreData_server w n : w_window w = false ->
  LocalStorage.getStoreData n w = Ret ∅ w.
Proof. intros H. unfold LocalStorage.getStoreData. by rewrite H. Qed.

Lemma ls_setStoreData_server w n data : w_window w = false ->
  LocalStorage.setStoreData n data w = Ret tt w.
Proof. intros H. unfold LocalStorage.setStoreData. by rewrite H. Qed.

(** ** States left by [create] *)

Lemma ready_after_create n e w : ready w -> isStore n ->
  ready (stateAfter (Entity.create IndexedDB.module n e) w).
Proof.
  intros Hr Hn. unfold stateAfter.
  destruct (entity_create_outcome w n e Hr Hn)
    as [(s & k & _ & _ & _ & ->)|(err & w' & -> & Hf & _)].
  - by apply ready_putStore.
  - apply Hf.
Qed.

Lemma ready_gym : ready Cases.gym.
Proof.
  unfold Cases.gym.
  do 2 (apply (ready_after_create STORES.EXERCISES); [|apply isStore_exercises]).
  exact ready_stocked.
Qed.

Lemma ready_pantry : ready Cases.pantry.
Proof.
  unfold Cases.pantry.
  do 3 (apply (ready_after_create STORES.FOODS); [|apply isStore_foods]).
  exact ready_browser.
Qed.

(** ** What an operation leaves untouched *)

Lemma idbOutcome_other n w w' n' : idbOutcome n w w' -> n' ≠ n ->
  storeRecords w' n' = storeRecords w n'.
Proof.
  intros [->|[->|(db & s & r & Hdb & Hs & ->)]] Hne;
    [reflexivity|apply storeRecords_opened|].
  rewrite <- (storeRecords_opened w n'). unfold storeRecords.
  rewrite Hdb. cbn [set_database w_database]. by rewrite lookup_insert_ne.
Qed.

Lemma idbOutcome_read w w' : w' = w ∨ w' = opened w ->
  forall n', storeRecords w' n' = storeRecords w n'.
Proof. intros [->| ->] n'; [reflexivity|apply storeRecords_opened]. Qed.

(** Running the body of an operation after [openDatabase] and
    [objectStoreOf]. *)
Lemma idb_with_store {A} (n : string) (body : gmap string objectStore -> objectStore -> M A)
    (Q : world -> Prop) w :
  Q w -> Q (opened w) ->
  (forall db s, w_database (opened w) = Some db -> db !! n = Some s ->
     match body db s (opened w) with
     | Ret _ w' | Throw _ w' => Q w'
     | OutOfFuel => False
     end) ->
  match bind IndexedDB.openDatabase
          (fun db => bind (IndexedDB.objectStoreOf db n) (body db)) w with
  | Ret _ w' | Throw _ w' => Q w'
  | OutOfFuel => False
  end.
Proof.
  intros H0 H1 Hbody.
  destruct (openDatabase_cases w) as [(db & Ho & Hdb)|(e & Ho)].
  - rewrite (bind_Ret _ _ _ _ _ Ho). unfold IndexedDB.objectStoreOf.
    destruct (db !! n) as [s|] eqn:Es; [|exact H1].
    cbn [bind ret]. by apply Hbody.
  - by rewrite (bind_Throw _ _ _ _ _ Ho).
Qed.

Lemma idb_commit_outcome n db s r w :
  w_database (opened w) = Some db -> db !! n = Some s ->
  IndexedDB.commit db n s r (opened w)
  = Ret tt (set_database
              (Some (<[n := {| os_indexes := os_indexes s; os_records := r |}]> db))
              (opened w)).
Proof. reflexivity. Qed.

Lemma idb_perform_outcome o w :
  idbOutcome (opStore o) w (perform IndexedDB.module o w).2
  ∧ (isRead o = true ->
     (perform IndexedDB.module o w).2 = w ∨ (perform IndexedDB.module o w).2 = opened w).
Proof.
  assert (Hgen : forall A (shape : A -> list value) n
            (body : gmap string objectStore -> objectStore -> M A) (rd : bool),
            (forall db s, w_database (opened w) = Some db -> db !! n = Some s ->
               match body db s (opened w) with
               | Ret _ w' | Throw _ w' =>
                   idbOutcome n w w' ∧ (rd = true -> w' = w ∨ w' = opened w)
               | OutOfFuel => False
               end) ->
            let r := bind IndexedDB.openDatabase
                       (fun db => bind (IndexedDB.objectStoreOf db n) (body db)) w in
            idbOutcome n w (observe shape r w).2
            ∧ (rd = true -> (observe shape r w).2 = w ∨ (observe shape r w).2 = opened w)).
  { intros A shape n body rd Hbody r.
    pose proof (idb_with_store n body
                  (fun w' => idbOutcome n w w' ∧ (rd = true -> w' = w ∨ w' = opened w)) w) as H.
    fold r in H. unfold observe.
    destruct r as [a w'|e w'|]; cbn [snd]; [apply H|apply H|exfalso; apply H];
      try exact Hbody; try (split; [by left|by left]);
      try (split; [right; by left|right; reflexivity]). }
  destruct o as [n id|n|n i v|n i lo hi|n item|n item|n id|n];
    cbn [perform opStore isRead db_getById db_getAll db_getByIndex db_getByIndexRange
         db_add db_update db_deleteById db_clearStore IndexedDB.module].
  - apply (Hgen _ _ n (fun db store =>
             ret (or_null (default VUndef (os_records store !! KStr id)))) true).
    intros db s _ _. cbn. split; [right; by left|by right].
  - apply (Hgen _ _ n (fun db store =>
             ret (IndexedDB.ordered (map_to_list (os_records store)))) true).
    intros db s _ _. cbn. split; [right; by left|by right].
  - apply (Hgen _ _ n (fun db store =>
             await index := IndexedDB.indexOf store i in
             match v with
             | VUndef | VNull => ret (IndexedDB.ordered index)
             | _ =>
                 match to_key v with
                 | Some k => ret (IndexedDB.ordered (filter (fun e => e.1 = k) index))
                 | None => throw (DOMException "DataError")
                 end
             end) true).
    intros db s _ _. unfold IndexedDB.indexOf, bind.
    destruct (bool_decide _); cbn [ret throw]; [|split; [right; by left|by right]].
    destruct v; cbn; try destruct t; split; try (right; by left); by right.
  - apply (Hgen _ _ n (fun db store =>
             await index := IndexedDB.indexOf store i in
             match to_key lo, to_key hi with
             | Some klo, Some khi =>
                 if key_leb klo khi then
                   ret (IndexedDB.ordered
                          (filter (fun e => IndexedDB.key_le klo e.1
                                            ∧ IndexedDB.key_le e.1 khi) index))
                 else throw (DOMException "DataError")
             | _, _ => throw (DOMException "DataError")
             end) true).
    intros db s _ _. unfold IndexedDB.indexOf, bind.
    destruct (bool_decide _); cbn [ret throw]; [|split; [right; by left|by right]].
    destruct (to_key lo), (to_key hi); try destruct (key_leb _ _); cbn;
      split; try (right; by left); by right.
  - apply (Hgen _ _ n (fun db store =>
             match IndexedDB.keyOf item with
             | None => throw (DOMException "DataError")
             | Some k =>
                 match os_records store !! k with
                 | Some _ => throw (Error ("Failed to add item to " +:+ n))
                 | None =>
                     exec IndexedDB.commit db n store (<[k := item]> (os_records store)) in
                     ret item
                 end
             end) false).
    intros db s Hdb Hs. destruct (IndexedDB.keyOf item) as [k|];
      [|cbn; split; [right; by left|discriminate]].
    destruct (os_records s !! k); [cbn; split; [right; by left|discriminate]|].
    unfold bind. rewrite (idb_commit_outcome n db s _ w Hdb Hs). cbn [ret].
    split; [|discriminate]. right. right. eauto 6.
  - apply (Hgen _ _ n (fun db store =>
             match IndexedDB.keyOf item with
             | None => throw (DOMException "DataError")
             | Some k =>
                 exec IndexedDB.commit db n store (<[k := item]> (os_records store)) in
                 ret item
             end) false).
    intros db s Hdb Hs. destruct (IndexedDB.keyOf item) as [k|];
      [|cbn; split; [right; by left|discriminate]].
    unfold bind. rewrite (idb_commit_outcome n db s _ w Hdb Hs). cbn [ret].
    split; [|discriminate]. right. right. eauto 6.
  - apply (Hgen _ _ n (fun db store =>
             IndexedDB.commit db n store (delete (KStr id) (os_records store))) false).
    intros db s Hdb Hs. rewrite (idb_commit_outcome n db s _ w Hdb Hs).
    split; [|discriminate]. right. right. eauto 6.
  - apply (Hgen _ _ n (fun db store => IndexedDB.commit db n store ∅) false).
    intros db s Hdb Hs. rewrite (idb_commit_outcome n db s _ w Hdb Hs).
    split; [|discriminate]. right. right. eauto 6.
Qed.

Lemma lsOutcome_other n w w' n' : lsOutcome n w w' -> n' ≠ n ->
  storeData w' n' = storeData w n'.
Proof.
  intros [->|(l & -> & Hl)] Hne; [reflexivity|].
  unfold storeData. cbn [set_localStorage w_localStorage]. rewrite Hl; [reflexivity|].
  intros H. by apply getStoreKey_inj in H.
Qed.

Lemma ls_getStoreData_total w n : exists data, LocalStorage.getStoreData n w = Ret data w.
Proof.
  unfold LocalStorage.getStoreData. destruct (w_window w); cbn [negb]; [|eauto].
  destruct (w_localStorage w !! LocalStorage.getStoreKey n) as [[o|s]|]; eauto.
Qed.

Lemma ls_setStoreData_outcome w n data :
  exists w', LocalStorage.setStoreData n data w = Ret tt w' ∧ lsOutcome n w w'.
Proof.
  unfold LocalStorage.setStoreData. destruct (w_window w); cbn [negb].
  - eexists. split; [reflexivity|]. right. eexists. split; [reflexivity|].
    intros k Hk. by rewrite lookup_insert_ne.
  - exists w. split; [reflexivity|by left].
Qed.

Lemma ls_getAll_total w n : exists l, LocalStorage.getAll n w = Ret l w.
Proof.
  destruct (ls_getStoreData_total w n) as [data Hg]. unfold LocalStorage.getAll.
  rewrite (bind_Ret _ _ _ _ _ Hg). by eexists.
Qed.

Lemma ls_perform_outcome o w :
  lsOutcome (opStore o) w (perform LocalStorage.module o w).2
  ∧ (isRead o = true -> (perform LocalStorage.module o w).2 = w).
Proof.
  destruct o as [n id|n|n i v|n i lo hi|n item|n item|n id|n];
    cbn [perform opStore isRead db_getById db_getAll db_getByIndex db_getByIndexRange
         db_add db_update db_deleteById db_clearStore LocalStorage.module].
  - destruct (ls_getStoreData_total w n) as [data Hg]. unfold LocalStorage.getById.
    rewrite (bind_Ret _ _ _ _ _ Hg). cbn. split; [by left|reflexivity].
  - destruct (ls_getAll_total w n) as [l Hg]. rewrite Hg. cbn. split; [by left|reflexivity].
  - destruct (ls_getAll_total w n) as [l Hg]. unfold LocalStorage.getByIndex.
    rewrite (bind_Ret _ _ _ _ _ Hg). destruct (filterOutcome _ l); cbn;
      (split; [by left|reflexivity]).
  - destruct (ls_getAll_total w n) as [l Hg]. unfold LocalStorage.getByIndexRange.
    rewrite (bind_Ret _ _ _ _ _ Hg). destruct (filterOutcome _ l); cbn;
      (split; [by left|reflexivity]).
  - split; [|discriminate].
    destruct (ls_getStoreData_total w n) as [data Hg]. unfold LocalStorage.add.
    rewrite (bind_Ret _ _ _ _ _ Hg), lift_bind.
    destruct (get_prop item "id") as [idv|]; [|by left].
    destruct (truthy _); [by left|].
    destruct (ls_setStoreData_outcome w n (assignProp data (ToString idv) item))
      as (w' & Hs & Ho).
    by rewrite (bind_Ret _ _ _ _ _ Hs).
  - split; [|discriminate].
    destruct (ls_getStoreData_total w n) as [data Hg]. unfold LocalStorage.update.
    rewrite (bind_Ret _ _ _ _ _ Hg), lift_bind.
    destruct (get_prop item "id") as [idv|]; [|by left].
    destruct (ls_setStoreData_outcome w n (assignProp data (ToString idv) item))
      as (w' & Hs & Ho).
    by rewrite (bind_Ret _ _ _ _ _ Hs).
  - split; [|discriminate].
    destruct (ls_getStoreData_total w n) as [data Hg]. unfold LocalStorage.deleteById.
    rewrite (bind_Ret _ _ _ _ _ Hg).
    destruct (ls_setStoreData_outcome w n (delete id data)) as (w' & Hs & Ho).
    by rewrite Hs.
  - split; [|discriminate]. unfold LocalStorage.clearStore.
    destruct (w_window w); cbn; [|by left]. right. eexists. split; [reflexivity|].
    intros k Hk. by rewrite lookup_delete_ne.
Qed.

(** ** Entities: create, read, update, delete *)

Lemma serialized_id (e : gmap string value) id x y z :
  e !! "id" = Some (VStr id) ->
  (<["updatedAt" := x]> (<["createdAt" := y]> (<["date" := z]> e))) !! "id"
  = Some (VStr id).
Proof. intros H. by rewrite !lookup_insert_ne. Qed.

Lemma idb_create_then_getById n w (e : gmap string value) id d c u :
  ready w -> isStore n -> e !! "id" = Some (VStr id) ->
  holdsDate e "date" d -> holdsDate e "createdAt" c -> holdsDate e "updatedAt" u ->
  storeRecords w n !! KStr id = None ->
  exists (s : gmap string value) w',
    Entity.serialize (VObj e) = Ok (VObj s)
    ∧ Entity.create IndexedDB.module n (VObj e) w = Ret (VObj e) w'
    ∧ ready w'
    ∧ storeRecords w' n = <[KStr id := VObj s]> (storeRecords w n)
    ∧ Entity.getById IndexedDB.module n id w' = Ret (VObj e) w'.
Proof.
  intros Hr Hn Hid Hd Hc Hu Hfree.
  set (s := <["updatedAt" := VStr (IsoDate.toISOString u)]>
              (<["createdAt" := VStr (IsoDate.toISOString c)]>
              (<["date" := VStr (IsoDate.toISOString d)]> e))).
  set (w' := putStore n (<[KStr id := VObj s]> (storeRecords w n)) w).
  assert (Hser : Entity.serialize (VObj e) = Ok (VObj s))
    by apply (withIsoDates_ok e d c u Hd Hc Hu).
  assert (Hr' : ready w') by (by apply ready_putStore).
  assert (Hs' : storeRecords w' n = <[KStr id := VObj s]> (storeRecords w n))
    by (by apply storeRecords_putStore_eq).
  exists s, w'. split; [exact Hser|]. split; [|split; [exact Hr'|split; [exact Hs'|]]].
  - unfold Entity.create. rewrite lift_bind, Hser. cbn [db_add IndexedDB.module].
    erewrite bind_Ret; [reflexivity|].
    apply idb_add_new; [exact Hr|exact Hn| |exact Hfree].
    apply keyOf_id. by apply serialized_id.
  - destruct (holdsIso_serialized e d c u (proj2 Hd) (proj2 Hc) (proj2 Hu))
      as (Sd & Sc & Su). fold s in Sd, Sc, Su.
    rewrite (idb_entity_getById_stored w' n id s d c u Hr' Hn) by
      (try assumption; rewrite Hs'; apply lookup_insert_eq).
    subst w'. rewrite opened_putStore. do 2 f_equal. subst s.
    by apply dates_over_iso.
Qed.

(** Nothing is found under [id]: [getById] resolves to [null] and [update]
    rejects, both in the state the engine's [getById] left. *)
Lemma entity_missing (db : Backend) n label id p w v w1 :
  db_getById db n id w = Ret v w1 -> truthy v = false ->
  Entity.getById db n id w = Ret VNull w1
  ∧ Entity.update db n label id p w
    = Throw (Error (label +:+ " with id " +:+ id +:+ " not found")) w1.
Proof.
  intros Hg Hv.
  assert (H : Entity.getById db n id w = Ret VNull w1).
  { unfold Entity.getById. rewrite (bind_Ret _ _ _ _ _ Hg). by rewrite Hv. }
  split; [exact H|]. unfold Entity.update. by rewrite (bind_Ret _ _ _ _ _ H).
Qed.

Lemma idb_entity_delete n w id : ready w -> isStore n ->
  let w' := putStore n (delete (KStr id) (storeRecords w n)) w in
  Entity.delete IndexedDB.module n id w = Ret tt w'
  ∧ ready w'
  ∧ storeRecords w' n = delete (KStr id) (storeRecords w n)
  ∧ Entity.getById IndexedDB.module n id w' = Ret VNull w'.
Proof.
  intros Hr Hn w'.
  assert (Hr' : ready w') by (by apply ready_putStore).
  assert (Hs' : storeRecords w' n = delete (KStr id) (storeRecords w n))
    by (by apply storeRecords_putStore_eq).
  split; [by apply idb_deleteById_ready|]. split; [exact Hr'|]. split; [exact Hs'|].
  destruct (entity_missing IndexedDB.module n "" id VNull w' VNull w') as [H _];
    [|reflexivity|exact H].
  cbn [db_getById IndexedDB.module]. rewrite (idb_getById_ready w' n id Hr' Hn).
  rewrite Hs', lookup_delete_eq. subst w'. by rewrite opened_putStore.
Qed.

(** ** Dates that cannot be written *)

Lemma call_toISOString_cases v :
  (exists t, v = VDate (Some t))
  ∨ (exists err, call_toISOString v = Raise err ∧ (err = RangeError ∨ err = TypeError)).
Proof.
  destruct v as [| | | | |[t|]| | |]; cbn; eauto.
Qed.

Lemma serialize_rejects (e : gmap string value) k :
  k ∈ ["date"; "createdAt"; "updatedAt"] ->
  (forall t, e !! k ≠ Some (VDate (Some t))) ->
  exists err, Entity.serialize (VObj e) = Raise err ∧ (err = RangeError ∨ err = TypeError).
Proof.
  intros Hk Hbad.
  assert (Hfail : exists err, call_toISOString (default VUndef (e !! k)) = Raise err
                    ∧ (err = RangeError ∨ err = TypeError)).
  { destruct (call_toISOString_cases (default VUndef (e !! k))) as [[t Ht]|H]; [|exact H].
    exfalso. apply (Hbad t). destruct (e !! k); cbn in Ht; [by subst|discriminate]. }
  unfold Entity.serialize, Entity.withIsoDates.
  rewrite (get_prop_obj e "date") by reflexivity. cbn [obind].
  destruct (call_toISOString_cases (default VUndef (e !! "date")))
    as [[d Hd]|(err & Hd & He)]; [|rewrite Hd; eauto].
  rewrite Hd. cbn [call_toISOString obind].
  rewrite (get_prop_obj e "createdAt") by reflexivity. cbn [obind].
  destruct (call_toISOString_cases (default VUndef (e !! "createdAt")))
    as [[c Hc]|(err & Hc & He)]; [|rewrite Hc; eauto].
  rewrite Hc. cbn [call_toISOString obind].
  rewrite (get_prop_obj e "updatedAt") by reflexivity. cbn [obind].
  destruct (call_toISOString_cases (default VUndef (e !! "updatedAt")))
    as [[u Hu]|(err & Hu & He)]; [|rewrite Hu; eauto].
  exfalso. destruct Hfail as (err & Hf & _).
  repeat (apply elem_of_cons in Hk as [->|Hk]); [| |  |by apply elem_of_nil in Hk].
  - rewrite Hd in Hf. discriminate.
  - rewrite Hc in Hf. discriminate.
  - rewrite Hu in Hf. discriminate.
Qed.

(** A stored record whose [date] does not read as a date. *)
Lemma noDate_new_Date v : noDate v = true -> new_Date v = VDate None.
Proof.
  destruct v as [| | |n| |[t|]| | |]; try discriminate; try reflexivity.
  cbn [noDate new_Date ToNumber mbind option_bind]. unfold IsoDate.TimeClip.
  by destruct ((- IsoDate.maxTime <=? n) && (n <=? IsoDate.maxTime)).
Qed.

Lemma idb_entity_unreadable_date n label w id (r p : gmap string value) :
  ready w -> isStore n -> storeRecords w n !! KStr id = Some (VObj r) ->
  new_Date (default VUndef (r !! "date")) = VDate None -> p !! "date" = None ->
  (exists e : gmap string value,
     Entity.getById IndexedDB.module n id w = Ret (VObj e) (opened w)
     ∧ e !! "date" = Some (VDate None))
  ∧ Entity.update IndexedDB.module n label id (VObj p) w = Throw RangeError (opened w).
Proof.
  intros Hr Hn Hs Hdate Hp.
  set (e := <["updatedAt" := new_Date (default VUndef (r !! "updatedAt"))]>
              (<["createdAt" := new_Date (default VUndef (r !! "createdAt"))]>
              (<["date" := VDate None]> r))).
  assert (Hg : Entity.getById IndexedDB.module n id w = Ret (VObj e) (opened w)).
  { unfold Entity.getById. cbn [db_getById IndexedDB.module].
    rewrite (bind_Ret _ _ _ _ _ (idb_getById_ready w n id Hr Hn)). rewrite Hs.
    cbn [from_option Datatypes.id or_null truthy].
    unfold Entity.deserialize, Entity.withDates.
    rewrite !get_prop_obj by reflexivity. cbn [obind spread lift ret].
    by rewrite Hdate. }
  assert (He : e !! "date" = Some (VDate None)).
  { subst e. do 2 rewrite lookup_insert_ne by done. apply lookup_insert_eq. }
  split; [by exists e|].
  unfold Entity.update. rewrite (bind_Ret _ _ _ _ _ Hg). cbn [truthy negb].
  unfold bind at 1. cbn [read spread]. rewrite lift_bind.
  unfold Entity.serialize, Entity.withIsoDates.
  rewrite (get_prop_obj _ "date") by reflexivity.
  do 2 rewrite lookup_insert_ne by done.
  unfold merge. rewrite lookup_union, Hp, He. reflexivity.
Qed.

(** ** Index lookups by value *)

Lemma index_equal_select (i x : string) (E : list (key * value)) :
  (filter (fun e : key * value => e.1 = KStr x)
     (omap (fun e : key * value =>
              match e.2 with
              | VObj m => (fun ik => (ik, e.2)) <$> (m !! i ≫= to_key)
              | _ => None
              end) E)).*2
  = filter (fun v => hasOwnString i x v = true) (E.*2).
Proof.
  induction E as [|[k v] E IH]; [reflexivity|].
  cbn [omap list_omap snd fmap list_fmap].
  assert (Hdrop : hasOwnString i x v = false ->
            filter (fun v => hasOwnString i x v = true) (v :: E.*2)
            = filter (fun v => hasOwnString i x v = true) (E.*2)).
  { intros H. apply filter_cons_False. congruence. }
  destruct v as [| | | | | | |m|]; try (rewrite Hdrop by reflexivity; exact IH).
  cbn [hasOwnString] in *.
  destruct (m !! i) as [[| | |z|y|[t|]| | |]|] eqn:Em;
    cbn [mbind option_bind to_key fmap option_fmap option_map];
    try (rewrite Hdrop by reflexivity; exact IH).
  destruct (String.eqb_spec y x) as [->|Hne].
  - rewrite filter_cons_True by reflexivity.
    rewrite (filter_cons_True (fun v => hasOwnString i x v = true)).
    2:{ cbn. rewrite Em. apply String.eqb_refl. }
    cbn [fmap list_fmap snd]. f_equal. exact IH.
  - rewrite filter_cons_False by (intros Hk; cbn in Hk; congruence).
    rewrite Hdrop by reflexivity. exact IH.
Qed.

Lemma hasOwnString_obj i x v : hasOwnString i x v = true -> exists m, v = VObj m.
Proof. destruct v; try discriminate. eauto. Qed.

Lemma idb_entity_getByIndexValue n i x w : ready w -> isStore n -> i ∈ indexesOf n ->
  exists l,
    Entity.getByIndexValue IndexedDB.module n i (VStr x) w
    = Ret (deserialized <$> l) (opened w)
    ∧ l ≡ₚ filter (fun v => hasOwnString i x v = true)
             (map_to_list (storeRecords w n)).*2.
Proof.
  intros Hr Hn Hi. eexists. split.
  - unfold Entity.getByIndexValue. cbn [db_getByIndex IndexedDB.module].
    rewrite (bind_Ret _ _ _ _ _ (idb_getByIndex_ready w n i x Hr Hn Hi)).
    unfold mapOutcome. rewrite omapM_deserialize; [reflexivity|].
    intros v Hv. unfold IndexedDB.ordered in Hv.
    rewrite merge_sort_Permutation, index_equal_select in Hv.
    apply list_elem_of_filter in Hv as [Hv _]. by apply (hasOwnString_obj i x).
  - unfold IndexedDB.ordered.
    rewrite merge_sort_Permutation, index_equal_select.
    by rewrite merge_sort_Permutation.
Qed.

(** ** Date ranges that cannot be served *)

Lemma dayBoundary_invalid (f : Z -> Z) v : (forall t, v ≠ VDate (Some t)) ->
  (forall n, v ≠ VNum n) ->
  call_toISOString (dayBoundary f v) = Raise RangeError.
Proof.
  intros Hd Hn. unfold dayBoundary, toDate.
  destruct v as [| | |z| |[t|]| | |]; try reflexivity.
  - by destruct (Hn z).
  - by destruct (Hd t).
Qed.

Lemma idb_getByIndexRange_reversed w n i lov hiv klo khi :
  ready w -> isStore n ->
  (forall s0, IndexedDB.schema !! n = Some s0 -> i ∈ os_indexes s0) ->
  to_key lov = Some klo -> to_key hiv = Some khi -> key_leb klo khi = false ->
  IndexedDB.getByIndexRange n i lov hiv w = Throw (DOMException "DataError") (opened w).
Proof.
  intros Hr Hn Hi Hlo Hhi Hle. unfold IndexedDB.getByIndexRange.
  pose proof Hn as [s0 Hs0]. open_store w n Hr Hn.
  unfold IndexedDB.indexOf. rewrite (Ei s0 Hs0).
  rewrite bool_decide_eq_true_2 by (by apply Hi).
  cbn [bind ret]. by rewrite Hlo, Hhi, Hle.
Qed.

Lemma recordsBetween_reversed lo hi l : hi < lo -> recordsBetween lo hi l = [].
Proof.
  intros H. unfold recordsBetween. induction l as [|v l IH]; [reflexivity|].
  rewrite filter_cons_False; [exact IH|].
  unfold betweenb. destruct (recordTime v) as [t|]; [|discriminate].
  destruct (Z.leb_spec lo t), (Z.leb_spec t hi); cbn; try discriminate. lia.
Qed.

Lemma date_index n : n = STORES.EXERCISES ∨ n = STORES.FOODS ->
  forall s0, IndexedDB.schema !! n = Some s0 -> "date" ∈ os_indexes s0.
Proof.
  intros [->| ->] s0 H; vm_compute in H; inversion H; set_solver.
Qed.

(** ** Clearing and importing *)

Lemma isStore_cases n : isStore n ->
  n = STORES.EXERCISES ∨ n = STORES.FOODS ∨ n = STORES.SETTINGS.
Proof.
  intros [s Hs]. unfold IndexedDB.schema in Hs.
  destruct (decide (n = STORES.EXERCISES)) as [->|N1]; [by left|].
  rewrite lookup_insert_ne in Hs by done.
  destruct (decide (n = STORES.FOODS)) as [->|N2]; [right; by left|].
  rewrite lookup_insert_ne in Hs by done.
  destruct (decide (n = STORES.SETTINGS)) as [->|N3]; [right; by right|].
  rewrite lookup_insert_ne in Hs by done. by rewrite lookup_empty in Hs.
Qed.

Lemma idb_entity_getAll_empty n w : ready w -> isStore n -> storeRecords w n = ∅ ->
  Entity.getAll IndexedDB.module n w = Ret [] (opened w).
Proof.
  intros Hr Hn Hs. unfold Entity.getAll. cbn [db_getAll IndexedDB.module].
  rewrite (bind_Ret _ _ _ _ _ (idb_getAll_ready w n Hr Hn)). rewrite Hs.
  by rewrite map_to_list_empty.
Qed.

Lemma ls_clearAllData_window w : w_window w = true ->
  let w' := set_localStorage
              (delete (LocalStorage.getStoreKey STORES.SETTINGS)
                 (delete (LocalStorage.getStoreKey STORES.FOODS)
                    (delete (LocalStorage.getStoreKey STORES.EXERCISES)
                       (w_localStorage w)))) w in
  DataExportRepository.clearAllData LocalStorage.module w = Ret tt w'
  ∧ w_window w' = true
  ∧ forall n, isStore n -> storeData w' n = ∅.
Proof.
  intros Hw w'. split; [|split; [exact Hw|]].
  - subst w'. destruct w as [win idb db ls now load con ref rc]. cbn in Hw. subst win.
    reflexivity.
  - intros n Hn. unfold storeData. subst w'. cbn [set_localStorage w_localStorage].
    destruct (isStore_cases n Hn) as [->|[->| ->]].
    + rewrite !lookup_delete_ne by done. by rewrite lookup_delete_eq.
    + rewrite lookup_delete_ne by done. by rewrite lookup_delete_eq.
    + by rewrite lookup_delete_eq.
Qed.

Lemma ls_entity_getAll_empty n w : w_window w = true -> storeData w n = ∅ ->
  Entity.getAll LocalStorage.module n w = Ret [] w.
Proof.
  intros Hw Hs. unfold Entity.getAll. cbn [db_getAll LocalStorage.module].
  rewrite (bind_Ret _ _ _ _ _ (ls_getAll_window w n Hw)). rewrite Hs.
  unfold LocalStorage.values. by rewrite map_to_list_empty.
Qed.

(** Importing two records that share their identifier into an empty
    store. *)
Lemma idb_import_duplicate n w (r1 r2 : value) id :
  ready w -> isStore n -> storeRecords w n = ∅ ->
  storedEntity (KStr id) r1 -> storedEntity (KStr id) r2 ->
  let w' := putStore n (<[KStr id := r1]> ∅) w in
  DataExportRepository.importRecords (Entity.create IndexedDB.module n)
    (VArr [r1; r2]) w
  = Throw (Error ("Failed to add item to " +:+ n)) w'.
Proof.
  intros Hr Hn He H1 H2 w'.
  destruct (storedEntity_codec _ _ H1) as (e1 & Hd1 & Hs1 & Hk1).
  destruct (storedEntity_codec _ _ H2) as (e2 & Hd2 & Hs2 & Hk2).
  assert (Hc1 : Entity.create IndexedDB.module n e1 w = Ret e1 w').
  { unfold Entity.create, Entity.serialize. rewrite lift_bind, Hs1.
    cbn [db_add IndexedDB.module]. erewrite bind_Ret; [reflexivity|].
    rewrite (idb_add_new w n r1 (KStr id) Hr Hn Hk1) by (by rewrite He).
    by rewrite He. }
  assert (Hr' : ready w') by (by apply ready_putStore).
  assert (Hc2 : Entity.create IndexedDB.module n e2 w'
                = Throw (Error ("Failed to add item to " +:+ n)) w').
  { unfold Entity.create, Entity.serialize. rewrite lift_bind, Hs2.
    cbn [db_add IndexedDB.module]. erewrite bind_Throw; [reflexivity|].
    rewrite (idb_add_duplicate w' n r2 (KStr id) r1 Hr' Hn Hk2).
    - subst w'. by rewrite opened_putStore.
    - subst w'. rewrite storeRecords_putStore_eq by assumption. apply lookup_insert_eq. }
  unfold DataExportRepository.importRecords. cbn [forOf].
  unfold Entity.deserialize in Hd1, Hd2.
  erewrite bind_Ret.
  2:{ rewrite lift_bind, Hd1. by rewrite (bind_Ret _ _ _ _ _ Hc1). }
  erewrite bind_Throw; [reflexivity|].
  rewrite lift_bind, Hd2. by rewrite (bind_Throw _ _ _ _ _ Hc2).
Qed.

(** * Further properties *)

(** ** Names of exercises and of food entries *)

(** X1. [getUniqueNames] lists every name of a stored exercise exactly
    once, in strictly ascending order of code units, and lists nothing
    else; it leaves the state as [getAll] leaves it. Stated for exercises
    whose names are strings. *)
Theorem getUniqueNames_sorted_without_repetition (db : Backend) (w w' : world)
    (exercises : list value)
    (Hall : ExerciseRepository.getAll db w = Ret exercises w')
    (Hnames : forallb namedByString exercises = true) :
  exists names : list string,
    ExerciseRepository.getUniqueNames db w = Ret (VStr <$> names) w'
    ∧ StronglySorted string_lt names
    ∧ forall s, s ∈ names ↔ exists e, e ∈ exercises ∧ nameOf e = VStr s.
Proof.
  destruct (names_strings exercises Hnames) as (ss & Hss & Hin).
  destruct (new_Set_strings ss) as (us & Hus & Hnd & Hu).
  destruct (sort_strings us Hnd) as (rs & Hsort & Hp & Hsorted).
  exists rs. split; [|split; [exact Hsorted|]].
  - unfold ExerciseRepository.getUniqueNames.
    rewrite (bind_Ret _ _ _ _ _ Hall).
    rewrite (bind_Ret _ _ _ _ _
               (names_of_entities exercises w' (entity_getAll_shape db _ w _ w' Hall))).
    by rewrite Hss, Hus, Hsort.
  - intros s. rewrite <- Hin, <- Hu. by rewrite Hp.
Qed.

Lemma gym_getAll :
  ExerciseRepository.getAll IndexedDB.module Cases.gym = Ret Cases.gymExercises Cases.gym.
Proof. vm_compute. reflexivity. Qed.

Lemma getUniqueNames_sorted_without_repetition_witness :
  ExerciseRepository.getAll IndexedDB.module Cases.gym = Ret Cases.gymExercises Cases.gym
  ∧ forallb namedByString Cases.gymExercises = true
  ∧ exists names : list string,
      ExerciseRepository.getUniqueNames IndexedDB.module Cases.gym
      = Ret (VStr <$> names) Cases.gym
      ∧ StronglySorted string_lt names
      ∧ forall s, s ∈ names ↔ exists e, e ∈ Cases.gymExercises ∧ nameOf e = VStr s.
Proof.
  split; [exact gym_getAll|]. split; [reflexivity|].
  apply (getUniqueNames_sorted_without_repetition IndexedDB.module Cases.gym Cases.gym
           Cases.gymExercises gym_getAll).
  reflexivity.
Defined.

Example getUniqueNames_of_gym :
  List.length Cases.gymExercises = 3%nat
  ∧ ExerciseRepository.getUniqueNames IndexedDB.module Cases.gym
    = Ret [VStr "Bench Press"; VStr "Squat"] Cases.gym.
Proof. split; vm_compute; reflexivity. Qed.

(** X2. [getRecentFoodNames(limit)] returns at most [limit] names, and one
    name when [limit] is below 1; every name it returns is the name of a
    stored food entry; when the names are strings none is returned twice.
    [limit] is 10 when the argument is left out. The state is left as
    [getAll] leaves it. *)
Theorem getRecentFoodNames_bounded (db : Backend) (limit : option Z) (w w' : world)
    (foods : list value)
    (Hall : FoodRepository.getAll db w = Ret foods w') :
  exists names,
    FoodRepository.getRecentFoodNames db limit w = Ret names w'
    ∧ Z.of_nat (List.length names) <= Z.max 1 (default 10 limit)
    ∧ (forall v, v ∈ names -> exists f, f ∈ foods ∧ nameOf f = v)
    ∧ (forallb namedByString foods = true -> NoDup names).
Proof.
  pose proof (entity_getAll_shape db _ w _ w' Hall) as Hshape.
  destruct (Array_sort_perm FoodRepository.byCreatedAtDescending _ _
              byCreatedAtDescending_dates foods Hshape) as (sorted & Hsort & Hp).
  assert (Hshape' : Forall (fun e => exists (m : gmap string value) t,
                       e = VObj m ∧ m !! "createdAt" = Some (VDate t)) sorted)
    by (by rewrite Hp).
  destruct (collectNames_spec (default 10 limit) sorted [] Hshape' (or_introl eq_refl))
    as (names & Hc & Hb & Hin & Hnd).
  exists names. split; [|split; [exact Hb|split]].
  - unfold FoodRepository.getRecentFoodNames.
    rewrite (bind_Ret _ _ _ _ _ Hall), Hsort, bind_lift_Ok. by rewrite Hc.
  - intros v Hv. destruct (Hin v Hv) as (f & Hf & Hn). exists f.
    split; [by rewrite <- Hp|exact Hn].
  - intros Hs. apply Hnd; [apply NoDup_nil_2|].
    apply forallb_forall. intros f Hf. rewrite forallb_forall in Hs. apply Hs.
    apply list_elem_of_In. rewrite <- Hp. by apply list_elem_of_In.
Qed.

Lemma pantry_getAll :
  FoodRepository.getAll IndexedDB.module Cases.pantry = Ret Cases.pantryFoods Cases.pantry.
Proof. vm_compute. reflexivity. Qed.

Lemma getRecentFoodNames_bounded_witness :
  FoodRepository.getAll IndexedDB.module Cases.pantry = Ret Cases.pantryFoods Cases.pantry
  ∧ exists names,
      FoodRepository.getRecentFoodNames IndexedDB.module (Some 2) Cases.pantry
      = Ret names Cases.pantry
      ∧ Z.of_nat (List.length names) <= Z.max 1 2
      ∧ (forall v, v ∈ names -> exists f, f ∈ Cases.pantryFoods ∧ nameOf f = v)
      ∧ (forallb namedByString Cases.pantryFoods = true -> NoDup names).
Proof.
  split; [exact pantry_getAll|].
  exact (getRecentFoodNames_bounded IndexedDB.module (Some 2) Cases.pantry Cases.pantry
           Cases.pantryFoods pantry_getAll).
Defined.

(** X3. When the store holds food entries and their creation dates are
    valid, the first name [getRecentFoodNames] returns is the name of an
    entry created latest. With a [limit] of 1 or less it is the only name
    returned: a [limit] of 0 still yields one name. *)
Theorem getRecentFoodNames_starts_with_latest (db : Backend) (limit : option Z)
    (w w' : world) (foods : list value)
    (Hall : FoodRepository.getAll db w = Ret foods w')
    (Hnonempty : foods ≠ [])
    (Hvalid : forallb (fun f => bool_decide (is_Some (createdTime f))) foods = true) :
  exists f t names,
    FoodRepository.getRecentFoodNames db limit w = Ret (nameOf f :: names) w'
    ∧ f ∈ foods ∧ createdTime f = Some t
    ∧ (forall g u, g ∈ foods -> createdTime g = Some u -> u <= t)
    ∧ (default 10 limit <= 1 -> names = []).
Proof.
  pose proof (entity_getAll_shape db _ w _ w' Hall) as Hshape.
  set (P := fun e : value =>
              (exists (m : gmap string value) t,
                 e = VObj m ∧ m !! "createdAt" = Some (VDate t))
              ∧ is_Some (createdTime e)).
  assert (HP : Forall P foods).
  { apply Forall_forall. intros f Hf. split.
    - rewrite Forall_forall in Hshape. by apply Hshape.
    - rewrite forallb_forall in Hvalid. apply list_elem_of_In, Hvalid in Hf.
      by apply bool_decide_eq_true in Hf. }
  destruct (Array_sort_sorted FoodRepository.byCreatedAtDescending
              (fun a b => match createdTime b, createdTime a with
                          | Some y, Some x => y <=? x
                          | _, _ => true
                          end) P) with (l := foods) as (sorted & Hsort & Hp & Hs).
  - intros a b [Ha _] [Hb _]. by apply byCreatedAtDescending_dates.
  - intros a b [_ [x ->]] [_ [y ->]]. rewrite !Z.leb_gt, Z.leb_le. lia.
  - intros a b c [_ [x ->]] [_ [y ->]] [_ [z ->]]. rewrite !Z.leb_le. lia.
  - exact HP.
  - destruct sorted as [|f rest].
    { apply Permutation_nil in Hp. contradiction. }
    assert (HP' : Forall P (f :: rest)) by (by rewrite Hp).
    destruct (collectNames_first (default 10 limit) f rest) as (names & Hc & Hone).
    { eapply Forall_impl; [exact HP'|]. by intros e [He _]. }
    pose proof HP' as HPf. apply Forall_cons in HPf as [[_ [t Ht]] _].
    exists f, t, names. split; [|split; [|split; [exact Ht|split; [|exact Hone]]]].
    + unfold FoodRepository.getRecentFoodNames.
      rewrite (bind_Ret _ _ _ _ _ Hall), Hsort, bind_lift_Ok. by rewrite Hc.
    + rewrite <- Hp. left.
    + intros g u Hg Hu. rewrite <- Hp in Hg. apply elem_of_cons in Hg as [->|Hg].
      * rewrite Ht in Hu. inversion Hu. lia.
      * apply StronglySorted_inv in Hs as [_ Hs]. rewrite Forall_forall in Hs.
        specialize (Hs g Hg). cbn in Hs. rewrite Hu, Ht in Hs. by apply Z.leb_le.
Qed.

Lemma getRecentFoodNames_starts_with_latest_witness :
  FoodRepository.getAll IndexedDB.module Cases.pantry = Ret Cases.pantryFoods Cases.pantry
  ∧ Cases.pantryFoods ≠ []
  ∧ exists f t names,
      FoodRepository.getRecentFoodNames IndexedDB.module (Some 0) Cases.pantry
      = Ret (nameOf f :: names) Cases.pantry
      ∧ f ∈ Cases.pantryFoods ∧ createdTime f = Some t
      ∧ (forall g u, g ∈ Cases.pantryFoods -> createdTime g = Some u -> u <= t)
      ∧ (0 <= 1 -> names = []).
Proof.
  assert (Hne : Cases.pantryFoods ≠ []) by discriminate.
  split; [exact pantry_getAll|]. split; [exact Hne|].
  apply (getRecentFoodNames_starts_with_latest IndexedDB.module (Some 0) Cases.pantry
           Cases.pantry Cases.pantryFoods pantry_getAll Hne).
  reflexivity.
Defined.

Example getRecentFoodNames_of_pantry :
  FoodRepository.getRecentFoodNames IndexedDB.module None Cases.pantry
  = Ret [VStr "Oats"; VStr "Rice"] Cases.pantry
  ∧ FoodRepository.getRecentFoodNames IndexedDB.module (Some 0) Cases.pantry
    = Ret [VStr "Oats"] Cases.pantry.
Proof. split; vm_compute; reflexivity. Qed.

(** ** The durable engine *)

(** X4. In a state where the database can be opened, [getAll] of the
    durable engine resolves to the records of the store, each exactly
    once, in strictly ascending order of their keys. *)
Theorem durable_getAll_in_key_order (w : world) (n : string)
    (Hready : ready w) (Hstore : isStore n) :
  exists entries : list (key * value),
    IndexedDB.getAll n w = Ret entries.*2 (opened w)
    ∧ entries ≡ₚ map_to_list (storeRecords w n)
    ∧ StronglySorted key_lt entries.*1.
Proof.
  exists (merge_sort IndexedDB.entry_le (map_to_list (storeRecords w n))).
  split; [by apply idb_getAll_ready|].
  split; [apply merge_sort_Permutation|apply sorted_entries_strict].
Qed.

Lemma durable_getAll_in_key_order_witness :
  ready Cases.gym
  ∧ exists entries : list (key * value),
      IndexedDB.getAll STORES.EXERCISES Cases.gym = Ret entries.*2 (opened Cases.gym)
      ∧ entries ≡ₚ map_to_list (storeRecords Cases.gym STORES.EXERCISES)
      ∧ StronglySorted key_lt entries.*1.
Proof.
  split; [exact ready_gym|].
  exact (durable_getAll_in_key_order Cases.gym STORES.EXERCISES ready_gym
           isStore_exercises).
Defined.

(** X5. Without [window] every operation of the durable engine rejects
    with the error of [openDatabase] and leaves the state as it is. *)
Theorem durable_engine_rejects_without_window (w : world) (n : string)
    (Hserver : w_window w = false) :
  (forall id, IndexedDB.getById n id w = unavailable w)
  ∧ IndexedDB.getAll n w = unavailable w
  ∧ (forall item, IndexedDB.add n item w = unavailable w)
  ∧ (forall item, IndexedDB.update n item w = unavailable w)
  ∧ (forall id, IndexedDB.deleteById n id w = unavailable w)
  ∧ (forall i v, IndexedDB.getByIndex n i v w = unavailable w)
  ∧ (forall i lo hi, IndexedDB.getByIndexRange n i lo hi w = unavailable w)
  ∧ IndexedDB.clearStore n w = unavailable w.
Proof.
  repeat split; intros; by apply idb_openDatabase_server.
Qed.

Lemma durable_engine_rejects_without_window_witness :
  w_window Cases.server = false
  ∧ IndexedDB.getAll STORES.FOODS Cases.server
    = Throw (Error "IndexedDB is not available in this environment") Cases.server.
Proof.
  split; [reflexivity|].
  exact (proj1 (proj2 (durable_engine_rejects_without_window Cases.server STORES.FOODS
                         eq_refl))).
Defined.

(** ** The degraded engine *)

(** X6. Without [window] the degraded engine reads every store as empty
    and drops every write: [add] and [update] resolve with the item as if
    it had been stored, yet the state is unchanged and the item is not
    found afterwards. *)
Theorem degraded_engine_drops_writes_without_window (w : world) (n id : string)
    (item : gmap string value)
    (Hserver : w_window w = false)
    (Hid : item !! "id" = Some (VStr id))
    (Hown : inheritedValue id = VUndef) :
  LocalStorage.add n (VObj item) w = Ret (VObj item) w
  ∧ LocalStorage.update n (VObj item) w = Ret (VObj item) w
  ∧ LocalStorage.getById n id w = Ret VNull w
  ∧ LocalStorage.getAll n w = Ret [] w
  ∧ LocalStorage.deleteById n id w = Ret tt w
  ∧ LocalStorage.clearStore n w = Ret tt w.
Proof.
  pose proof (ls_getStoreData_server w n Hserver) as Hg.
  assert (Hp : get_prop (VObj item) "id" = Ok (VStr id))
    by (rewrite get_prop_obj by reflexivity; by rewrite Hid).
  repeat split.
  - unfold LocalStorage.add. rewrite (bind_Ret _ _ _ _ _ Hg), lift_bind, Hp.
    cbn [ToString]. rewrite (lookupProp_own _ _ Hown), lookup_empty. cbn [from_option truthy].
    by rewrite (bind_Ret _ _ _ _ _ (ls_setStoreData_server w n _ Hserver)).
  - unfold LocalStorage.update. rewrite (bind_Ret _ _ _ _ _ Hg), lift_bind, Hp.
    by rewrite (bind_Ret _ _ _ _ _ (ls_setStoreData_server w n _ Hserver)).
  - unfold LocalStorage.getById. rewrite (bind_Ret _ _ _ _ _ Hg).
    by rewrite (lookupProp_own _ _ Hown), lookup_empty.
  - unfold LocalStorage.getAll. by rewrite (bind_Ret _ _ _ _ _ Hg).
  - unfold LocalStorage.deleteById. rewrite (bind_Ret _ _ _ _ _ Hg).
    by apply ls_setStoreData_server.
  - unfold LocalStorage.clearStore. by rewrite Hserver.
Qed.

Lemma degraded_engine_drops_writes_without_window_witness :
  w_window Cases.server = false
  ∧ Examples.benchPressStored !! "id" = Some (VStr "ex-1")
  ∧ LocalStorage.add STORES.EXERCISES (VObj Examples.benchPressStored) Cases.server
    = Ret (VObj Examples.benchPressStored) Cases.server
  ∧ LocalStorage.getById STORES.EXERCISES "ex-1" Cases.server = Ret VNull Cases.server.
Proof.
  split; [reflexivity|]. split; [reflexivity|].
  destruct (degraded_engine_drops_writes_without_window Cases.server STORES.EXERCISES
              "ex-1" Examples.benchPressStored eq_refl eq_refl eq_refl)
    as (Ha & _ & Hg & _).
  split; [exact Ha|exact Hg].
Defined.

(** X7. With [window], what the degraded engine stores is read back as
    its JSON image: after [update] (or an [add] that finds the identifier
    free) [getById] resolves to the item as [JSON.parse(JSON.stringify(..))]
    renders it, so a date comes back as its ISO text and a property holding
    [undefined] is gone. The item is filed under its identifier and the
    other records of the store are kept. Stated for items made of data. *)
Theorem degraded_engine_reads_back_json_image (w : world) (n id : string)
    (item : gmap string value)
    (Hwindow : w_window w = true) (Hdata : isData (VObj item) = true)
    (Hid : item !! "id" = Some (VStr id))
    (Hown : inheritedValue id = VUndef) :
  exists w',
    LocalStorage.update n (VObj item) w = Ret (VObj item) w'
    ∧ (storeData w n !! id = None -> LocalStorage.add n (VObj item) w = Ret (VObj item) w')
    ∧ LocalStorage.getById n id w' = Ret (json_clone (VObj item)) w'
    ∧ storeData w' n = json_clone_object (<[id := VObj item]> (storeData w n)).
Proof.
  assert (Hp : get_prop (VObj item) "id" = Ok (VStr id))
    by (rewrite get_prop_obj by reflexivity; by rewrite Hid).
  exists (lsPut n (<[id := VObj item]> (storeData w n)) w).
  split; [|split; [|split]].
  - rewrite (ls_update_window w n (VObj item) (VStr id) Hwindow Hp). cbn [ToString].
    by rewrite (assignProp_own _ _ _ Hown).
  - intros Hfree. rewrite (ls_add_window w n (VObj item) (VStr id) Hwindow Hp).
    cbn [ToString]. rewrite (lookupProp_own _ _ Hown), Hfree. cbn [from_option truthy].
    by rewrite (assignProp_own _ _ _ Hown).
  - rewrite ls_getById_window by exact Hwindow.
    rewrite storeData_lsPut.
    by rewrite (lookupProp_Some _ _ _ (json_clone_object_insert _ id item)).
  - apply storeData_lsPut.
Qed.

Lemma degraded_engine_reads_back_json_image_witness :
  w_window Examples.legacyBrowser = true
  ∧ isData (VObj Examples.benchPress) = true
  ∧ Examples.benchPress !! "id" = Some (VStr "ex-1")
  ∧ exists w',
      LocalStorage.update STORES.EXERCISES (VObj Examples.benchPress) Examples.legacyBrowser
      = Ret (VObj Examples.benchPress) w'
      ∧ LocalStorage.getById STORES.EXERCISES "ex-1" w'
        = Ret (json_clone (VObj Examples.benchPress)) w'.
Proof.
  split; [reflexivity|]. split; [reflexivity|]. split; [reflexivity|].
  destruct (degraded_engine_reads_back_json_image Examples.legacyBrowser STORES.EXERCISES
              "ex-1" Examples.benchPress eq_refl eq_refl eq_refl eq_refl) as (w' & Hu & _ & Hg & _).
  exists w'. split; [exact Hu|exact Hg].
Defined.

Example json_image_of_benchPress :
  json_clone (VObj Examples.benchPress) = VObj Examples.benchPressStored.
Proof. vm_compute. reflexivity. Qed.

(** ** Both engines *)

(** X8. An operation of either engine changes no store but the one it is
    called on: whatever the operation and the state, and whether it
    resolves or rejects, the records of every other store are afterwards
    what they were. *)
Theorem operations_leave_other_stores_alone (o : op) (w : world) (n : string)
    (Hother : n ≠ opStore o) :
  storeRecords (perform IndexedDB.module o w).2 n = storeRecords w n
  ∧ storeData (perform LocalStorage.module o w).2 n = storeData w n.
Proof.
  split.
  - exact (idbOutcome_other _ _ _ n (proj1 (idb_perform_outcome o w)) Hother).
  - exact (lsOutcome_other _ _ _ n (proj1 (ls_perform_outcome o w)) Hother).
Qed.

Lemma operations_leave_other_stores_alone_witness :
  STORES.EXERCISES ≠ opStore (ClearStore STORES.FOODS)
  ∧ storeRecords (perform IndexedDB.module (ClearStore STORES.FOODS) Cases.gym).2
      STORES.EXERCISES
    = storeRecords Cases.gym STORES.EXERCISES.
Proof.
  assert (Hne : STORES.EXERCISES ≠ opStore (ClearStore STORES.FOODS)) by discriminate.
  split; [exact Hne|].
  exact (proj1 (operations_leave_other_stores_alone (ClearStore STORES.FOODS) Cases.gym
                  STORES.EXERCISES Hne)).
Defined.

(** X9. The four reads ([getById], [getAll], [getByIndex],
    [getByIndexRange]) write nothing, whether they resolve or reject: the
    degraded engine leaves the state exactly as it was, the durable engine
    at most creates the database, with the records of every store as they
    were. *)
Theorem reads_write_nothing (o : op) (w : world) (Hread : isRead o = true) :
  (forall n, storeRecords (perform IndexedDB.module o w).2 n = storeRecords w n)
  ∧ (perform LocalStorage.module o w).2 = w.
Proof.
  split.
  - apply idbOutcome_read. exact (proj2 (idb_perform_outcome o w) Hread).
  - exact (proj2 (ls_perform_outcome o w) Hread).
Qed.

Lemma reads_write_nothing_witness :
  isRead (GetByIndex STORES.SETTINGS "name" (VStr "x")) = true
  ∧ (perform LocalStorage.module (GetByIndex STORES.SETTINGS "name" (VStr "x"))
       Examples.stockedDegraded).2 = Examples.stockedDegraded.
Proof.
  split; [reflexivity|].
  exact (proj2 (reads_write_nothing (GetByIndex STORES.SETTINGS "name" (VStr "x"))
                  Examples.stockedDegraded eq_refl)).
Defined.

(** ** Entity repositories *)

(** X10. An entity made of data, with a string identifier that is not yet
    stored and three valid dates, is created and then read back unchanged:
    [create] resolves with the entity, a following [getById] resolves with
    the same entity, and the other records of the store are kept. Stated
    for both repositories on the durable engine. *)
Theorem create_then_getById_returns_the_entity (w : world) (e : gmap string value)
    (id : string) (d c u : Z)
    (Hready : ready w) (Hdata : isData (VObj e) = true)
    (Hid : e !! "id" = Some (VStr id))
    (Hd : holdsDate e "date" d) (Hc : holdsDate e "createdAt" c)
    (Hu : holdsDate e "updatedAt" u) :
  (storeRecords w STORES.EXERCISES !! KStr id = None ->
   exists w',
     ExerciseRepository.create IndexedDB.module (VObj e) w = Ret (VObj e) w'
     ∧ ExerciseRepository.getById IndexedDB.module id w' = Ret (VObj e) w'
     ∧ forall k, k ≠ KStr id ->
         storeRecords w' STORES.EXERCISES !! k = storeRecords w STORES.EXERCISES !! k)
  ∧ (storeRecords w STORES.FOODS !! KStr id = None ->
     exists w',
       FoodRepository.create IndexedDB.module (VObj e) w = Ret (VObj e) w'
       ∧ FoodRepository.getById IndexedDB.module id w' = Ret (VObj e) w'
       ∧ forall k, k ≠ KStr id ->
           storeRecords w' STORES.FOODS !! k = storeRecords w STORES.FOODS !! k).
Proof.
  split; intros Hfree.
  - destruct (idb_create_then_getById STORES.EXERCISES w e id d c u Hready
                isStore_exercises Hid Hd Hc Hu Hfree) as (s & w' & _ & H1 & _ & Hs & H2).
    exists w'. split; [exact H1|]. split; [exact H2|].
    intros k Hk. rewrite Hs. by apply lookup_insert_ne.
  - destruct (idb_create_then_getById STORES.FOODS w e id d c u Hready
                isStore_foods Hid Hd Hc Hu Hfree) as (s & w' & _ & H1 & _ & Hs & H2).
    exists w'. split; [exact H1|]. split; [exact H2|].
    intros k Hk. rewrite Hs. by apply lookup_insert_ne.
Qed.

Lemma create_then_getById_returns_the_entity_witness :
  ready Examples.browser
  ∧ isData (VObj Examples.benchPress) = true
  ∧ storeRecords Examples.browser STORES.EXERCISES !! KStr "ex-1" = None
  ∧ exists w',
      ExerciseRepository.create IndexedDB.module (VObj Examples.benchPress) Examples.browser
      = Ret (VObj Examples.benchPress) w'
      ∧ ExerciseRepository.getById IndexedDB.module "ex-1" w'
        = Ret (VObj Examples.benchPress) w'.
Proof.
  split; [exact ready_browser|]. split; [reflexivity|]. split; [reflexivity|].
  destruct benchPress_dates as (Hd & Hc & Hu).
  destruct (proj1 (create_then_getById_returns_the_entity Examples.browser
                     Examples.benchPress "ex-1" _ _ _ ready_browser eq_refl eq_refl
                     Hd Hc Hu) eq_refl) as (w' & H1 & H2 & _).
  exists w'. split; [exact H1|exact H2].
Defined.

(** X11. Under an identifier that is not stored, [getById] resolves to
    [null] and [update] rejects with the error that names the entity and
    the identifier, whatever the updates are; nothing is written. On the
    degraded engine this holds for identifiers that do not name an
    inherited property. *)
Theorem update_of_missing_entity_is_rejected (id : string) (updates : value)
    (wd wl : world)
    (Hdurable : ready wd) (Hdegraded : w_window wl = true)
    (Hown : inheritedValue id = VUndef) :
  (storeRecords wd STORES.EXERCISES !! KStr id = None ->
   ExerciseRepository.getById IndexedDB.module id wd = Ret VNull (opened wd)
   ∧ ExerciseRepository.update IndexedDB.module id updates wd
     = Throw (Error ("Exercise with id " +:+ id +:+ " not found")) (opened wd))
  ∧ (storeRecords wd STORES.FOODS !! KStr id = None ->
     FoodRepository.getById IndexedDB.module id wd = Ret VNull (opened wd)
     ∧ FoodRepository.update IndexedDB.module id updates wd
       = Throw (Error ("Food entry with id " +:+ id +:+ " not found")) (opened wd))
  ∧ (storeData wl STORES.EXERCISES !! id = None ->
     ExerciseRepository.getById LocalStorage.module id wl = Ret VNull wl
     ∧ ExerciseRepository.update LocalStorage.module id updates wl
       = Throw (Error ("Exercise with id " +:+ id +:+ " not found")) wl)
  ∧ (storeData wl STORES.FOODS !! id = None ->
     FoodRepository.getById LocalStorage.module id wl = Ret VNull wl
     ∧ FoodRepository.update LocalStorage.module id updates wl
       = Throw (Error ("Food entry with id " +:+ id +:+ " not found")) wl)
  ∧ forall n, storeRecords (opened wd) n = storeRecords wd n.
Proof.
  split; [|split; [|split; [|split]]]; try (intros n; apply storeRecords_opened); intros Habs.
  - apply (entity_missing IndexedDB.module STORES.EXERCISES "Exercise" id updates wd VNull
             (opened wd)); [|reflexivity].
    cbn [db_getById IndexedDB.module].
    rewrite (idb_getById_ready wd _ id Hdurable isStore_exercises). by rewrite Habs.
  - apply (entity_missing IndexedDB.module STORES.FOODS "Food entry" id updates wd VNull
             (opened wd)); [|reflexivity].
    cbn [db_getById IndexedDB.module].
    rewrite (idb_getById_ready wd _ id Hdurable isStore_foods). by rewrite Habs.
  - apply (entity_missing LocalStorage.module STORES.EXERCISES "Exercise" id updates wl VNull
             wl); [|reflexivity].
    cbn [db_getById LocalStorage.module].
    rewrite (ls_getById_window wl _ id Hdegraded), (lookupProp_own _ _ Hown).
    by rewrite Habs.
  - apply (entity_missing LocalStorage.module STORES.FOODS "Food entry" id updates wl VNull
             wl); [|reflexivity].
    cbn [db_getById LocalStorage.module].
    rewrite (ls_getById_window wl _ id Hdegraded), (lookupProp_own _ _ Hown).
    by rewrite Habs.
Qed.

Lemma update_of_missing_entity_is_rejected_witness :
  ready Examples.stocked
  ∧ w_window Examples.stockedDegraded = true
  ∧ storeRecords Examples.stocked STORES.EXERCISES !! KStr "ex-9" = None
  ∧ ExerciseRepository.update IndexedDB.module "ex-9" (VObj Examples.backdate)
      Examples.stocked
    = Throw (Error "Exercise with id ex-9 not found") (opened Examples.stocked).
Proof.
  split; [exact ready_stocked|]. split; [reflexivity|].
  assert (Habs : storeRecords Examples.stocked STORES.EXERCISES !! KStr "ex-9" = None)
    by (vm_compute; reflexivity).
  split; [exact Habs|].
  exact (proj2 (proj1 (update_of_missing_entity_is_rejected "ex-9" (VObj Examples.backdate)
                         Examples.stocked Examples.stockedDegraded ready_stocked eq_refl
                         eq_refl) Habs)).
Defined.

(** X12. [delete] resolves whether or not the identifier is stored. After
    it the store holds the records it held, without the one under the
    identifier, and [getById] of the identifier resolves to [null]; when
    nothing was stored under the identifier the records are unchanged.
    Stated for both repositories on the durable engine. *)
Theorem delete_removes_that_entity_only (w : world) (id : string) (Hready : ready w) :
  (exists w',
     ExerciseRepository.delete IndexedDB.module id w = Ret tt w'
     ∧ storeRecords w' STORES.EXERCISES = delete (KStr id) (storeRecords w STORES.EXERCISES)
     ∧ ExerciseRepository.getById IndexedDB.module id w' = Ret VNull w'
     ∧ (storeRecords w STORES.EXERCISES !! KStr id = None ->
        storeRecords w' STORES.EXERCISES = storeRecords w STORES.EXERCISES))
  ∧ (exists w',
       FoodRepository.delete IndexedDB.module id w = Ret tt w'
       ∧ storeRecords w' STORES.FOODS = delete (KStr id) (storeRecords w STORES.FOODS)
       ∧ FoodRepository.getById IndexedDB.module id w' = Ret VNull w'
       ∧ (storeRecords w STORES.FOODS !! KStr id = None ->
          storeRecords w' STORES.FOODS = storeRecords w STORES.FOODS)).
Proof.
  split.
  - destruct (idb_entity_delete STORES.EXERCISES w id Hready isStore_exercises)
      as (H1 & _ & H2 & H3).
    eexists. split; [exact H1|]. split; [exact H2|]. split; [exact H3|].
    intros Habs. rewrite H2. by apply delete_id.
  - destruct (idb_entity_delete STORES.FOODS w id Hready isStore_foods)
      as (H1 & _ & H2 & H3).
    eexists. split; [exact H1|]. split; [exact H2|]. split; [exact H3|].
    intros Habs. rewrite H2. by apply delete_id.
Qed.

Lemma delete_removes_that_entity_only_witness :
  ready Cases.gym
  ∧ exists w',
      ExerciseRepository.delete IndexedDB.module "ex-2" Cases.gym = Ret tt w'
      ∧ storeRecords w' STORES.EXERCISES
        = delete (KStr "ex-2") (storeRecords Cases.gym STORES.EXERCISES)
      ∧ ExerciseRepository.getById IndexedDB.module "ex-2" w' = Ret VNull w'.
Proof.
  split; [exact ready_gym|].
  destruct (proj1 (delete_removes_that_entity_only Cases.gym "ex-2" ready_gym))
    as (w' & H1 & H2 & H3 & _).
  exists w'. split; [exact H1|]. split; [exact H2|exact H3].
Defined.

(** X13. [create] converts the three dates before it calls the storage
    engine: when [date], [createdAt] or [updatedAt] of the entity is not a
    valid [Date], [create] rejects with a [RangeError] (an invalid date) or
    a [TypeError] (not a date) and the state is exactly as before, on any
    engine. An invalid [date] gives the [RangeError]. Stated for entities
    made of data. *)
Theorem create_rejects_unwritable_dates (db : Backend) (e : gmap string value)
    (k : string) (w : world)
    (Hdata : isData (VObj e) = true)
    (Hk : k ∈ ["date"; "createdAt"; "updatedAt"])
    (Hbad : forall t, e !! k ≠ Some (VDate (Some t))) :
  exists err,
    (err = RangeError ∨ err = TypeError)
    ∧ ExerciseRepository.create db (VObj e) w = Throw err w
    ∧ FoodRepository.create db (VObj e) w = Throw err w
    ∧ (e !! "date" = Some (VDate None) -> err = RangeError).
Proof.
  destruct (serialize_rejects e k Hk Hbad) as (err & Hs & He).
  exists err. split; [exact He|].
  assert (Hc : forall n, Entity.create db n (VObj e) w = Throw err w).
  { intros n. unfold Entity.create. by rewrite lift_bind, Hs. }
  split; [apply Hc|]. split; [apply Hc|].
  intros Hd. unfold Entity.serialize, Entity.withIsoDates in Hs.
  rewrite (get_prop_obj e "date") in Hs by reflexivity. rewrite Hd in Hs.
  cbn in Hs. by inversion Hs.
Qed.

Lemma create_rejects_unwritable_dates_witness :
  isData (VObj (<["date" := VDate None]> Examples.benchPress)) = true
  ∧ "date" ∈ ["date"; "createdAt"; "updatedAt"]
  ∧ exists err,
      (err = RangeError ∨ err = TypeError)
      ∧ ExerciseRepository.create LocalStorage.module
          (VObj (<["date" := VDate None]> Examples.benchPress)) Examples.legacyBrowser
        = Throw err Examples.legacyBrowser.
Proof.
  assert (Hk : "date" ∈ ["date"; "createdAt"; "updatedAt"]) by apply list_elem_of_here.
  assert (Hdata : isData (VObj (<["date" := VDate None]> Examples.benchPress)) = true)
    by (vm_compute; reflexivity).
  split; [exact Hdata|]. split; [exact Hk|].
  destruct (create_rejects_unwritable_dates LocalStorage.module
              (<["date" := VDate None]> Examples.benchPress) "date" Examples.legacyBrowser
              Hdata Hk) as (err & He & Hc & _).
  { intros t. rewrite lookup_insert_eq. discriminate. }
  exists err. split; [exact He|exact Hc].
Defined.

(** X14. A stored record without a date (the [date] property is missing
    or [undefined], or holds an invalid date or a number beyond the range
    of time values) is read without an error, as an entity with an invalid
    [date], but cannot be updated: unless the updates carry a [date],
    [update] rejects with a [RangeError] and writes nothing. Stated for
    both repositories on the durable engine. *)
Theorem entity_with_unreadable_date_cannot_be_updated (w : world) (id : string)
    (r updates : gmap string value)
    (Hready : ready w)
    (Hdate : noDate (default VUndef (r !! "date")) = true)
    (Hupdates : updates !! "date" = None) :
  (storeRecords w STORES.EXERCISES !! KStr id = Some (VObj r) ->
   (exists e : gmap string value,
      ExerciseRepository.getById IndexedDB.module id w = Ret (VObj e) (opened w)
      ∧ e !! "date" = Some (VDate None))
   ∧ ExerciseRepository.update IndexedDB.module id (VObj updates) w
     = Throw RangeError (opened w))
  ∧ (storeRecords w STORES.FOODS !! KStr id = Some (VObj r) ->
     (exists e : gmap string value,
        FoodRepository.getById IndexedDB.module id w = Ret (VObj e) (opened w)
        ∧ e !! "date" = Some (VDate None))
     ∧ FoodRepository.update IndexedDB.module id (VObj updates) w
       = Throw RangeError (opened w))
  ∧ forall n, storeRecords (opened w) n = storeRecords w n.
Proof.
  apply noDate_new_Date in Hdate.
  split; [|split; [|intros n; apply storeRecords_opened]]; intros Hs.
  - exact (idb_entity_unreadable_date STORES.EXERCISES "Exercise" w id r updates Hready
             isStore_exercises Hs Hdate Hupdates).
  - exact (idb_entity_unreadable_date STORES.FOODS "Food entry" w id r updates Hready
             isStore_foods Hs Hdate Hupdates).
Qed.

Lemma entity_with_unreadable_date_cannot_be_updated_witness :
  ready Cases.undated
  ∧ noDate (default VUndef (Cases.undatedRecord !! "date")) = true
  ∧ storeRecords Cases.undated STORES.EXERCISES !! KStr "ex-1"
    = Some (VObj Cases.undatedRecord)
  ∧ ExerciseRepository.update IndexedDB.module "ex-1" (VObj ∅) Cases.undated
    = Throw RangeError (opened Cases.undated).
Proof.
  assert (Hr : ready Cases.undated).
  { apply ready_putStore; [exact ready_browser|apply isStore_exercises]. }
  assert (Hs : storeRecords Cases.undated STORES.EXERCISES !! KStr "ex-1"
               = Some (VObj Cases.undatedRecord)).
  { unfold Cases.undated.
    rewrite storeRecords_putStore_eq by (exact ready_browser || apply isStore_exercises).
    apply lookup_insert_eq. }
  split; [exact Hr|]. split; [reflexivity|]. split; [exact Hs|].
  exact (proj2 (proj1 (entity_with_unreadable_date_cannot_be_updated Cases.undated "ex-1"
                         Cases.undatedRecord ∅ Hr eq_refl (lookup_empty _)) Hs)).
Defined.

(** X15. [getByName] resolves to the stored exercises that have the given
    name as their own [name] property, deserialized, and to nothing else;
    [getByMealType] does the same for food entries and their [mealType].
    Stated on the durable engine, up to the order of the result. *)
Theorem getByName_returns_the_entities_of_that_name (w : world) (x : string)
    (Hready : ready w) :
  (exists l,
     ExerciseRepository.getByName IndexedDB.module x w
     = Ret (deserialized <$> l) (opened w)
     ∧ l ≡ₚ filter (fun v => hasOwnString "name" x v = true)
              (map_to_list (storeRecords w STORES.EXERCISES)).*2)
  ∧ (exists l,
       FoodRepository.getByMealType IndexedDB.module x w
       = Ret (deserialized <$> l) (opened w)
       ∧ l ≡ₚ filter (fun v => hasOwnString "mealType" x v = true)
                (map_to_list (storeRecords w STORES.FOODS)).*2).
Proof.
  split.
  - apply (idb_entity_getByIndexValue STORES.EXERCISES "name" x w Hready isStore_exercises).
    vm_compute. set_solver.
  - apply (idb_entity_getByIndexValue STORES.FOODS "mealType" x w Hready isStore_foods).
    vm_compute. set_solver.
Qed.

Lemma getByName_returns_the_entities_of_that_name_witness :
  ready Cases.gym
  ∧ exists l,
      ExerciseRepository.getByName IndexedDB.module "Squat" Cases.gym
      = Ret (deserialized <$> l) (opened Cases.gym)
      ∧ l ≡ₚ filter (fun v => hasOwnString "name" "Squat" v = true)
               (map_to_list (storeRecords Cases.gym STORES.EXERCISES)).*2.
Proof.
  split; [exact ready_gym|].
  exact (proj1 (getByName_returns_the_entities_of_that_name Cases.gym "Squat" ready_gym)).
Defined.

(** X16. [getByDate(d)] of the food repository resolves to the stored
    entries whose date lies within the local day of [d], from
    [startOfDay(d)] to [endOfDay(d)] inclusive, deserialized, on both
    engines (the durable one in index order). Stated for dates with years
    from 0000 to 9999. *)
Theorem getByDate_returns_the_entries_of_that_day {L : LocalDay}
    (recs : gmap string value) (t : Z) (wd wl : world)
    (Hrecs : forall id r, recs !! id = Some r -> isoDated r)
    (Hlo : IsoDate.fourDigitYear (startOfDay t))
    (Hhi : IsoDate.fourDigitYear (endOfDay t))
    (Hdurable : ready wd) (Hdegraded : w_window wl = true)
    (Hd : storeRecords wd STORES.FOODS = kmap KStr recs)
    (Hl : storeData wl STORES.FOODS = recs) :
  (exists l,
     FoodRepository.getByDate IndexedDB.module (VDate (Some t)) wd
     = Ret (deserialized <$> l) (opened wd)
     ∧ l ≡ₚ recordsBetween (startOfDay t) (endOfDay t) (LocalStorage.values recs))
  ∧ FoodRepository.getByDate LocalStorage.module (VDate (Some t)) wl
    = Ret (deserialized <$> recordsBetween (startOfDay t) (endOfDay t)
                              (LocalStorage.values recs)) wl.
Proof.
  split.
  - apply (durable_getByDateRange STORES.FOODS recs t t isStore_foods
             (date_index _ (or_intror eq_refl)) Hrecs Hlo Hhi (Z.le_refl t) wd Hdurable Hd).
  - apply (degraded_getByDateRange STORES.FOODS recs t t Hrecs Hlo Hhi wl Hdegraded Hl).
Qed.

Lemma getByDate_returns_the_entries_of_that_day_witness :
  ready Cases.larder
  ∧ storeRecords Cases.larder STORES.FOODS = kmap KStr Cases.larderRecords
  ∧ exists l,
      @FoodRepository.getByDate Examples.utc IndexedDB.module (VDate (Some 1704067200000))
        Cases.larder = Ret (deserialized <$> l) (opened Cases.larder)
      ∧ l ≡ₚ recordsBetween (@startOfDay Examples.utc 1704067200000)
               (@endOfDay Examples.utc 1704067200000)
               (LocalStorage.values Cases.larderRecords).
Proof.
  assert (Hr : ready Cases.larder).
  { apply ready_putStore; [exact ready_browser|apply isStore_foods]. }
  assert (Hs : storeRecords Cases.larder STORES.FOODS = kmap KStr Cases.larderRecords).
  { unfold Cases.larder.
    apply storeRecords_putStore_eq; [exact ready_browser|apply isStore_foods]. }
  assert (Hlo : IsoDate.fourDigitYear (@startOfDay Examples.utc 1704067200000))
    by (vm_compute; split; discriminate).
  assert (Hhi : IsoDate.fourDigitYear (@endOfDay Examples.utc 1704067200000))
    by (vm_compute; split; discriminate).
  split; [exact Hr|]. split; [exact Hs|].
  refine (proj1 (@getByDate_returns_the_entries_of_that_day Examples.utc
                   Cases.larderRecords 1704067200000 Cases.larder
                   (lsPut STORES.FOODS Cases.larderRecords Examples.legacyBrowser)
                   _ Hlo Hhi Hr eq_refl Hs _)).
  - exact benchPressRecords_isoDated.
  - rewrite storeData_lsPut. vm_compute. reflexivity.
Defined.

(** X17. A date query converts its bounds before it calls the storage
    engine: when the start is an invalid date, whatever the end is, or the
    start is a valid date and the end an invalid one, [getByDateRange] and
    [getByDate] reject with a [RangeError] and leave the state exactly as
    it was, on any engine. *)
Theorem date_queries_reject_invalid_dates {L : LocalDay} (db : Backend) (w : world)
    (t : Z) (Ht : IsoDate.fourDigitYear (startOfDay t)) :
  (forall endDate,
     ExerciseRepository.getByDateRange db (VDate None) endDate w = Throw RangeError w)
  ∧ (forall endDate,
       FoodRepository.getByDateRange db (VDate None) endDate w = Throw RangeError w)
  ∧ FoodRepository.getByDate db (VDate None) w = Throw RangeError w
  ∧ ExerciseRepository.getByDateRange db (VDate (Some t)) (VDate None) w
    = Throw RangeError w
  ∧ FoodRepository.getByDateRange db (VDate (Some t)) (VDate None) w
    = Throw RangeError w.
Proof.
  assert (Hd : forall u, VDate None ≠ VDate (Some u)) by discriminate.
  assert (Hn : forall n, VDate None ≠ VNum n) by discriminate.
  assert (H1 : forall n endDate,
            Entity.getByDateRange db n (VDate None) endDate w = Throw RangeError w).
  { intros n endDate. unfold Entity.getByDateRange.
    by rewrite lift_bind, (dayBoundary_invalid startOfDay _ Hd Hn). }
  assert (H2 : forall n,
            Entity.getByDateRange db n (VDate (Some t)) (VDate None) w
            = Throw RangeError w).
  { intros n. unfold Entity.getByDateRange.
    rewrite (dayBoundary_valid startOfDay t Ht), bind_lift_Ok.
    by rewrite lift_bind, (dayBoundary_invalid endOfDay _ Hd Hn). }
  split; [intros; apply H1|]. split; [intros; apply H1|]. split; [apply H1|].
  split; apply H2.
Qed.

Lemma date_queries_reject_invalid_dates_witness :
  IsoDate.fourDigitYear (@startOfDay Examples.utc 1704067200000)
  ∧ @FoodRepository.getByDate Examples.utc IndexedDB.module (VDate None) Cases.pantry
    = Throw RangeError Cases.pantry.
Proof.
  assert (Ht : IsoDate.fourDigitYear (@startOfDay Examples.utc 1704067200000))
    by (vm_compute; split; discriminate).
  split; [exact Ht|].
  exact (proj1 (proj2 (proj2 (@date_queries_reject_invalid_dates Examples.utc
                                IndexedDB.module Cases.pantry 1704067200000 Ht)))).
Defined.

(** X18. When the start day lies after the end day, the two engines
    answer [getByDateRange] differently: the durable engine rejects with
    the [DataError] of the key range and the degraded one resolves to the
    empty list. Stated for both repositories, for dates with years from
    0000 to 9999. *)
Theorem reversed_date_range_divides_the_engines {L : LocalDay}
    (t1 t2 : Z) (wd wl : world)
    (Hlo : IsoDate.fourDigitYear (startOfDay t1))
    (Hhi : IsoDate.fourDigitYear (endOfDay t2))
    (Hreversed : endOfDay t2 < startOfDay t1)
    (Hdurable : ready wd) (Hdegraded : w_window wl = true) :
  ExerciseRepository.getByDateRange IndexedDB.module (VDate (Some t1)) (VDate (Some t2)) wd
  = Throw (DOMException "DataError") (opened wd)
  ∧ FoodRepository.getByDateRange IndexedDB.module (VDate (Some t1)) (VDate (Some t2)) wd
    = Throw (DOMException "DataError") (opened wd)
  ∧ ((forall id r, storeData wl STORES.EXERCISES !! id = Some r -> isoDated r) ->
     ExerciseRepository.getByDateRange LocalStorage.module
       (VDate (Some t1)) (VDate (Some t2)) wl = Ret [] wl)
  ∧ ((forall id r, storeData wl STORES.FOODS !! id = Some r -> isoDated r) ->
     FoodRepository.getByDateRange LocalStorage.module
       (VDate (Some t1)) (VDate (Some t2)) wl = Ret [] wl).
Proof.
  assert (Hd : forall n, n = STORES.EXERCISES ∨ n = STORES.FOODS -> isStore n ->
            Entity.getByDateRange IndexedDB.module n (VDate (Some t1)) (VDate (Some t2)) wd
            = Throw (DOMException "DataError") (opened wd)).
  { intros n Hn Hs. unfold Entity.getByDateRange.
    rewrite !dayBoundary_valid by assumption. rewrite !bind_lift_Ok.
    cbn [db_getByIndexRange IndexedDB.module].
    erewrite bind_Throw; [reflexivity|].
    apply (idb_getByIndexRange_reversed wd n "date"
             (VStr (IsoDate.toISOString (startOfDay t1)))
             (VStr (IsoDate.toISOString (endOfDay t2)))
             (KStr (IsoDate.toISOString (startOfDay t1)))
             (KStr (IsoDate.toISOString (endOfDay t2)))
             Hdurable Hs (date_index n Hn) eq_refl eq_refl).
    rewrite key_leb_iso by assumption. apply Z.leb_gt. exact Hreversed. }
  assert (Hl : forall n, (forall id r, storeData wl n !! id = Some r -> isoDated r) ->
            Entity.getByDateRange LocalStorage.module n (VDate (Some t1)) (VDate (Some t2)) wl
            = Ret [] wl).
  { intros n Hrecs.
    rewrite (degraded_getByDateRange n (storeData wl n) t1 t2 Hrecs Hlo Hhi wl Hdegraded
               eq_refl).
    by rewrite recordsBetween_reversed. }
  split; [apply Hd; [by left|apply isStore_exercises]|].
  split; [apply Hd; [by right|apply isStore_foods]|].
  split; apply Hl.
Qed.

Lemma reversed_date_range_divides_the_engines_witness :
  @endOfDay Examples.utc 1704067200000 < @startOfDay Examples.utc 1704240000000
  ∧ ready Examples.stocked
  ∧ @ExerciseRepository.getByDateRange Examples.utc IndexedDB.module
      (VDate (Some 1704240000000)) (VDate (Some 1704067200000)) Examples.stocked
    = Throw (DOMException "DataError") (opened Examples.stocked).
Proof.
  assert (Hrev : @endOfDay Examples.utc 1704067200000
                 < @startOfDay Examples.utc 1704240000000) by (vm_compute; reflexivity).
  split; [exact Hrev|]. split; [exact ready_stocked|].
  refine (proj1 (@reversed_date_range_divides_the_engines Examples.utc
                   1704240000000 1704067200000 Examples.stocked Examples.stockedDegraded
                   _ _ Hrev ready_stocked eq_refl)).
  - vm_compute. split; discriminate.
  - vm_compute. split; discriminate.
Defined.

(** ** Settings *)

(** X19. [reset] does not read the settings store: in every state where
    the database can be opened it resolves, with the default settings
    stamped with the time of the call, and stores them. A following [get]
    resolves to these same settings, so that [reset] also ends the state in
    which [get] does not return. The other stores are unchanged. *)
Theorem reset_then_get_returns_the_defaults (w : world) (fuel : nat)
    (Hready : ready w) (Hnow : IsoDate.inRange (w_now w)) :
  exists w',
    UserSettingsRepository.reset IndexedDB.module w
    = Ret (VObj (settingsRecord (VNum 2000) (VStr "lbs") (VStr "system") (w_now w))) w'
    ∧ UserSettingsRepository.get IndexedDB.module (S fuel) w'
      = Ret (VObj (settingsRecord (VNum 2000) (VStr "lbs") (VStr "system") (w_now w))) w'
    ∧ forall n, n ≠ STORES.SETTINGS -> storeRecords w' n = storeRecords w n.
Proof.
  eexists. split; [by apply idb_settings_reset|].
  assert (Hr' : forall r, ready (putStore STORES.SETTINGS r w))
    by (intros r; apply ready_putStore; [exact Hready|apply isStore_settings]).
  split.
  - erewrite idb_settings_get_present; [|by apply Hr'|].
    2:{ rewrite storeRecords_putStore_eq by (exact Hready || apply isStore_settings).
        apply lookup_insert_eq. }
    rewrite opened_putStore. do 2 f_equal.
    destruct (settingsRecord_fields (VNum 2000) (VStr "lbs") (VStr "system") (w_now w))
      as (Fg & Fu & Ft & _).
    unfold settingsOf. rewrite lookup_insert_eq. do 3 rewrite lookup_insert_ne by done.
    rewrite !lookup_union, Fg, Fu, Ft. cbn [union option_union union_with option_union_with
      from_option Datatypes.id].
    by rewrite new_Date_iso.
  - intros n Hn. by apply storeRecords_putStore_ne.
Qed.

Lemma reset_then_get_returns_the_defaults_witness :
  ready Examples.browser
  ∧ IsoDate.inRange (w_now Examples.browser)
  ∧ settingsAbsent Examples.browser
  ∧ exists w',
      UserSettingsRepository.reset IndexedDB.module Examples.browser
      = Ret (VObj (settingsRecord (VNum 2000) (VStr "lbs") (VStr "system") 1704067200000)) w'
      ∧ UserSettingsRepository.get IndexedDB.module 1 w'
        = Ret (VObj (settingsRecord (VNum 2000) (VStr "lbs") (VStr "system") 1704067200000))
            w'.
Proof.
  assert (Hnow : IsoDate.inRange (w_now Examples.browser))
    by (unfold IsoDate.inRange, IsoDate.maxTime; cbn; lia).
  split; [exact ready_browser|]. split; [exact Hnow|]. split; [reflexivity|].
  destruct (reset_then_get_returns_the_defaults Examples.browser 0 ready_browser Hnow)
    as (w' & H1 & H2 & _).
  exists w'. split; [exact H1|exact H2].
Defined.

(** X20. Once a settings record is stored, [update] terminates: it
    resolves with the stored settings overridden by the properties of its
    argument and stamped with the time of the call, whatever [updatedAt]
    the argument carries. A following [get] resolves to the four settings
    properties of that result. Stated for arguments made of data that have
    no [id] property. *)
Theorem settings_update_then_get (w : world) (s p : gmap string value) (fuel fuel' : nat)
    (Hready : ready w) (Hnow : IsoDate.inRange (w_now w))
    (Hdata : isData (VObj p) = true)
    (Hstored : storeRecords w STORES.SETTINGS !! KStr UserSettingsRepository.SETTINGS_ID
               = Some (VObj s))
    (Hid : p !! "id" = None) :
  exists w',
    UserSettingsRepository.update IndexedDB.module (S (S fuel)) (VObj p) w
    = Ret (VObj (<["updatedAt" := VDate (Some (w_now w))]> (p ∪ settingsOf s))) w'
    ∧ UserSettingsRepository.get IndexedDB.module (S fuel') w'
      = Ret (VObj (settingsOf (<["updatedAt" := VDate (Some (w_now w))]>
                                 (p ∪ settingsOf s)))) w'
    ∧ forall n, n ≠ STORES.SETTINGS -> storeRecords w' n = storeRecords w n.
Proof.
  set (updated := <["updatedAt" := VDate (Some (w_now w))]> (p ∪ settingsOf s)).
  set (ser := <["updatedAt" := VStr (IsoDate.toISOString (w_now w))]>
                (updated ∪ <["id" := VStr UserSettingsRepository.SETTINGS_ID]> ∅)).
  assert (Hk : IndexedDB.keyOf (VObj ser) = Some (KStr UserSettingsRepository.SETTINGS_ID)).
  { apply keyOf_id. subst ser updated. rewrite lookup_insert_ne by done.
    rewrite lookup_union. rewrite lookup_insert_ne by done.
    by rewrite lookup_union, Hid, settingsOf_id. }
  eexists. split; [exact (idb_settings_update_present fuel w s p _ Hready Hstored Hk)|].
  fold updated ser. split.
  - erewrite idb_settings_get_present;
      [|apply ready_putStore; [exact Hready|apply isStore_settings]|].
    2:{ rewrite storeRecords_putStore_eq by (exact Hready || apply isStore_settings).
        apply lookup_insert_eq. }
    rewrite opened_putStore. do 2 f_equal.
    unfold settingsOf. subst ser.
    rewrite !lookup_insert_eq. do 3 rewrite (lookup_insert_ne _ "updatedAt") by done.
    rewrite !lookup_union. rewrite !(lookup_insert_ne _ "id") by done.
    rewrite !lookup_empty. cbn [from_option Datatypes.id new_Date].
    rewrite IsoDateFacts.parse_toISOString by exact Hnow.
    assert (Hu : updated !! "updatedAt" = Some (VDate (Some (w_now w))))
      by (subst updated; apply lookup_insert_eq).
    rewrite Hu. cbn [from_option Datatypes.id new_Date].
    by destruct (updated !! "dailyCalorieGoal"), (updated !! "weightUnit"),
         (updated !! "theme").
  - intros n Hn. by apply storeRecords_putStore_ne.
Qed.

Lemma settled_now : IsoDate.inRange (w_now Examples.settled).
Proof.
  replace (w_now Examples.settled) with 1704153600000 by (vm_compute; reflexivity).
  unfold IsoDate.inRange, IsoDate.maxTime. lia.
Qed.

Lemma settings_update_then_get_witness :
  ready Examples.settled
  ∧ storeRecords Examples.settled STORES.SETTINGS !! KStr UserSettingsRepository.SETTINGS_ID
    = Some (VObj Examples.settingsStored)
  ∧ exists w',
      UserSettingsRepository.update IndexedDB.module 2 (VObj Cases.darkTheme)
        Examples.settled
      = Ret (VObj (<["updatedAt" := VDate (Some (w_now Examples.settled))]>
                     (Cases.darkTheme ∪ settingsOf Examples.settingsStored))) w'
      ∧ UserSettingsRepository.get IndexedDB.module 1 w'
        = Ret (VObj (settingsOf (<["updatedAt" := VDate (Some (w_now Examples.settled))]>
                                   (Cases.darkTheme ∪ settingsOf Examples.settingsStored))))
            w'.
Proof.
  split; [exact ready_settled|]. split; [exact (proj1 settled_settings)|].
  destruct (settings_update_then_get Examples.settled Examples.settingsStored
              Cases.darkTheme 0 0 ready_settled settled_now eq_refl
              (proj1 settled_settings) eq_refl) as (w' & H1 & H2 & _).
  exists w'. split; [exact H1|exact H2].
Defined.

(** X21. [serialize] puts the properties of the settings after the fixed
    identifier, so an [id] carried by the argument of [update] takes its
    place: the record is written under that identifier, the record under
    [user-settings] stays as it was, and a following [get] still resolves
    to the settings from before the update. *)
Theorem settings_update_follows_an_id_in_its_argument (w : world)
    (s p : gmap string value) (other : string) (fuel fuel' : nat)
    (Hready : ready w) (Hdata : isData (VObj p) = true)
    (Hstored : storeRecords w STORES.SETTINGS !! KStr UserSettingsRepository.SETTINGS_ID
               = Some (VObj s))
    (Hid : p !! "id" = Some (VStr other))
    (Hother : other ≠ UserSettingsRepository.SETTINGS_ID) :
  exists (updated ser : gmap string value) w',
    UserSettingsRepository.update IndexedDB.module (S (S fuel)) (VObj p) w
    = Ret (VObj updated) w'
    ∧ storeRecords w' STORES.SETTINGS
      = <[KStr other := VObj ser]> (storeRecords w STORES.SETTINGS)
    ∧ storeRecords w' STORES.SETTINGS !! KStr UserSettingsRepository.SETTINGS_ID
      = Some (VObj s)
    ∧ UserSettingsRepository.get IndexedDB.module (S fuel') w'
      = Ret (VObj (settingsOf s)) w'.
Proof.
  set (updated := <["updatedAt" := VDate (Some (w_now w))]> (p ∪ settingsOf s)).
  set (ser := <["updatedAt" := VStr (IsoDate.toISOString (w_now w))]>
                (updated ∪ <["id" := VStr UserSettingsRepository.SETTINGS_ID]> ∅)).
  assert (Hk : IndexedDB.keyOf (VObj ser) = Some (KStr other)).
  { apply keyOf_id. subst ser updated. rewrite lookup_insert_ne by done.
    rewrite lookup_union. rewrite lookup_insert_ne by done.
    by rewrite lookup_union, Hid. }
  set (w' := putStore STORES.SETTINGS
               (<[KStr other := VObj ser]> (storeRecords w STORES.SETTINGS)) w).
  assert (Hs' : storeRecords w' STORES.SETTINGS
                = <[KStr other := VObj ser]> (storeRecords w STORES.SETTINGS))
    by (apply storeRecords_putStore_eq; [exact Hready|apply isStore_settings]).
  assert (Hkept : storeRecords w' STORES.SETTINGS !! KStr UserSettingsRepository.SETTINGS_ID
                  = Some (VObj s)).
  { rewrite Hs', lookup_insert_ne; [exact Hstored|]. intros [= H]. by apply Hother. }
  exists updated, ser, w'.
  split; [exact (idb_settings_update_present fuel w s p _ Hready Hstored Hk)|].
  split; [exact Hs'|]. split; [exact Hkept|].
  rewrite (idb_settings_get_present fuel' w' s); [|
    apply ready_putStore; [exact Hready|apply isStore_settings]|exact Hkept].
  subst w'. by rewrite opened_putStore.
Qed.

Lemma settings_update_follows_an_id_in_its_argument_witness :
  ready Examples.settled
  ∧ Cases.renamedSettings !! "id" = Some (VStr "mine")
  ∧ exists (updated ser : gmap string value) w',
      UserSettingsRepository.update IndexedDB.module 2 (VObj Cases.renamedSettings)
        Examples.settled = Ret (VObj updated) w'
      ∧ storeRecords w' STORES.SETTINGS
        = <[KStr "mine" := VObj ser]> (storeRecords Examples.settled STORES.SETTINGS)
      ∧ UserSettingsRepository.get IndexedDB.module 1 w'
        = Ret (VObj (settingsOf Examples.settingsStored)) w'.
Proof.
  split; [exact ready_settled|]. split; [reflexivity|].
  destruct (settings_update_follows_an_id_in_its_argument Examples.settled
              Examples.settingsStored Cases.renamedSettings "mine" 0 0 ready_settled
              eq_refl (proj1 settled_settings) eq_refl)
    as (updated & ser & w' & H1 & H2 & _ & H3).
  { discriminate. }
  exists updated, ser, w'. split; [exact H1|]. split; [exact H2|exact H3].
Defined.

(** ** Clearing and importing *)

(** X22. [clearAllData] resolves and leaves every store empty, on the
    durable and, with [window], on the degraded engine; afterwards
    [getAll] of the exercise and of the food repository resolves to the
    empty list. *)
Theorem clearAllData_empties_every_store (wd wl : world)
    (Hdurable : ready wd) (Hdegraded : w_window wl = true) :
  (exists w',
     DataExportRepository.clearAllData IndexedDB.module wd = Ret tt w'
     ∧ (forall n, isStore n -> storeRecords w' n = ∅)
     ∧ ExerciseRepository.getAll IndexedDB.module w' = Ret [] w'
     ∧ FoodRepository.getAll IndexedDB.module w' = Ret [] w')
  ∧ (exists w',
       DataExportRepository.clearAllData LocalStorage.module wl = Ret tt w'
       ∧ (forall n, isStore n -> storeData w' n = ∅)
       ∧ ExerciseRepository.getAll LocalStorage.module w' = Ret [] w'
       ∧ FoodRepository.getAll LocalStorage.module w' = Ret [] w').
Proof.
  split.
  - destruct (cleared_state wd Hdurable) as (Hr & He & Hf & Hs & _).
    eexists. split; [by apply idb_clearAllData_ready|].
    split; [|split].
    + intros n Hn. by destruct (isStore_cases n Hn) as [->|[->| ->]].
    + unfold ExerciseRepository.getAll, ExerciseRepository.storeName.
      rewrite (idb_entity_getAll_empty _ _ Hr isStore_exercises He).
      by rewrite opened_putStore.
    + unfold FoodRepository.getAll, FoodRepository.storeName.
      rewrite (idb_entity_getAll_empty _ _ Hr isStore_foods Hf).
      by rewrite opened_putStore.
  - destruct (ls_clearAllData_window wl Hdegraded) as (Hc & Hw & Hs).
    eexists. split; [exact Hc|]. split; [exact Hs|]. split.
    + apply ls_entity_getAll_empty; [exact Hw|apply Hs, isStore_exercises].
    + apply ls_entity_getAll_empty; [exact Hw|apply Hs, isStore_foods].
Qed.

Lemma clearAllData_empties_every_store_witness :
  ready Cases.gym
  ∧ w_window Examples.stockedDegraded = true
  ∧ exists w',
      DataExportRepository.clearAllData IndexedDB.module Cases.gym = Ret tt w'
      ∧ (forall n, isStore n -> storeRecords w' n = ∅)
      ∧ ExerciseRepository.getAll IndexedDB.module w' = Ret [] w'.
Proof.
  split; [exact ready_gym|]. split; [reflexivity|].
  destruct (proj1 (clearAllData_empties_every_store Cases.gym Examples.stockedDegraded
                     ready_gym eq_refl)) as (w' & H1 & H2 & H3 & _).
  exists w'. split; [exact H1|]. split; [exact H2|exact H3].
Defined.

(** X23. [importData] is not undone when it fails. When the exercises of
    the snapshot hold two records under one identifier, the import rejects
    at the second with the engine's error for [add]; by then the three
    stores were cleared and the first record was created, so the exercise
    store holds that record alone and the food and settings stores are
    empty, whatever they held before. Stated for records made of data. *)
Theorem importData_keeps_what_it_did_before_failing (fuel : nat)
    (data : gmap string value) (r1 r2 : value) (id : string) (w : world)
    (Hready : ready w) (Hdata : isData (VArr [r1; r2]) = true)
    (Hsection : data !! "exercises" = Some (VArr [r1; r2]))
    (Hfirst : storedEntity (KStr id) r1) (Hsecond : storedEntity (KStr id) r2) :
  exists w',
    DataExportRepository.importData IndexedDB.module fuel (VObj data) w
    = Throw (Error "Failed to add item to exercises") w'
    ∧ storeRecords w' STORES.EXERCISES = <[KStr id := r1]> ∅
    ∧ storeRecords w' STORES.FOODS = ∅
    ∧ storeRecords w' STORES.SETTINGS = ∅.
Proof.
  destruct (checkVersion_outcome data w) as (w1 & Hv & Hr1 & _).
  specialize (Hr1 Hready).
  destruct (cleared_state w1 Hr1) as (Hr2 & He & Hf & Hs & _).
  set (w2 := putStore STORES.SETTINGS ∅ (putStore STORES.FOODS ∅
               (putStore STORES.EXERCISES ∅ w1))) in *.
  exists (putStore STORES.EXERCISES (<[KStr id := r1]> ∅) w2).
  split; [|split; [|split]].
  - unfold DataExportRepository.importData.
    rewrite (bind_Ret _ _ _ _ _ Hv).
    rewrite (bind_Ret _ _ _ _ _ (idb_clearAllData_ready w1 Hr1)). fold w2.
    erewrite bind_Throw; [reflexivity|].
    unfold DataExportRepository.importExercises.
    rewrite lift_bind, get_prop_obj by reflexivity. rewrite Hsection.
    cbn [from_option Datatypes.id].
    exact (idb_import_duplicate STORES.EXERCISES w2 r1 r2 id Hr2 isStore_exercises He
             Hfirst Hsecond).
  - by apply storeRecords_putStore_eq; [|apply isStore_exercises].
  - by rewrite storeRecords_putStore_ne.
  - by rewrite storeRecords_putStore_ne.
Qed.

Lemma importData_keeps_what_it_did_before_failing_witness :
  ready Cases.pantry
  ∧ isData (VArr [VObj Examples.benchPressStored; VObj Examples.benchPressStored]) = true
  ∧ Cases.doubledSnapshot !! "exercises"
    = Some (VArr [VObj Examples.benchPressStored; VObj Examples.benchPressStored])
  ∧ exists w',
      DataExportRepository.importData IndexedDB.module 0 (VObj Cases.doubledSnapshot)
        Cases.pantry = Throw (Error "Failed to add item to exercises") w'
      ∧ storeRecords w' STORES.EXERCISES
        = <[KStr "ex-1" := VObj Examples.benchPressStored]> ∅
      ∧ storeRecords w' STORES.FOODS = ∅.
Proof.
  split; [exact ready_pantry|]. split; [reflexivity|]. split; [reflexivity|].
  destruct (importData_keeps_what_it_did_before_failing 0 Cases.doubledSnapshot
              (VObj Examples.benchPressStored) (VObj Examples.benchPressStored) "ex-1"
              Cases.pantry ready_pantry eq_refl eq_refl benchPressStored_entity
              benchPressStored_entity) as (w' & H1 & H2 & H3 & _).
  exists w'. split; [exact H1|]. split; [exact H2|exact H3].
Defined.

(** ** Domain factories *)

(** X24. An exercise made by [createExercise] from data with a valid date
    carries the fresh identifier and the time of the call as [createdAt]
    and [updatedAt], whatever the data holds under these three names, and
    the other properties of the data. It is created in a store that does
    not hold the identifier and then read back unchanged. The same holds
    for [createFoodEntry] and the food store. Stated on the durable
    engine. *)
Theorem created_entity_is_stored_and_read_back (w : world) (uuid : string)
    (data : gmap string value) (d : Z)
    (Hready : ready w) (Hdata : isData (VObj data) = true)
    (Hdate : holdsDate data "date" d) (Hnow : IsoDate.inRange (w_now w)) :
  exists e : gmap string value,
    Domain.createExercise uuid (VObj data) w = Ret (VObj e) w
    ∧ Domain.createFoodEntry uuid (VObj data) w = Ret (VObj e) w
    ∧ e !! "id" = Some (VStr uuid)
    ∧ e !! "createdAt" = Some (VDate (Some (w_now w)))
    ∧ e !! "updatedAt" = Some (VDate (Some (w_now w)))
    ∧ (forall k, k ≠ "id" -> k ≠ "createdAt" -> k ≠ "updatedAt" -> e !! k = data !! k)
    ∧ (storeRecords w STORES.EXERCISES !! KStr uuid = None ->
       exists w',
         ExerciseRepository.create IndexedDB.module (VObj e) w = Ret (VObj e) w'
         ∧ ExerciseRepository.getById IndexedDB.module uuid w' = Ret (VObj e) w')
    ∧ (storeRecords w STORES.FOODS !! KStr uuid = None ->
       exists w',
         FoodRepository.create IndexedDB.module (VObj e) w = Ret (VObj e) w'
         ∧ FoodRepository.getById IndexedDB.module uuid w' = Ret (VObj e) w').
Proof.
  set (e := <["updatedAt" := VDate (Some (w_now w))]>
              (<["createdAt" := VDate (Some (w_now w))]> (<["id" := VStr uuid]> data))).
  assert (Hid : e !! "id" = Some (VStr uuid))
    by (subst e; do 2 rewrite lookup_insert_ne by done; apply lookup_insert_eq).
  assert (Hc : holdsDate e "createdAt" (w_now w)).
  { split; [|exact Hnow]. subst e. rewrite lookup_insert_ne by done.
    apply lookup_insert_eq. }
  assert (Hu : holdsDate e "updatedAt" (w_now w))
    by (split; [subst e; by rewrite lookup_insert_eq|exact Hnow]).
  assert (Hd : holdsDate e "date" d).
  { split; [|apply Hdate]. subst e. rewrite !lookup_insert_ne by done. apply Hdate. }
  exists e. split; [reflexivity|]. split; [reflexivity|]. split; [exact Hid|].
  split; [apply Hc|]. split; [apply Hu|]. split.
  { intros k N1 N2 N3. subst e. by rewrite !lookup_insert_ne. }
  split; intros Hfree.
  - destruct (idb_create_then_getById STORES.EXERCISES w e uuid d _ _ Hready
                isStore_exercises Hid Hd Hc Hu Hfree) as (s & w' & _ & H1 & _ & _ & H2).
    exists w'. split; [exact H1|exact H2].
  - destruct (idb_create_then_getById STORES.FOODS w e uuid d _ _ Hready
                isStore_foods Hid Hd Hc Hu Hfree) as (s & w' & _ & H1 & _ & _ & H2).
    exists w'. split; [exact H1|exact H2].
Qed.

Lemma created_entity_is_stored_and_read_back_witness :
  ready Examples.browser
  ∧ isData (VObj Examples.benchPress) = true
  ∧ exists e : gmap string value,
      Domain.createExercise "3f2c" (VObj Examples.benchPress) Examples.browser
      = Ret (VObj e) Examples.browser
      ∧ e !! "id" = Some (VStr "3f2c")
      ∧ exists w',
          ExerciseRepository.create IndexedDB.module (VObj e) Examples.browser
          = Ret (VObj e) w'
          ∧ ExerciseRepository.getById IndexedDB.module "3f2c" w' = Ret (VObj e) w'.
Proof.
  split; [exact ready_browser|]. split; [reflexivity|].
  assert (Hnow : IsoDate.inRange (w_now Examples.browser))
    by (unfold IsoDate.inRange, IsoDate.maxTime; cbn; lia).
  destruct (created_entity_is_stored_and_read_back Examples.browser "3f2c"
              Examples.benchPress _ ready_browser eq_refl (proj1 benchPress_dates) Hnow)
    as (e & H1 & _ & H2 & _ & _ & _ & H3 & _).
  exists e. split; [exact H1|]. split; [exact H2|]. by apply H3.
Defined.

(** ** Records and texts the engines were not made for *)

(** X25. A write to a store of the degraded engine whose text is not JSON
    replaces that text: [add] finds the store empty, resolves, and leaves
    a store that holds the new record alone; [deleteById] leaves the empty
    store. What the text held is gone. Stated for items made of data. *)
Theorem degraded_write_replaces_unparseable_store (w : world) (n s id : string)
    (item : gmap string value)
    (Hwindow : w_window w = true) (Hitem : isData (VObj item) = true)
    (Hraw : w_localStorage w !! LocalStorage.getStoreKey n = Some (RawText s))
    (Hid : item !! "id" = Some (VStr id))
    (Hown : inheritedValue id = VUndef) :
  (exists w',
     LocalStorage.add n (VObj item) w = Ret (VObj item) w'
     ∧ w_localStorage w' !! LocalStorage.getStoreKey n
       = Some (JsonText (<[id := json_clone (VObj item)]> ∅))
     ∧ LocalStorage.getAll n w' = Ret [json_clone (VObj item)] w')
  ∧ (exists w',
       LocalStorage.deleteById n id w = Ret tt w'
       ∧ w_localStorage w' !! LocalStorage.getStoreKey n = Some (JsonText ∅)).
Proof.
  assert (Hdata : storeData w n = ∅) by (unfold storeData; by rewrite Hraw).
  assert (Hp : get_prop (VObj item) "id" = Ok (VStr id))
    by (rewrite get_prop_obj by reflexivity; by rewrite Hid).
  assert (Hjson : json_clone_object (<[id := VObj item]> ∅)
                  = <[id := json_clone (VObj item)]> ∅).
  { unfold json_clone_object. rewrite omap_insert. cbn. by rewrite omap_empty. }
  split.
  - exists (lsPut n (<[id := VObj item]> ∅) w). split; [|split].
    + rewrite (ls_add_window w n (VObj item) (VStr id) Hwindow Hp). cbn [ToString].
      rewrite (lookupProp_own _ _ Hown), Hdata, lookup_empty. cbn [from_option truthy].
      by rewrite (assignProp_own _ _ _ Hown).
    + unfold lsPut. cbn [set_localStorage w_localStorage].
      by rewrite lookup_insert_eq, Hjson.
    + rewrite ls_getAll_window by exact Hwindow.
      rewrite storeData_lsPut, Hjson. unfold LocalStorage.values.
      by rewrite insert_empty, map_to_list_singleton.
  - exists (lsPut n (delete id ∅) w). split.
    + rewrite (ls_deleteById_window w n id Hwindow). by rewrite Hdata.
    + unfold lsPut. cbn [set_localStorage w_localStorage].
      rewrite lookup_insert_eq, delete_empty. unfold json_clone_object.
      by rewrite omap_empty.
Qed.

Lemma degraded_write_replaces_unparseable_store_witness :
  w_window Examples.corruptStore = true
  ∧ isData (VObj Examples.benchPressStored) = true
  ∧ w_localStorage Examples.corruptStore !! LocalStorage.getStoreKey STORES.EXERCISES
    = Some (RawText "{not json")
  ∧ exists w',
      LocalStorage.add STORES.EXERCISES (VObj Examples.benchPressStored)
        Examples.corruptStore = Ret (VObj Examples.benchPressStored) w'
      ∧ LocalStorage.getAll STORES.EXERCISES w'
        = Ret [json_clone (VObj Examples.benchPressStored)] w'.
Proof.
  split; [reflexivity|]. split; [reflexivity|]. split; [reflexivity|].
  destruct (proj1 (degraded_write_replaces_unparseable_store Examples.corruptStore
                     STORES.EXERCISES "{not json" "ex-1" Examples.benchPressStored
                     eq_refl eq_refl eq_refl eq_refl eq_refl)) as (w' & H1 & _ & H2).
  exists w'. split; [exact H1|exact H2].
Defined.

(** X26. A record without an [id] property divides the engines. The
    durable engine rejects [add] and [update] with a [DataError] and writes
    nothing. The degraded engine files the record under the key
    [undefined]: [update] and a first [add] resolve, the record is found
    under that key, and a further [add] of any record without an [id] is
    rejected as a duplicate. Stated for records made of data. *)
Theorem record_without_id_divides_the_engines (wd wl : world) (n : string)
    (item other : gmap string value)
    (Hdurable : ready wd) (Hstore : isStore n) (Hdegraded : w_window wl = true)
    (Hdata : isData (VObj item) = true)
    (Hid : item !! "id" = None) (Hother : other !! "id" = None) :
  IndexedDB.add n (VObj item) wd = Throw (DOMException "DataError") (opened wd)
  ∧ IndexedDB.update n (VObj item) wd = Throw (DOMException "DataError") (opened wd)
  ∧ (forall m, storeRecords (opened wd) m = storeRecords wd m)
  ∧ exists w',
      LocalStorage.update n (VObj item) wl = Ret (VObj item) w'
      ∧ (storeData wl n !! "undefined" = None ->
         LocalStorage.add n (VObj item) wl = Ret (VObj item) w')
      ∧ storeData w' n !! "undefined" = Some (json_clone (VObj item))
      ∧ LocalStorage.add n (VObj other) w'
        = Throw (Error "Item with id undefined already exists") w'.
Proof.
  assert (Hk : IndexedDB.keyOf (VObj item) = None)
    by (unfold IndexedDB.keyOf; by rewrite Hid).
  assert (Hp : forall m : gmap string value, m !! "id" = None ->
            get_prop (VObj m) "id" = Ok VUndef).
  { intros m Hm. rewrite get_prop_obj by reflexivity. by rewrite Hm. }
  split; [|split; [|split; [intros m; apply storeRecords_opened|]]].
  - unfold IndexedDB.add. open_store wd n Hdurable Hstore. by rewrite Hk.
  - unfold IndexedDB.update. open_store wd n Hdurable Hstore. by rewrite Hk.
  - set (w' := lsPut n (<["undefined" := VObj item]> (storeData wl n)) wl).
    assert (Hstored : storeData w' n !! "undefined" = Some (json_clone (VObj item))).
    { subst w'. rewrite storeData_lsPut. apply json_clone_object_insert. }
    exists w'. split; [|split; [|split; [exact Hstored|]]].
    + rewrite (ls_update_window wl n (VObj item) VUndef Hdegraded (Hp item Hid)).
      cbn [ToString]. by rewrite assignProp_own by reflexivity.
    + intros Hfree.
      rewrite (ls_add_window wl n (VObj item) VUndef Hdegraded (Hp item Hid)).
      cbn [ToString]. rewrite (lookupProp_own _ "undefined") by reflexivity.
      rewrite Hfree. cbn [from_option truthy]. by rewrite assignProp_own by reflexivity.
    + rewrite (ls_add_window w' n (VObj other) VUndef Hdegraded (Hp other Hother)).
      cbn [ToString]. by rewrite (lookupProp_Some _ _ _ Hstored).
Qed.

Lemma record_without_id_divides_the_engines_witness :
  ready Examples.browser
  ∧ w_window Examples.legacyBrowser = true
  ∧ isData (VObj (delete "id" Examples.benchPressStored)) = true
  ∧ delete "id" Examples.benchPressStored !! "id" = None
  ∧ IndexedDB.add STORES.EXERCISES (VObj (delete "id" Examples.benchPressStored))
      Examples.browser
    = Throw (DOMException "DataError") (opened Examples.browser).
Proof.
  assert (Hdata : isData (VObj (delete "id" Examples.benchPressStored)) = true)
    by (vm_compute; reflexivity).
  split; [exact ready_browser|]. split; [reflexivity|]. split; [exact Hdata|].
  split; [reflexivity|].
  exact (proj1 (record_without_id_divides_the_engines Examples.browser
                  Examples.legacyBrowser STORES.EXERCISES
                  (delete "id" Examples.benchPressStored)
                  (delete "id" Examples.benchPressStored)
                  ready_browser isStore_exercises eq_refl Hdata eq_refl eq_refl)).
Defined.

(** ** Export *)

(** X27. For a dataset whose stored exercises and food entries carry ISO
    date texts and whose settings record exists, [exportData] writes
    nothing and resolves to the snapshot that lists the stored exercise and
    food records as they are stored, in ascending order of their
    identifiers, the stored settings without their identifier, the ISO
    text of the time of the call as [exportedAt], and version [1.0.0]. *)
Theorem exportData_lists_the_stored_records (fuel : nat) (w : world)
    (s : gmap string value) (u : Z)
    (Hready : ready w)
    (Hex : storeOk w STORES.EXERCISES) (Hfd : storeOk w STORES.FOODS)
    (Hset : storeRecords w STORES.SETTINGS !! KStr UserSettingsRepository.SETTINGS_ID
            = Some (VObj s))
    (Hu : holdsIso s "updatedAt" u) :
  DataExportRepository.exportData IndexedDB.module (S fuel) w
  = Ret (VObj
           (<["exercises" :=
                VArr (IndexedDB.ordered (map_to_list (storeRecords w STORES.EXERCISES)))]>
           (<["foods" :=
                VArr (IndexedDB.ordered (map_to_list (storeRecords w STORES.FOODS)))]>
           (<["settings" :=
                VObj (<["updatedAt" := VStr (IsoDate.toISOString u)]> (settingsOf s))]>
           (<["exportedAt" := VStr (IsoDate.toISOString (w_now w))]>
           (<["version" := VStr "1.0.0"]> ∅))))))
        (opened w)
  ∧ (forall n, storeRecords (opened w) n = storeRecords w n)
  ∧ settingsOf s !! "id" = None.
Proof.
  split; [|split; [intros n; apply storeRecords_opened|apply settingsOf_id]].
  destruct (idb_export_store w _ Hready isStore_exercises Hex) as (es & He1 & He2).
  pose proof (ready_opened w Hready) as Hr1.
  destruct (idb_export_store (opened w) _ Hr1 isStore_foods (storeOk_opened _ _ Hfd))
    as (fs & Hf1 & Hf2).
  rewrite opened_idem, storeRecords_opened in *.
  unfold DataExportRepository.exportData.
  unfold ExerciseRepository.getAll, ExerciseRepository.storeName.
  rewrite (bind_Ret _ _ _ _ _ He1).
  unfold FoodRepository.getAll, FoodRepository.storeName.
  rewrite (bind_Ret _ _ _ _ _ Hf1).
  erewrite bind_Ret.
  2:{ rewrite (idb_settings_get_present fuel (opened w) s Hr1)
        by (by rewrite storeRecords_opened).
      rewrite opened_idem. reflexivity. }
  unfold mapOutcome. rewrite He2, Hf2. rewrite !bind_lift_Ok.
  unfold DataExportRepository.exportSettings. rewrite get_prop_obj by reflexivity.
  rewrite (settingsOf_updatedAt s u Hu).
  cbn [from_option Datatypes.id obind call_toISOString].
  rewrite bind_lift_Ok. unfold bind, read. cbn [ret spread].
  by rewrite (proj1 (opened_fields w)).
Qed.

Lemma exportData_lists_the_stored_records_witness :
  ready Examples.settled
  ∧ storeOk Examples.settled STORES.EXERCISES
  ∧ exists snapshot,
      DataExportRepository.exportData IndexedDB.module 1 Examples.settled
      = Ret (VObj snapshot) (opened Examples.settled)
      ∧ snapshot !! "version" = Some (VStr "1.0.0").
Proof.
  split; [exact ready_settled|]. split; [exact settled_exercises|].
  eexists. split.
  - exact (proj1 (exportData_lists_the_stored_records 0 Examples.settled
                    Examples.settingsStored 1704067200000 ready_settled settled_exercises
                    settled_foods (proj1 settled_settings) (proj2 settled_settings))).
  - reflexivity.
Defined.

(** ** Settings made by the factory *)

(** X28. [createUserSettings(partial)] followed by the repository's
    [serialize] and [deserialize] yields complete settings: [updatedAt] is
    the time of the call, whatever the partial carries, and each of the
    three preferences is the partial's value when it has one and the
    default otherwise. *)
Theorem createUserSettings_fills_in_the_defaults (w : world)
    (partial : gmap string value) (Hnow : IsoDate.inRange (w_now w)) :
  exists s r : gmap string value,
    Domain.createUserSettings (VObj partial) w = Ret (VObj s) w
    ∧ UserSettingsRepository.serialize (VObj s) = Ok (VObj r)
    ∧ UserSettingsRepository.deserialize (VObj r)
      = Ok (VObj (settingsRecord
                    (default (VNum 2000) (partial !! "dailyCalorieGoal"))
                    (default (VStr "lbs") (partial !! "weightUnit"))
                    (default (VStr "system") (partial !! "theme"))
                    (w_now w))).
Proof.
  set (s := <["updatedAt" := VDate (Some (w_now w))]>
              (partial ∪ spread (DEFAULT_USER_SETTINGS w))).
  assert (Hu : s !! "updatedAt" = Some (VDate (Some (w_now w))))
    by (subst s; apply lookup_insert_eq).
  exists s. eexists. split; [reflexivity|].
  split; [exact (settings_serialize s (w_now w) Hu)|].
  unfold UserSettingsRepository.deserialize. rewrite !get_prop_obj by reflexivity.
  rewrite lookup_insert_eq. do 3 rewrite (lookup_insert_ne _ "updatedAt") by done.
  rewrite !lookup_union. subst s.
  do 3 rewrite (lookup_insert_ne _ "updatedAt") by done.
  rewrite !lookup_union. unfold DEFAULT_USER_SETTINGS. cbn [spread].
  rewrite lookup_insert_eq.
  rewrite (lookup_insert_ne _ "dailyCalorieGoal" "weightUnit") by done.
  rewrite lookup_insert_eq.
  do 2 rewrite (lookup_insert_ne _ _ "theme") by done. rewrite lookup_insert_eq.
  do 2 rewrite (lookup_insert_ne _ "id") by done. rewrite !lookup_empty.
  cbn [obind from_option Datatypes.id new_Date].
  rewrite IsoDateFacts.parse_toISOString by exact Hnow.
  unfold settingsRecord.
  by destruct (partial !! "dailyCalorieGoal"), (partial !! "weightUnit"),
       (partial !! "theme").
Qed.

Lemma createUserSettings_fills_in_the_defaults_witness :
  IsoDate.inRange (w_now Examples.browser)
  ∧ exists s r : gmap string value,
      Domain.createUserSettings (VObj Cases.darkTheme) Examples.browser
      = Ret (VObj s) Examples.browser
      ∧ UserSettingsRepository.serialize (VObj s) = Ok (VObj r)
      ∧ UserSettingsRepository.deserialize (VObj r)
        = Ok (VObj (settingsRecord (VNum 2000) (VStr "lbs") (VStr "dark") 1704067200000)).
Proof.
  assert (Hnow : IsoDate.inRange (w_now Examples.browser))
    by (unfold IsoDate.inRange, IsoDate.maxTime; cbn; lia).
  split; [exact Hnow|].
  exact (createUserSettings_fills_in_the_defaults Examples.browser Cases.darkTheme Hnow).
Defined.
